(** * LazyTortus: ADS-B / Mode-S codec, Beast framing and tracker

    A shallow embedding of the Python sources

      - [aircraft_simulator.py]  (ADSBEncoder, Aircraft, BeastEncoder)
      - [send_adsb.py]           (ADSBEncoder)
      - [atc_army_offline.py]    (ADSBReceiver, WebHandler)
      - [atc_debian9.py]         (Aircraft, ADSBReceiver, WebHandler)

    Conventions.
      - A Python [str] and a Python [bytes] are both [list ascii]
        (an [ascii] is one 8-bit character; a [str] here is ASCII text).
      - A Python [int] is a [Z]; its bit operations are [Z.land], [Z.lxor],
        [Z.shiftl], [Z.shiftr], [Z.testbit].
      - A Python [float] is a primitive binary64 [float]; the operations
        that IEEE 754 defines ([+ - * /], comparisons, [abs], [sqrt],
        conversions) are computed, and the functions Python takes from the
        C math library are the fields of a record [pymath].
      - A raised exception is [None]; [x <- e ;; k] threads it.
      - [time.time()] and [random.randint] are arguments of the functions
        that call them.
      - A [dict] is an association list in insertion order. *)

From Stdlib Require Import Ascii String.
From Stdlib Require Import ZArith List Bool Lia.
From Stdlib Require Import PrimFloat FloatOps SpecFloat FloatAxioms.
Import ListNotations.

Local Open Scope Z_scope.
#[local] Set Warnings "-inexact-float".

(** ** Python runtime: exceptions, strings, integers *)

Module Py.

Notation "x <- e ;; k" :=
  (match e with Some x => k | None => None end)
  (at level 61, e at next level, right associativity).
Notation "' p <- e ;; k" :=
  (match e with Some p => k | None => None end)
  (at level 61, p pattern, e at next level, right associativity).

(** What a block with a [while] loop can do: return, raise, or use up the
    iterations it was given. *)
Inductive outcome (A : Type) : Type :=
| Ret (a : A)
| Raise
| OutOfFuel.
Arguments Ret {A} a.
Arguments Raise {A}.
Arguments OutOfFuel {A}.

Definition raising {A : Type} (e : option A) : outcome A :=
  match e with Some a => Ret a | None => Raise end.

Notation "x <~ e ;; k" :=
  (match e with Ret x => k | Raise => Raise | OutOfFuel => OutOfFuel end)
  (at level 61, e at next level, right associativity).
Notation "' p <~ e ;; k" :=
  (match e with Ret p => k | Raise => Raise | OutOfFuel => OutOfFuel end)
  (at level 61, p pattern, e at next level, right associativity).

Definition str := list ascii.
Definition bytes := list ascii.

(** A literal. *)
Definition py (s : string) : str := list_ascii_of_string s.

Definition ord (c : ascii) : Z := Z.of_N (N_of_ascii c).
Definition chr (n : Z) : ascii := ascii_of_N (Z.to_N n).

Definition str_eqb (a b : str) : bool :=
  if list_eq_dec ascii_dec a b then true else false.

(** [s[a:b]], [s[a:]], [s[:b]] for non-negative indices, and [s[-n:]]. *)
Definition slice (a b : nat) (s : str) : str := firstn (b - a) (skipn a s).
Definition slice_from (a : nat) (s : str) : str := skipn a s.
Definition slice_last (n : nat) (s : str) : str := skipn (length s - n) s.

(** [s[i]]: IndexError past the end. *)
Definition index (s : str) (i : nat) : option ascii := nth_error s i.

(** [c in s] and [s.find(c, start)] for a single character [c]. *)
Definition contains (c : ascii) (s : str) : bool := existsb (Ascii.eqb c) s.

Fixpoint find_from (c : ascii) (s : str) (pos : nat) : option nat :=
  match s with
  | [] => None
  | x :: t => if Ascii.eqb x c then Some pos else find_from c t (S pos)
  end.

Definition find (c : ascii) (s : str) (start : nat) : option nat :=
  find_from c (skipn start s) start.

(** The characters [int()] skips ([Py_ISSPACE]): space and \t \n \v \f \r. *)
Definition is_space (c : ascii) : bool :=
  (ord c =? 32) || ((9 <=? ord c) && (ord c <=? 13)).

(** The characters [str.strip()] removes from ASCII text: the above and the
    separators 0x1C..0x1F. *)
Definition is_uspace (c : ascii) : bool :=
  is_space c || ((28 <=? ord c) && (ord c <=? 31)).

Fixpoint lstrip_with (f : ascii -> bool) (s : str) : str :=
  match s with
  | c :: t => if f c then lstrip_with f t else s
  | [] => []
  end.

Definition rstrip_with (f : ascii -> bool) (s : str) : str :=
  rev (lstrip_with f (rev s)).

Definition strip (s : str) : str := rstrip_with is_uspace (lstrip_with is_uspace s).

(** [str.upper()] on ASCII text. *)
Definition upper_char (c : ascii) : ascii :=
  if (97 <=? ord c) && (ord c <=? 122) then chr (ord c - 32) else c.
Definition upper (s : str) : str := map upper_char s.

(** [s.replace(c, '')]. *)
Definition remove_char (c : ascii) (s : str) : str :=
  filter (fun x => negb (Ascii.eqb x c)) s.

(** [data.decode('ascii', errors='ignore')]: bytes of 0x80 and above are dropped. *)
Definition decode_ascii_ignore (b : bytes) : str :=
  filter (fun c => ord c <? 128) b.

(** [s.encode('ascii')]: raises on a character above 127. *)
Definition encode_ascii (s : str) : option bytes :=
  if forallb (fun c => ord c <? 128) s then Some s else None.

(** *** [dict] with [str] keys: the items in insertion order *)

Definition dict (V : Type) : Type := list (str * V).

(** [d[k]] ([None] for KeyError), [d[k] = v] (a new key goes last), [del d[k]]. *)
Fixpoint dict_get {V : Type} (d : dict V) (k : str) : option V :=
  match d with
  | [] => None
  | (k', v) :: t => if str_eqb k' k then Some v else dict_get t k
  end.

Fixpoint dict_set {V : Type} (d : dict V) (k : str) (v : V) : dict V :=
  match d with
  | [] => [(k, v)]
  | (k', v') :: t => if str_eqb k' k then (k', v) :: t else (k', v') :: dict_set t k v
  end.

Fixpoint dict_del {V : Type} (d : dict V) (k : str) : dict V :=
  match d with
  | [] => []
  | (k', v') :: t => if str_eqb k' k then t else (k', v') :: dict_del t k
  end.

(** [keys = [k for k, v in d.items() if p(v)]], then [for k in keys: del d[k]]. *)
Definition dict_del_where {V : Type} (p : V -> bool) (d : dict V) : dict V :=
  let keys := map fst (filter (fun kv => p (snd kv)) d) in
  fold_left dict_del keys d.

(** A loop over [d.items()] that appends [e] where [f k v] is [Some (Some e)],
    passes where it is [Some None], and stops at an exception. *)
Fixpoint dict_collect {V E : Type} (f : str -> V -> option (option E)) (d : dict V)
  : option (list E) :=
  match d with
  | [] => Some []
  | (k, v) :: t =>
      match f k v with
      | None => None
      | Some None => dict_collect f t
      | Some (Some e) => r <- dict_collect f t ;; Some (e :: r)
      end
  end.

(** [[f(x) for x in l]], stopping at an exception. *)
Fixpoint all_some {A : Type} (l : list (option A)) : option (list A) :=
  match l with
  | [] => Some []
  | x :: t => a <- x ;; r <- all_some t ;; Some (a :: r)
  end.

(** *** [int(s, base)] *)

(** The value of a digit character, as [_PyLong_DigitValue]: 0-9, a-z, A-Z. *)
Definition digit_value (c : ascii) : option Z :=
  let n := ord c in
  if (48 <=? n) && (n <=? 57) then Some (n - 48)
  else if (97 <=? n) && (n <=? 122) then Some (n - 87)
  else if (65 <=? n) && (n <=? 90) then Some (n - 55)
  else None.

Definition is_digit (base : Z) (c : ascii) : bool :=
  match digit_value c with
  | Some d => d <? base
  | None => false
  end.

Definition underscore : ascii := "_"%char.

(** Digits with single underscores between them, read most significant
    first; [prev_us] says that the previous character was an underscore. *)
Fixpoint parse_body (base : Z) (acc : Z) (prev_us : bool) (s : str) : option Z :=
  match s with
  | [] => if prev_us then None else Some acc
  | c :: t =>
      if Ascii.eqb c underscore then
        if prev_us then None else parse_body base acc true t
      else
        match digit_value c with
        | Some d => if d <? base then parse_body base (acc * base + d) false t else None
        | None => None
        end
  end.

(** The letter of the base prefix ([0x], [0b]) that [int(s, base)] accepts. *)
Definition prefix_letter (base : Z) : option ascii :=
  if base =? 16 then Some "x"%char
  else if base =? 2 then Some "b"%char
  else None.

Definition strip_prefix (base : Z) (s : str) : str :=
  match prefix_letter base, s with
  | Some l, z :: x :: t =>
      if Ascii.eqb z "0"%char && Ascii.eqb (upper_char x) (upper_char l) then
        match t with
        | u :: t' => if Ascii.eqb u underscore then t' else t
        | [] => t
        end
      else s
  | _, _ => s
  end.

Definition parse_int (base : Z) (s : str) : option Z :=
  let s1 := rstrip_with is_space (lstrip_with is_space s) in
  let '(neg, s2) :=
    match s1 with
    | c :: t =>
        if Ascii.eqb c "-"%char then (true, t)
        else if Ascii.eqb c "+"%char then (false, t)
        else (false, s1)
    | [] => (false, s1)
    end in
  match strip_prefix base s2 with
  | [] => None
  | c :: t =>
      if Ascii.eqb c underscore then None
      else
        v <- parse_body base 0 false (c :: t) ;;
        Some (if neg then - v else v)
  end.

(** *** [format(n, '0wb')], [format(n, '0wX')], [bin(n)], [str.zfill] *)

Definition digit_char (upper_case : bool) (d : Z) : ascii :=
  if d <? 10 then chr (48 + d)
  else chr ((if upper_case then 55 else 87) + d).

(** The [w] least significant digits of [n], most significant first. *)
Fixpoint fixed_digits (base : Z) (upper_case : bool) (w : nat) (n : Z) : str :=
  match w with
  | O => []
  | S w' => fixed_digits base upper_case w' (n / base) ++ [digit_char upper_case (n mod base)]
  end.

(** How many digits [n >= 0] has in a base that is a power of two. *)
Definition ndigits (base : Z) (n : Z) : nat :=
  if n <=? 0 then 1%nat else Z.to_nat (Z.log2 n / Z.log2 base + 1).

Definition digits (base : Z) (upper_case : bool) (n : Z) : str :=
  fixed_digits base upper_case (ndigits base n) n.

(** [format(n, '0{w}{b,X}')]: zero padding to [w] places, the sign counted. *)
Definition format_int (base : Z) (upper_case : bool) (w : nat) (n : Z) : str :=
  if n <? 0 then
    "-"%char :: fixed_digits base upper_case (Nat.max (w - 1) (ndigits base (- n))) (- n)
  else fixed_digits base upper_case (Nat.max w (ndigits base n)) n.

Definition format_b (w : nat) (n : Z) : str := format_int 2 false w n.
Definition format_X (w : nat) (n : Z) : str := format_int 16 true w n.

(** [bin(n)]. *)
Definition bin (n : Z) : str :=
  if n <? 0 then py "-0b" ++ digits 2 false (- n) else py "0b" ++ digits 2 false n.

(** [s.zfill(w)]: zeros after a leading sign. *)
Definition zfill (w : nat) (s : str) : str :=
  let pad := repeat "0"%char (w - length s) in
  match s with
  | c :: t =>
      if Ascii.eqb c "-"%char || Ascii.eqb c "+"%char then c :: pad ++ t else pad ++ s
  | [] => pad
  end.

(** [b.hex()] and [bytes.fromhex(s)]. *)
Definition hex (b : bytes) : str :=
  flat_map (fun c => fixed_digits 16 false 2 (ord c)) b.

Fixpoint fromhex_fuel (fuel : nat) (s : str) : option bytes :=
  match fuel with
  | O => None
  | S fuel' =>
      match lstrip_with is_space s with
      | [] => Some []
      | h :: l :: t =>
          if is_digit 16 h && is_digit 16 l then
            hv <- digit_value h ;;
            lv <- digit_value l ;;
            rest <- fromhex_fuel fuel' t ;;
            Some (chr (hv * 16 + lv) :: rest)
          else None
      | _ => None
      end
  end.

Definition fromhex (s : str) : option bytes := fromhex_fuel (S (length s)) s.

(** [n.to_bytes(k, byteorder='big')]: OverflowError outside [0, 256^k). *)
Definition to_bytes_big (k : nat) (n : Z) : option bytes :=
  if (0 <=? n) && (n <? 256 ^ Z.of_nat k)
  then Some (map (fun i => chr ((n / 256 ^ Z.of_nat i) mod 256)) (rev (seq 0 k)))
  else None.

End Py.

(** ** Python runtime: floats *)

Module PyFloat.
Import Py.

(** [float(n)] for an [int]: to nearest even; OverflowError past the range. *)
Definition float_of_int (n : Z) : option float :=
  let f := SF2Prim (binary_normalize 53 1024 n 0 false) in
  if PrimFloat.is_infinity f then None else Some f.

(** [int(x)]: toward zero; ValueError on NaN, OverflowError on infinities. *)
Definition int_of_float (x : float) : option Z :=
  match Prim2SF x with
  | S754_zero _ => Some 0
  | S754_finite s m e =>
      let v := if 0 <=? e then Z.pos m * 2 ^ e else Z.pos m / 2 ^ (- e) in
      Some (if s then - v else v)
  | S754_infinity _ => None
  | S754_nan => None
  end.

(** [math.floor(x)]: an [int]; the same errors. *)
Definition math_floor (x : float) : option Z :=
  match Prim2SF x with
  | S754_zero _ => Some 0
  | S754_finite s m e =>
      let v := if s then - Z.pos m else Z.pos m in
      Some (if 0 <=? e then v * 2 ^ e else v / 2 ^ (- e))
  | S754_infinity _ => None
  | S754_nan => None
  end.

(** [x / y] on floats: ZeroDivisionError when [y == 0]. *)
Definition fdiv (x y : float) : option float :=
  if PrimFloat.eqb y 0 then None else Some (PrimFloat.div x y).

(** [a / b] on ints (true division), for operands a float holds exactly;
    larger ones, which CPython divides as long integers, are left out. *)
Definition int_true_div (a b : Z) : option float :=
  if (Z.abs a <=? 2 ^ 53) && (Z.abs b <=? 2 ^ 53) then
    x <- float_of_int a ;;
    y <- float_of_int b ;;
    fdiv x y
  else None.

(** [math.pi], and the constants of [math.radians] and [math.degrees]. *)
Definition math_pi : float := 0x1.921fb54442d18p+1%float.
Definition math_radians (x : float) : float := (x * (math_pi / 180))%float.
Definition math_degrees (x : float) : float := (x * (180 / math_pi))%float.

(** [math.sqrt(x)]: ValueError below zero. *)
Definition math_sqrt (x : float) : option float :=
  if PrimFloat.ltb x 0 then None else Some (PrimFloat.sqrt x).

(** What Python takes from the C math library: [math.sin], [math.cos],
    [math.acos], [math.atan2], float [**] and float [%], each with the
    exceptions Python raises around it. *)
Record pymath := {
  math_sin : float -> option float;
  math_cos : float -> option float;
  math_acos : float -> option float;
  math_atan2 : float -> float -> option float;
  float_pow : float -> float -> option float;
  float_mod : float -> float -> option float
}.

(** A math library that raises on every call: enough wherever a guard
    returns before the library is reached. *)
Definition no_math : pymath :=
  {| math_sin := fun _ => None; math_cos := fun _ => None;
     math_acos := fun _ => None; math_atan2 := fun _ _ => None;
     float_pow := fun _ _ => None; float_mod := fun _ _ => None |}.

End PyFloat.

(** ** aircraft_simulator.py *)

Module aircraft_simulator.
Import Py PyFloat.

Module ADSBEncoder.

Definition GENERATOR : Z := 0xFFFA0480900.

(** [ADSBEncoder.crc(msg_hex, encode=True)]. *)
Definition crc (msg_hex : str) (encode : bool) : option Z :=
  n <- parse_int 16 msg_hex ;;
  let msg_bin := zfill (length msg_hex * 4) (skipn 2 (bin n)) in
  let msg_bin := if encode then msg_bin ++ repeat "0"%char 24 else msg_bin in
  msg_int <- parse_int 2 msg_bin ;;
  let len := Z.of_nat (length msg_bin) in
  let msg_int :=
    fold_left
      (fun m i =>
         if Z.testbit m (len - 1 - Z.of_nat i)
         then Z.lxor m (Z.shiftl (Z.shiftr GENERATOR 1) (len - 25 - Z.of_nat i))
         else m)
      (seq 0 (length msg_bin - 24)) msg_int in
  Some (Z.land msg_int 0xFFFFFF).

Definition charset : str :=
  py "#ABCDEFGHIJKLMNOPQRSTUVWXYZ##### ###############0123456789######".

(** [idx = charset.find(char); idx if idx >= 0 else 0]. *)
Definition char_code (c : ascii) : Z :=
  match find c charset 0 with
  | Some i => Z.of_nat i
  | None => 0
  end.

(** The tail of every encoder: [msg_hex] from the bit string, then the CRC. *)
Definition finish (hex_width : nat) (msg_bin : str) : option str :=
  m <- parse_int 2 msg_bin ;;
  let msg_hex := format_X hex_width m in
  c <- crc msg_hex true ;;
  Some (msg_hex ++ format_X 6 c).

(** [ADSBEncoder.encode_callsign(icao, callsign)]. *)
Definition encode_callsign (icao callsign : str) : option str :=
  let df := 17 in
  let ca := 5 in
  let tc := 4 in
  let callsign := upper (firstn 8 (callsign ++ py "        ")) in
  let encoded_chars := map char_code callsign in
  i <- parse_int 16 icao ;;
  let msg_bin :=
    format_b 5 df ++ format_b 3 ca ++ format_b 24 i ++ format_b 5 tc ++ format_b 3 0
    ++ flat_map (format_b 6) encoded_chars in
  finish 16 msg_bin.

(** [ADSBEncoder.nl(lat)], [lat] in radians. *)
Definition nl (M : pymath) (lat : float) : option Z :=
  if PrimFloat.eqb lat 0 then Some 59
  else if PrimFloat.leb (math_pi / 2)%float (PrimFloat.abs lat) then Some 1
  else
    let nz := 15%float in
    c <- math_cos M (math_pi / (2 * nz))%float ;;
    let a := (1 - c)%float in
    cl <- math_cos M lat ;;
    b <- float_pow M cl 2 ;;
    q <- fdiv a b ;;
    if PrimFloat.leb (1 - q)%float 0 then Some 1
    else
      ac <- math_acos M (1 - q)%float ;;
      r <- fdiv (2 * math_pi)%float ac ;;
      math_floor r.

(** [int((z - int(z)) * (2 ** nb)) & ((2 ** nb) - 1)] with [nb = 17]. *)
Definition cpr_fraction (z : float) : option Z :=
  zi <- int_of_float z ;;
  zf <- float_of_int zi ;;
  v <- int_of_float ((z - zf) * 131072)%float ;;
  Some (Z.land v (2 ^ 17 - 1)).

(** The CPR part of [encode_position]: [(lat_cpr, lon_cpr)]. *)
Definition cpr_encode (M : pymath) (lat lon : float) (time_bit : Z) : option (Z * Z) :=
  let nz := if time_bit =? 0 then 60%float else 59%float in
  dlat <- fdiv 360 nz ;;
  yz <- fdiv lat dlat ;;
  lat_cpr <- cpr_fraction yz ;;
  lat_rad <- fdiv (lat * math_pi)%float 180 ;;
  nlv <- nl M lat_rad ;;
  let n := Z.max (if time_bit =? 0 then nlv else nlv - 1) 1 in
  nf <- float_of_int n ;;
  dlon <- fdiv 360 nf ;;
  xz <- fdiv lon dlon ;;
  lon_cpr <- cpr_fraction xz ;;
  Some (lat_cpr, lon_cpr).

(** The altitude field: [format(alt_code, '011b')] with the Q bit
    inserted after its first eight characters. *)
Definition alt_field (alt_code : Z) : str :=
  let alt_bin := format_b 11 alt_code in
  slice 0 8 alt_bin ++ py "1" ++ slice 8 11 alt_bin.

(** The bit string of [encode_position] from its fields, checked and
    finished as the function does. *)
Definition position_frame (icao : str) (alt_code time_bit lat_cpr lon_cpr : Z) : option str :=
  let df := 17 in
  let ca := 5 in
  let tc := 11 in
  i <- parse_int 16 icao ;;
  let msg_bin :=
    format_b 5 df ++ format_b 3 ca ++ format_b 24 i ++ format_b 5 tc
    ++ format_b 2 0 ++ format_b 1 0 ++ alt_field alt_code
    ++ format_b 1 0 ++ format_b 1 time_bit
    ++ format_b 17 lat_cpr ++ format_b 17 lon_cpr in
  if Nat.eqb (length msg_bin) 88 then finish 22 msg_bin else None.

(** [ADSBEncoder.encode_position(icao, lat, lon, alt, time_bit)]. *)
Definition encode_position (M : pymath) (icao : str) (lat lon : float) (alt time_bit : Z)
  : option str :=
  q <- int_true_div (alt + 1000) 25 ;;
  alt_code <- int_of_float q ;;
  '(lat_cpr, lon_cpr) <- cpr_encode M lat lon time_bit ;;
  position_frame icao alt_code time_bit lat_cpr lon_cpr.

(** The bit string of [encode_velocity] from its fields. *)
Definition velocity_frame (icao : str)
  (v_ew_sign v_ew_encoded v_ns_sign v_ns_encoded vr_sign vr_encoded : Z) : option str :=
  let df := 17 in
  let ca := 5 in
  let tc := 19 in
  let st := 1 in
  i <- parse_int 16 icao ;;
  let msg_bin :=
    format_b 5 df ++ format_b 3 ca ++ format_b 24 i ++ format_b 5 tc ++ format_b 3 st
    ++ format_b 1 0 ++ format_b 1 0 ++ format_b 3 0
    ++ format_b 1 v_ew_sign ++ format_b 10 v_ew_encoded
    ++ format_b 1 v_ns_sign ++ format_b 10 v_ns_encoded
    ++ format_b 1 0 ++ format_b 1 vr_sign ++ format_b 9 vr_encoded
    ++ format_b 2 0 ++ format_b 1 0 in
  let msg_bin := msg_bin ++ repeat "0"%char (88 - length msg_bin) in
  if Nat.eqb (length msg_bin) 88 then finish 22 msg_bin else None.

(** [0 if v >= 0 else 1] and [int(abs(v))] of a float component. *)
Definition sign_bit (v : float) : Z := if PrimFloat.leb 0 v then 0 else 1.
Definition magnitude (v : float) : option Z := int_of_float (PrimFloat.abs v).

(** The vertical-rate field of [encode_velocity], [vr] an int. *)
Definition vr_field (vr : Z) : option Z :=
  if vr =? 0 then Some 0
  else
    q <- int_true_div (Z.abs vr) 64 ;;
    k <- int_of_float q ;;
    Some (Z.min (k + 1) 511).

(** [ADSBEncoder.encode_velocity(icao, speed, heading, vr=0)]. *)
Definition encode_velocity (M : pymath) (icao : str) (speed heading : float) (vr : Z)
  : option str :=
  let heading_rad := math_radians heading in
  s <- math_sin M heading_rad ;;
  let v_ew := (speed * s)%float in
  c <- math_cos M heading_rad ;;
  let v_ns := (speed * c)%float in
  let v_ew_sign := sign_bit v_ew in
  let v_ns_sign := sign_bit v_ns in
  ew <- magnitude v_ew ;;
  let v_ew_encoded := Z.min (ew + 1) 1023 in
  ns <- magnitude v_ns ;;
  let v_ns_encoded := Z.min (ns + 1) 1023 in
  let vr_sign := if 0 <=? vr then 0 else 1 in
  vr_encoded <- vr_field vr ;;
  velocity_frame icao v_ew_sign v_ew_encoded v_ns_sign v_ns_encoded vr_sign vr_encoded.

End ADSBEncoder.

(** [class Aircraft]; [ac_type] is the attribute atc_army_offline.py adds. *)
Record Aircraft : Type := {
  icao : str;
  callsign : str;
  center_lat : float;
  center_lon : float;
  radius_nm : float;
  altitude : Z;
  speed_knots : float;
  clockwise : bool;
  angle : float;
  angular_velocity : float;
  last_position_time : float;
  last_velocity_time : float;
  last_callsign_time : float;
  position_frame_even : bool;
  ac_type : option str
}.

(** [Aircraft.get_position()]. *)
Definition get_position (M : pymath) (ac : Aircraft) : option (float * float) :=
  radius_deg <- fdiv (radius_nm ac) 60 ;;
  s <- math_sin M (angle ac) ;;
  let lat := (center_lat ac + radius_deg * s)%float in
  c <- math_cos M (angle ac) ;;
  cc <- math_cos M (math_radians (center_lat ac)) ;;
  q <- fdiv (radius_deg * c)%float cc ;;
  let lon := (center_lon ac + q)%float in
  Some (lat, lon).

(** [Aircraft.update(dt)]. *)
Definition update (M : pymath) (ac : Aircraft) (dt : float) : option Aircraft :=
  let a := (angle ac + angular_velocity ac * dt)%float in
  a' <- float_mod M a (2 * math_pi)%float ;;
  Some {| icao := icao ac; callsign := callsign ac; center_lat := center_lat ac;
          center_lon := center_lon ac; radius_nm := radius_nm ac; altitude := altitude ac;
          speed_knots := speed_knots ac; clockwise := clockwise ac; angle := a';
          angular_velocity := angular_velocity ac;
          last_position_time := last_position_time ac;
          last_velocity_time := last_velocity_time ac;
          last_callsign_time := last_callsign_time ac;
          position_frame_even := position_frame_even ac; ac_type := ac_type ac |}.

(** [Aircraft.get_heading()]. *)
Definition get_heading (M : pymath) (ac : Aircraft) : option float :=
  c <- math_cos M (angle ac) ;;
  s <- math_sin M (angle ac) ;;
  let '(v_lat, v_lon) :=
    if clockwise ac then (c, (- s)%float) else ((- c)%float, s) in
  a <- math_atan2 M v_lon v_lat ;;
  float_mod M (math_degrees a) 360.

Module BeastEncoder.

Definition ESC : Z := 0x1A.

(** [for byte in bs: if byte == ESC: encoded.append(ESC); encoded.append(byte)]. *)
Definition escape (bs : bytes) : bytes :=
  flat_map (fun b => if ord b =? ESC then [chr ESC; b] else [b]) bs.

(** [BeastEncoder.encode_message(msg_hex)]; [now] is [time.time()],
    [signal_level] is [random.randint(150, 250)]. *)
Definition encode_message (msg_hex : str) (now : float) (signal_level : Z) : option bytes :=
  msg_bytes <- fromhex msg_hex ;;
  msg_type <-
    (if Nat.eqb (length msg_bytes) 7 then Some 0x32
     else if Nat.eqb (length msg_bytes) 14 then Some 0x33
     else None) ;;
  timestamp_us <- int_of_float (now * 1000000)%float ;;
  let timestamp_12mhz := Z.land (timestamp_us * 12) 0xFFFFFFFFFFFF in
  timestamp_bytes <- to_bytes_big 6 timestamp_12mhz ;;
  if (0 <=? signal_level) && (signal_level <? 256) then
    Some ([chr ESC; chr msg_type]
          ++ escape timestamp_bytes
          ++ (if signal_level =? ESC then [chr ESC] else [])
          ++ [chr signal_level]
          ++ escape msg_bytes)
  else None.

End BeastEncoder.

End aircraft_simulator.

(** ** send_adsb.py *)

Module send_adsb.
Import Py PyFloat.

Module ADSBEncoder.

Definition generator : Z := 0xFFFA0480.

(** [ADSBEncoder.crc(msg, encode=False)]. *)
Definition crc (msg : str) (encode : bool) : option Z :=
  n <- parse_int 16 msg ;;
  let msg_bin := zfill (length msg * 4) (skipn 2 (bin n)) in
  let msg_bin := if encode then msg_bin ++ repeat "0"%char 24 else msg_bin in
  msg_int <- parse_int 2 msg_bin ;;
  let len := Z.of_nat (length msg_bin) in
  let msg_int :=
    fold_left
      (fun m i =>
         if Z.testbit m (len - Z.of_nat i - 1)
         then Z.lxor m (Z.shiftr generator (Z.of_nat i))
         else m)
      (seq 0 (length msg_bin - 24)) msg_int in
  Some (Z.land msg_int 0xFFFFFF).

(** [ADSBEncoder.nl(lat_rad)]. *)
Definition nl (M : pymath) (lat_rad : float) : option Z :=
  if PrimFloat.leb 1.5707963%float (PrimFloat.abs lat_rad) then Some 1
  else
    let nz := 15%float in
    c <- math_cos M (math_pi / (2 * nz))%float ;;
    let a := (1 - c)%float in
    cl <- math_cos M lat_rad ;;
    b <- float_pow M cl 2 ;;
    q <- fdiv a b ;;
    if PrimFloat.leb (1 - q)%float 0 then Some 1
    else
      ac <- math_acos M (1 - q)%float ;;
      r <- fdiv (2 * math_pi)%float ac ;;
      int_of_float r.

Definition charset : str :=
  py "#ABCDEFGHIJKLMNOPQRSTUVWXYZ##### ###############0123456789######".

(** [charset.index(char) if char in charset else 0], on the uppercased character. *)
Definition char_code (c : ascii) : Z :=
  let c := upper_char c in
  match find c charset 0 with
  | Some i => Z.of_nat i
  | None => 0
  end.

Definition finish (hex_width : nat) (msg_bin : str) : option str :=
  m <- parse_int 2 msg_bin ;;
  let msg_hex := format_X hex_width m in
  c <- crc msg_hex true ;;
  Some (msg_hex ++ format_X 6 c).

(** [ADSBEncoder.encode_callsign(icao, callsign)]. *)
Definition encode_callsign (icao callsign : str) : option str :=
  let df := 17 in
  let ca := 5 in
  let tc := 4 in
  let callsign := firstn 8 (callsign ++ py "        ") in
  let encoded_chars := map char_code callsign in
  i <- parse_int 16 icao ;;
  let msg_bin :=
    format_b 5 df ++ format_b 3 ca ++ format_b 24 i ++ format_b 5 tc ++ format_b 3 0
    ++ flat_map (format_b 6) encoded_chars in
  finish 16 msg_bin.

Definition cpr_fraction (z : float) : option Z :=
  zi <- int_of_float z ;;
  zf <- float_of_int zi ;;
  v <- int_of_float ((z - zf) * 131072)%float ;;
  Some (Z.land v (2 ^ 17 - 1)).

Definition cpr_encode (M : pymath) (lat lon : float) (time_bit : Z) : option (Z * Z) :=
  let nz := if time_bit =? 0 then 60%float else 59%float in
  dlat <- fdiv 360 nz ;;
  yz <- fdiv lat dlat ;;
  lat_cpr <- cpr_fraction yz ;;
  lat_rad <- fdiv (lat * math_pi)%float 180 ;;
  nlv <- nl M lat_rad ;;
  let n := Z.max (if time_bit =? 0 then nlv else nlv - 1) 1 in
  nf <- float_of_int n ;;
  dlon <- fdiv 360 nf ;;
  xz <- fdiv lon dlon ;;
  lon_cpr <- cpr_fraction xz ;;
  Some (lat_cpr, lon_cpr).

(** The altitude field: seven top bits, Q = 1, four bottom bits. *)
Definition alt_field (alt_code : Z) : str :=
  let top_bits := Z.land (Z.shiftr alt_code 4) 0x7F in
  let bottom_bits := Z.land alt_code 0x0F in
  let alt_encoded_int := Z.lor (Z.lor (Z.shiftl top_bits 5) (Z.shiftl 1 4)) bottom_bits in
  format_b 12 alt_encoded_int.

Definition position_frame (icao : str) (alt_code time_bit lat_cpr lon_cpr : Z) : option str :=
  let df := 17 in
  let ca := 5 in
  let tc := 11 in
  i <- parse_int 16 icao ;;
  let msg_bin :=
    format_b 5 df ++ format_b 3 ca ++ format_b 24 i ++ format_b 5 tc
    ++ format_b 2 0 ++ format_b 1 0 ++ alt_field alt_code
    ++ format_b 1 0 ++ format_b 1 time_bit
    ++ format_b 17 lat_cpr ++ format_b 17 lon_cpr in
  finish 22 msg_bin.

(** [ADSBEncoder.encode_position(icao, lat, lon, alt, time_bit)]. *)
Definition encode_position (M : pymath) (icao : str) (lat lon : float) (alt time_bit : Z)
  : option str :=
  q <- int_true_div (alt + 1000) 25 ;;
  alt_code <- int_of_float q ;;
  '(lat_cpr, lon_cpr) <- cpr_encode M lat lon time_bit ;;
  position_frame icao alt_code time_bit lat_cpr lon_cpr.

Definition velocity_frame (icao : str)
  (ew_sign ew_vel ns_sign ns_vel vr_sign vr_val : Z) : option str :=
  let df := 17 in
  let ca := 5 in
  let tc := 19 in
  let st := 1 in
  i <- parse_int 16 icao ;;
  let msg_bin :=
    format_b 5 df ++ format_b 3 ca ++ format_b 24 i ++ format_b 5 tc ++ format_b 3 st
    ++ format_b 1 0 ++ format_b 1 0 ++ format_b 3 0
    ++ format_b 1 ew_sign ++ format_b 10 ew_vel
    ++ format_b 1 ns_sign ++ format_b 10 ns_vel
    ++ format_b 1 0 ++ format_b 1 vr_sign ++ format_b 9 vr_val
    ++ format_b 2 0 ++ format_b 1 0 ++ format_b 7 0 in
  if Nat.eqb (length msg_bin) 88 then finish 22 msg_bin else None.

(** [ADSBEncoder.encode_velocity(icao, speed, heading, vr)], [vr] an int. *)
Definition encode_velocity (M : pymath) (icao : str) (speed heading : float) (vr : Z)
  : option str :=
  heading_rad <- fdiv (heading * math_pi)%float 180 ;;
  s <- math_sin M heading_rad ;;
  let v_ew := (speed * s)%float in
  c <- math_cos M heading_rad ;;
  let v_ns := (speed * c)%float in
  let ew_sign := if PrimFloat.ltb v_ew 0 then 1 else 0 in
  let ns_sign := if PrimFloat.ltb v_ns 0 then 1 else 0 in
  ew <- int_of_float (PrimFloat.abs v_ew) ;;
  ns <- int_of_float (PrimFloat.abs v_ns) ;;
  let vr_sign := if vr <? 0 then 1 else 0 in
  q <- int_true_div (Z.abs vr) 64 ;;
  k <- int_of_float q ;;
  velocity_frame icao ew_sign (ew + 1) ns_sign (ns + 1) vr_sign (k + 1).

End ADSBEncoder.

(** What [main] sends for a message:
    [sock.sendall("*{};\n".format(msg).encode('ascii'))]. *)
Definition avr_line (msg : str) : option bytes :=
  encode_ascii (py "*" ++ msg ++ [";"%char; "010"%char]).

End send_adsb.

(** ** JSON values of the view endpoint *)

Module Json.
Import Py.

Inductive json : Type :=
| JNull
| JInt (n : Z)
| JFloat (x : float)
| JStr (s : str).

(** One object of the ["aircraft"] array. *)
Record entry : Type := {
  e_hex : json;
  e_flight : json;
  e_lat : json;
  e_lon : json;
  e_altitude : json;
  e_track : json;
  e_speed : json;
  e_type : json;
  e_messages : json;
  e_seen : json;
  e_source : json
}.

(** The response object. *)
Record response : Type := {
  r_now : json;
  r_messages : json;
  r_aircraft : list entry
}.

Definition opt_float (x : option float) : json :=
  match x with Some v => JFloat v | None => JNull end.
Definition opt_int (x : option Z) : json :=
  match x with Some v => JInt v | None => JNull end.

End Json.

(** ** Code that atc_army_offline.py and atc_debian9.py share

    The two [ADSBReceiver] classes define [_decode_callsign],
    [_calculate_nl] and [_decode_velocity] with the same text, and the
    same arithmetic inside [_decode_position]. *)

Module Receiver.
Import Py PyFloat.

Definition charset : str :=
  py "#ABCDEFGHIJKLMNOPQRSTUVWXYZ##### ###############0123456789######".

(** The body of the loop of [_decode_callsign] for one [i]. *)
Definition callsign_char (msg_hex : str) (i : nat) : option str :=
  let idx := (i * 6 + 40)%nat in
  let byte_idx := (idx / 4)%nat in
  let bit_offset := (idx mod 4)%nat in
  if (byte_idx + 2 <? length msg_hex)%nat then
    bits <- parse_int 16 (slice byte_idx (byte_idx + 2) msg_hex) ;;
    if (2 <? bit_offset)%nat then None
    else
      let bits := Z.land (Z.shiftr bits (2 - Z.of_nat bit_offset)) 0x3F in
      c <- index charset (Z.to_nat bits) ;;
      Some [c]
  else Some [].

(** [ADSBReceiver._decode_callsign(msg_hex)]; the [except] returns [None]. *)
Definition _decode_callsign (msg_hex : str) : option str :=
  cs <- fold_left
          (fun acc i => a <- acc ;; c <- callsign_char msg_hex i ;; Some (a ++ c))
          (seq 0 8) (Some []) ;;
  Some (remove_char "#"%char (strip cs)).

(** [me_bin] of a message: [format(int(msg_hex[8:22], 16), '056b')]. *)
Definition me_bin_of (msg_hex : str) : option str :=
  me_int <- parse_int 16 (slice 8 22 msg_hex) ;;
  Some (format_b 56 me_int).

(** [int(me_bin[i])]. *)
Definition bit_at (me_bin : str) (i : nat) : option Z :=
  c <- index me_bin i ;;
  parse_int 10 [c].

(** The altitude of [_decode_position] when [Q = 1]; [None] inside when [Q = 0]. *)
Definition decode_altitude (me_bin : str) : option (option Z) :=
  alt_int <- parse_int 2 (slice 8 20 me_bin) ;;
  let q_bit := Z.land (Z.shiftr alt_int 4) 1 in
  if q_bit =? 1 then
    let top_bits := Z.land (Z.shiftr alt_int 5) 0x7F in
    let bottom_bits := Z.land alt_int 0x0F in
    let alt_code := Z.lor (Z.shiftl top_bits 4) bottom_bits in
    Some (Some (alt_code * 25 - 1000))
  else Some None.

(** [ADSBReceiver._calculate_nl(lat)], [lat] in degrees. *)
Definition _calculate_nl (M : pymath) (lat : float) : option Z :=
  if PrimFloat.leb 87 (PrimFloat.abs lat) then Some 1
  else
    let nz := 15%float in
    c <- math_cos M (math_pi / (2 * nz))%float ;;
    let a := (1 - c)%float in
    x <- fdiv (math_pi * PrimFloat.abs lat)%float 180 ;;
    cl <- math_cos M x ;;
    b <- float_pow M cl 2 ;;
    q <- fdiv a b ;;
    if PrimFloat.leb (1 - q)%float 0 then Some 1
    else
      ac <- math_acos M (1 - q)%float ;;
      nl <- fdiv (2 * math_pi)%float ac ;;
      int_of_float nl.

(** [while lon >= 180: lon -= 360] and [while lon < -180: lon += 360]. *)
Fixpoint while_ge_180 (fuel : nat) (lon : float) : outcome float :=
  if PrimFloat.leb 180 lon then
    match fuel with
    | O => OutOfFuel
    | S fuel' => while_ge_180 fuel' (lon - 360)%float
    end
  else Ret lon.

Fixpoint while_lt_m180 (fuel : nat) (lon : float) : outcome float :=
  if PrimFloat.ltb lon (-180)%float then
    match fuel with
    | O => OutOfFuel
    | S fuel' => while_lt_m180 fuel' (lon + 360)%float
    end
  else Ret lon.

(** The two latitudes of the global decode, each brought under 270. *)
Definition decode_latitudes (lat_even_cpr lat_odd_cpr : Z) : option (float * float) :=
  dlat_even <- fdiv 360 60 ;;
  dlat_odd <- fdiv 360 59 ;;
  d <- float_of_int (59 * lat_even_cpr - 60 * lat_odd_cpr) ;;
  j <- int_of_float (d / 131072 + 0.5)%float ;;
  j60 <- float_of_int (j mod 60) ;;
  j59 <- float_of_int (j mod 59) ;;
  le <- float_of_int lat_even_cpr ;;
  lo <- float_of_int lat_odd_cpr ;;
  let lat_even := (dlat_even * (j60 + le / 131072))%float in
  let lat_odd := (dlat_odd * (j59 + lo / 131072))%float in
  let lat_even := if PrimFloat.leb 270 lat_even then (lat_even - 360)%float else lat_even in
  let lat_odd := if PrimFloat.leb 270 lat_odd then (lat_odd - 360)%float else lat_odd in
  Some (lat_even, lat_odd).

(** The longitude of the global decode before it is brought into range:
    [ni] zones, [lon_cpr] the CPR longitude of the frame in use. *)
Definition decode_longitude (nl ni lon_even_cpr lon_odd_cpr lon_cpr : Z) : option float :=
  nif <- float_of_int ni ;;
  dlon <- fdiv 360 nif ;;
  d <- float_of_int (lon_even_cpr * (nl - 1) - lon_odd_cpr * nl) ;;
  let m_raw := (d / 131072)%float in
  m <- math_floor (m_raw + 0.5)%float ;;
  mf <- float_of_int m ;;
  lc <- float_of_int lon_cpr ;;
  Some (dlon * (mf + lc / 131072))%float.

(** [-90 <= lat <= 90 and -180 <= lon <= 180]. *)
Definition sane (lat lon : float) : bool :=
  PrimFloat.leb (-90)%float lat && PrimFloat.leb lat 90
  && PrimFloat.leb (-180)%float lon && PrimFloat.leb lon 180.

(** The signed east-west and north-south velocities of [_decode_velocity];
    [None] inside is the early [return None, None], outside an exception. *)
Definition velocity_components (msg_hex : str) : option (option (Z * Z)) :=
  me_bin <- me_bin_of msg_hex ;;
  tc <- parse_int 2 (slice 0 5 me_bin) ;;
  if negb (tc =? 19) then Some None
  else
    ew_sign <- bit_at me_bin 13 ;;
    ew_vel_raw <- parse_int 2 (slice 14 24 me_bin) ;;
    let ew_vel := ew_vel_raw - 1 in
    let ew_vel := if ew_sign =? 0 then ew_vel else - ew_vel in
    ns_sign <- bit_at me_bin 24 ;;
    ns_vel_raw <- parse_int 2 (slice 25 35 me_bin) ;;
    let ns_vel := ns_vel_raw - 1 in
    let ns_vel := if ns_sign =? 0 then ns_vel else - ns_vel in
    Some (Some (ew_vel, ns_vel)).

(** [speed] and [heading] from the two components. *)
Definition speed_heading (M : pymath) (ew_vel ns_vel : Z) : option (float * float) :=
  sq <- float_of_int (ew_vel ^ 2 + ns_vel ^ 2) ;;
  speed <- math_sqrt sq ;;
  e <- float_of_int ew_vel ;;
  n <- float_of_int ns_vel ;;
  a <- math_atan2 M e n ;;
  heading <- float_mod M (math_degrees a) 360 ;;
  Some (speed, heading).

(** [ADSBReceiver._decode_velocity(msg_hex)]. *)
Definition _decode_velocity (M : pymath) (msg_hex : str) : option float * option float :=
  match velocity_components msg_hex with
  | Some (Some (ew_vel, ns_vel)) =>
      match speed_heading M ew_vel ns_vel with
      | Some (s, h) => (Some s, Some h)
      | None => (None, None)
      end
  | _ => (None, None)
  end.

End Receiver.

(** ** atc_army_offline.py *)

Module atc_army_offline.
Import Py PyFloat.

Definition AIRCRAFT_TIMEOUT : float := 60%float.

(** A number that starts as the int [0] and becomes a float. *)
Inductive num : Type :=
| Int (n : Z)
| Float (x : float).

(** A value of [received_aircraft]. *)
Record received : Type := {
  icao : str;
  callsign : str;
  lat : option float;
  lon : option float;
  altitude : Z;
  speed : num;
  heading : num;
  last_seen : float;
  position_even : option (Z * Z * float);
  position_odd : option (Z * Z * float);
  type : str
}.


(** The module's globals. *)
Record tracker : Type := {
  aircraft_list : list aircraft_simulator.Aircraft;
  received_aircraft : dict received;
  message_count : Z
}.

Definition with_received (st : tracker) (d : dict received) : tracker :=
  {| aircraft_list := aircraft_list st; received_aircraft := d;
     message_count := message_count st |}.

Module ADSBReceiver.
Import Receiver.

(** The global decode of [_decode_position] from a pair of fragments:
    [Ret None] when the sanity check fails. *)
Definition global_decode (M : pymath) (fuel : nat)
  (even odd : Z * Z * float) : outcome (option (float * float)) :=
  let '(lat_even_cpr, lon_even_cpr, time_even) := even in
  let '(lat_odd_cpr, lon_odd_cpr, time_odd) := odd in
  '(lat_even, lat_odd) <~ raising (decode_latitudes lat_even_cpr lat_odd_cpr) ;;
  let use_even := PrimFloat.ltb time_odd time_even in
  let lat := if use_even then lat_even else lat_odd in
  nl <~ raising (_calculate_nl M lat) ;;
  let ni := if use_even then Z.max nl 1 else Z.max (nl - 1) 1 in
  lon_raw <~ raising (decode_longitude nl ni lon_even_cpr lon_odd_cpr
                        (if use_even then lon_even_cpr else lon_odd_cpr)) ;;
  lon <~ while_ge_180 fuel lon_raw ;;
  lon <~ while_lt_m180 fuel lon ;;
  let lon := if PrimFloat.leb 180 lon then (lon - 360)%float else lon in
  let lon := if PrimFloat.ltb lon (-180)%float then (lon + 360)%float else lon in
  if sane lat lon then Ret (Some (lat, lon)) else Ret None.

(** What [_decode_position] reads from the message before it touches [ac]:
    altitude ([0] when Q = 0), CPR latitude and longitude, and the format
    bit, read at position 21 of [me_bin]. *)
Definition position_fields (msg_hex : str) : option (Z * Z * Z * Z) :=
  me_bin <- me_bin_of msg_hex ;;
  alt <- decode_altitude me_bin ;;
  let altitude := match alt with Some a => a | None => 0 end in
  cpr_lat <- parse_int 2 (slice 22 39 me_bin) ;;
  cpr_lon <- parse_int 2 (slice 39 56 me_bin) ;;
  time_bit <- bit_at me_bin 21 ;;
  Some (altitude, cpr_lat, cpr_lon, time_bit).

(** [if time_bit: ac['position_odd'] = ... else: ac['position_even'] = ...]. *)
Definition store_fragment (ac : received) (time_bit cpr_lat cpr_lon : Z) (t : float)
  : received :=
  {| icao := icao ac; callsign := callsign ac; lat := lat ac; lon := lon ac;
     altitude := altitude ac; speed := speed ac; heading := heading ac;
     last_seen := last_seen ac;
     position_even :=
       if time_bit =? 0 then Some (cpr_lat, cpr_lon, t) else position_even ac;
     position_odd :=
       if time_bit =? 0 then position_odd ac else Some (cpr_lat, cpr_lon, t);
     type := type ac |}.

(** [ADSBReceiver._decode_position(msg_hex, ac)]: the updated [ac] and the
    returned [(lat, lon, alt)]; [t] is the [time.time()] of the fragment.
    [None] when [fuel] iterations do not end a normalisation loop. *)
Definition _decode_position (M : pymath) (fuel : nat) (msg_hex : str) (ac : received)
  (t : float) : option (received * (option float * option float * Z)) :=
  match position_fields msg_hex with
  | None => Some (ac, (None, None, 0))
  | Some (altitude, cpr_lat, cpr_lon, time_bit) =>
      let ac := store_fragment ac time_bit cpr_lat cpr_lon t in
      match position_even ac, position_odd ac with
      | Some even, Some odd =>
          let time_even := snd even in
          let time_odd := snd odd in
          if PrimFloat.ltb 10 (PrimFloat.abs (time_even - time_odd)) then
            Some (ac, (None, None, altitude))
          else
            match global_decode M fuel even odd with
            | Ret (Some (la, lo)) => Some (ac, (Some la, Some lo, altitude))
            | Ret None => Some (ac, (None, None, altitude))
            | Raise => Some (ac, (None, None, 0))
            | OutOfFuel => None
            end
      | _, _ => Some (ac, (None, None, altitude))
      end
  end.

Definition new_aircraft (icao : str) (current_time : float) : received :=
  {| icao := icao; callsign := []; lat := None; lon := None; altitude := 0;
     speed := Int 0; heading := Int 0; last_seen := current_time;
     position_even := None; position_odd := None; type := py "civilian" |}.

Definition touch (ac : received) (current_time : float) : received :=
  {| icao := icao ac; callsign := callsign ac; lat := lat ac; lon := lon ac;
     altitude := altitude ac; speed := speed ac; heading := heading ac;
     last_seen := current_time;
     position_even := position_even ac; position_odd := position_odd ac;
     type := type ac |}.

Definition set_callsign (ac : received) (cs : str) : received :=
  {| icao := icao ac; callsign := cs; lat := lat ac; lon := lon ac;
     altitude := altitude ac; speed := speed ac; heading := heading ac;
     last_seen := last_seen ac;
     position_even := position_even ac; position_odd := position_odd ac;
     type := type ac |}.

Definition set_position (ac : received) (la lo : float) (alt : Z) : received :=
  {| icao := icao ac; callsign := callsign ac; lat := Some la; lon := Some lo;
     altitude := alt; speed := speed ac; heading := heading ac;
     last_seen := last_seen ac;
     position_even := position_even ac; position_odd := position_odd ac;
     type := type ac |}.

Definition set_velocity (ac : received) (s h : option float) : received :=
  {| icao := icao ac; callsign := callsign ac; lat := lat ac; lon := lon ac;
     altitude := altitude ac;
     speed := match s with Some v => Float v | None => speed ac end;
     heading := match h with Some v => Float v | None => heading ac end;
     last_seen := last_seen ac;
     position_even := position_even ac; position_odd := position_odd ac;
     type := type ac |}.

(** The dispatch on the type code inside the lock: what becomes of [ac]. *)
Definition dispatch (M : pymath) (fuel : nat) (msg_hex : str) (tc : Z) (ac : received)
  (t_pos : float) : option received :=
  if (1 <=? tc) && (tc <=? 4) then
    match _decode_callsign msg_hex with
    | Some (c :: cs) => Some (set_callsign ac (c :: cs))
    | _ => Some ac
    end
  else if (9 <=? tc) && (tc <=? 18) then
    '(ac, (la, lo, alt)) <- _decode_position M fuel msg_hex ac t_pos ;;
    match la, lo with
    | Some la, Some lo => Some (set_position ac la lo alt)
    | _, _ => Some ac
    end
  else if tc =? 19 then
    let '(s, h) := _decode_velocity M msg_hex in
    Some (set_velocity ac s h)
  else Some ac.

(** [ADSBReceiver._process_message(msg_hex)] on the received-aircraft map;
    [current_time] is its [time.time()], [t_pos] the one [_decode_position]
    reads. [None] when a normalisation loop uses up [fuel]. *)
Definition _process_message (M : pymath) (fuel : nat) (msg_hex : str)
  (current_time t_pos : float) (received_aircraft : dict received) : option (dict received) :=
  if negb (Nat.eqb (length msg_hex) 28) then Some received_aircraft
  else
    let icao := slice 2 8 msg_hex in
    match parse_int 16 (slice 0 2 msg_hex) with
    | None => Some received_aircraft
    | Some first_byte =>
        let df := Z.shiftr first_byte 3 in
        if negb (df =? 17) then Some received_aircraft
        else
          match parse_int 16 (slice 8 10 msg_hex) with
          | None => Some received_aircraft
          | Some me_byte =>
              let tc := Z.shiftr me_byte 3 in
              let ac :=
                match dict_get received_aircraft icao with
                | Some ac => ac
                | None => new_aircraft icao current_time
                end in
              let ac := touch ac current_time in
              ac <- dispatch M fuel msg_hex tc ac t_pos ;;
              Some (dict_set received_aircraft icao ac)
          end
    end.

(** The AVR loop of [_handle_client]: the messages handed to
    [_process_message], in order, and what is left of the buffer. *)
Fixpoint avr_loop (fuel : nat) (buffer : bytes) : option (list str * bytes) :=
  if contains "*"%char buffer && contains ";"%char buffer then
    match fuel with
    | O => None
    | S fuel' =>
        match find "*"%char buffer 0 with
        | None => Some ([], buffer)
        | Some start =>
            match find ";"%char buffer start with
            | Some end_ =>
                if (start <? end_)%nat then
                  let msg := strip (decode_ascii_ignore (slice (start + 1) end_ buffer)) in
                  let buffer := slice_from (end_ + 1) buffer in
                  '(msgs, buffer) <- avr_loop fuel' buffer ;;
                  Some (match msg with [] => msgs | _ => msg :: msgs end, buffer)
                else Some ([], buffer)
            | None => Some ([], buffer)
            end
        end
    end
  else Some ([], buffer).

(** The Beast loop of [_handle_client]. *)
Fixpoint beast_loop (fuel : nat) (buffer : bytes) : option (list str * bytes) :=
  if (23 <=? length buffer)%nat then
    match fuel with
    | O => None
    | S fuel' =>
        match buffer with
        | b0 :: b1 :: _ =>
            if ord b0 =? 0x1A then
              if ord b1 =? 0x33 then
                let msg_bytes := slice 9 23 buffer in
                let msg_hex := upper (hex msg_bytes) in
                '(msgs, buffer) <- beast_loop fuel' (slice_from 23 buffer) ;;
                Some (msg_hex :: msgs, buffer)
              else beast_loop fuel' (slice_from 1 buffer)
            else beast_loop fuel' (slice_from 1 buffer)
        | _ => Some ([], buffer)
        end
    end
  else Some ([], buffer).

(** One turn of the receive loop of [_handle_client]: [data] is appended
    to [buffer]; the messages it hands to [_process_message], and the
    buffer it keeps. Every iteration of either loop shortens the buffer,
    so its length bounds them. *)
Definition feed (buffer data : bytes) : option (list str * bytes) :=
  let buffer := buffer ++ data in
  '(avr, buffer) <- avr_loop (length buffer) buffer ;;
  '(beast, buffer) <- beast_loop (length buffer) buffer ;;
  let buffer := if 10000 <? Z.of_nat (length buffer) then slice_last 1000 buffer else buffer in
  Some (avr ++ beast, buffer).

End ADSBReceiver.

Module WebHandler.
Import Json.

(** One simulated aircraft of the array. *)
Definition simulated_entry (M : pymath) (message_count : Z) (ac : aircraft_simulator.Aircraft)
  : option entry :=
  '(la, lo) <- aircraft_simulator.get_position M ac ;;
  h <- aircraft_simulator.get_heading M ac ;;
  Some {| e_hex := JStr (aircraft_simulator.icao ac);
          e_flight := JStr (aircraft_simulator.callsign ac);
          e_lat := JFloat la; e_lon := JFloat lo;
          e_altitude := JInt (aircraft_simulator.altitude ac);
          e_track := JFloat h;
          e_speed := JFloat (aircraft_simulator.speed_knots ac);
          e_type := JStr (match aircraft_simulator.ac_type ac with
                             | Some t => t
                             | None => py "civilian"
                             end);
          e_messages := JInt message_count; e_seen := JInt 0;
          e_source := JStr (py "simulated") |}.

(** [current_time - data['last_seen'] > AIRCRAFT_TIMEOUT]. *)
Definition stale (current_time : float) (ac : received) : bool :=
  PrimFloat.ltb AIRCRAFT_TIMEOUT (current_time - last_seen ac)%float.

(** [stale = [icao for icao, data in received_aircraft.items() if ...]],
    then [for icao in stale: del received_aircraft[icao]]. *)
Definition remove_stale (current_time : float) (d : dict received) : dict received :=
  dict_del_where (stale current_time) d.

Definition num_json (n : num) : json :=
  match n with Int z => JInt z | Float x => JFloat x end.

(** The object of one received aircraft, for one that has a position. *)
Definition received_entry (current_time : float) (icao : str) (ac : received)
  (la lo : float) : option entry :=
  s <- int_of_float (current_time - last_seen ac)%float ;;
  Some {| e_hex := JStr (atc_army_offline.icao ac);
          e_flight := JStr (match callsign ac with [] => icao | _ => callsign ac end);
          e_lat := JFloat la; e_lon := JFloat lo;
          e_altitude := JInt (altitude ac);
          e_track := num_json (heading ac);
          e_speed := num_json (speed ac);
          e_type := JStr (atc_army_offline.type ac);
          e_messages := JInt 0; e_seen := JInt s;
          e_source := JStr (py "adsb") |}.

(** The loop over [received_aircraft.items()]: an aircraft is appended
    [if ac['lat'] is not None and ac['lon'] is not None]. *)
Definition received_entries (current_time : float) (d : dict received)
  : option (list entry) :=
  dict_collect
    (fun icao ac =>
       match lat ac, lon ac with
       | Some la, Some lo =>
           e <- received_entry current_time icao ac la lo ;; Some (Some e)
       | _, _ => Some None
       end) d.

(** [WebHandler.serve_aircraft_json()]: the globals afterwards, and the
    response written ([None] when an exception ends the handler first).
    [current_time] and [now2] are its two readings of [time.time()]. *)
Definition serve_aircraft_json (M : pymath) (current_time now2 : float) (st : tracker)
  : tracker * option response :=
  match all_some (map (simulated_entry M (message_count st)) (aircraft_list st)) with
  | None => (st, None)
  | Some sim =>
      let d := remove_stale current_time (received_aircraft st) in
      let st' := with_received st d in
      match received_entries current_time d with
      | None => (st', None)
      | Some rec =>
          (st', Some {| r_now := JFloat now2;
                        r_messages := JInt (message_count st);
                        r_aircraft := sim ++ rec |})
      end
  end.

End WebHandler.

End atc_army_offline.

(** ** atc_debian9.py *)

Module atc_debian9.
Import Py PyFloat.

Definition AIRCRAFT_TIMEOUT : float := 30%float.

(** [class Aircraft]; [main] gives it an int altitude and an int speed. *)
Record Aircraft : Type := {
  ac_icao : str;
  ac_callsign : str;
  center_lat : float;
  center_lon : float;
  ac_altitude : Z;
  speed_knots : Z;
  ac_type : str;
  angle : float;
  radius : float;
  angular_velocity : float
}.

(** [Aircraft.get_position()]. *)
Definition get_position (M : pymath) (ac : Aircraft) : option (float * float) :=
  s <- math_sin M (angle ac) ;;
  let lat := (center_lat ac + radius ac * s)%float in
  c <- math_cos M (angle ac) ;;
  let lon := (center_lon ac + radius ac * c)%float in
  Some (lat, lon).

(** [Aircraft.get_heading()]. *)
Definition get_heading (M : pymath) (ac : Aircraft) : option float :=
  float_mod M (math_degrees (angle ac) + 90)%float 360.

(** A value of [received_aircraft]. *)
Record received : Type := {
  icao : str;
  callsign : option str;
  lat : option float;
  lon : option float;
  altitude : option Z;
  speed : option float;
  heading : option float;
  type : str;
  last_seen : float;
  lat_even_cpr : option Z;
  lon_even_cpr : option Z;
  lat_odd_cpr : option Z;
  lon_odd_cpr : option Z
}.


(** The module's globals. *)
Record tracker : Type := {
  aircraft_list : list Aircraft;
  received_aircraft : dict received;
  message_count : Z
}.

Module ADSBReceiver.
Import Receiver.

(** The global decode of [_decode_position] from the four stored CPR
    values; [time_bit] is the bit of the frame just read. *)
Definition global_decode (M : pymath) (fuel : nat) (time_bit : Z)
  (lat_even_cpr lon_even_cpr lat_odd_cpr lon_odd_cpr : Z) : outcome (option (float * float)) :=
  '(lat_even, lat_odd) <~ raising (decode_latitudes lat_even_cpr lat_odd_cpr) ;;
  let lat := if time_bit =? 0 then lat_even else lat_odd in
  nl <~ raising (_calculate_nl M lat) ;;
  let ni := if time_bit =? 0 then Z.max nl 1 else Z.max (nl - 1) 1 in
  lon_raw <~ raising (decode_longitude nl ni lon_even_cpr lon_odd_cpr
                        (if time_bit =? 0 then lon_even_cpr else lon_odd_cpr)) ;;
  lon <~ while_ge_180 fuel lon_raw ;;
  lon <~ while_lt_m180 fuel lon ;;
  if sane lat lon then Ret (Some (lat, lon)) else Ret None.

(** What [_decode_position] reads from the message before it touches [ac]:
    altitude ([None] when Q = 0), the bit read at position 20 of [me_bin],
    CPR latitude and longitude. *)
Definition position_fields (msg_hex : str) : option (option Z * Z * Z * Z) :=
  me_bin <- me_bin_of msg_hex ;;
  altitude <- decode_altitude me_bin ;;
  time_bit <- bit_at me_bin 20 ;;
  lat_cpr <- parse_int 2 (slice 22 39 me_bin) ;;
  lon_cpr <- parse_int 2 (slice 39 56 me_bin) ;;
  Some (altitude, time_bit, lat_cpr, lon_cpr).

(** [if time_bit == 0: ac['lat_even_cpr'] = ... else: ac['lat_odd_cpr'] = ...]. *)
Definition store_fragment (ac : received) (time_bit lat_cpr lon_cpr : Z) : received :=
  {| icao := icao ac; callsign := callsign ac; lat := lat ac; lon := lon ac;
     altitude := altitude ac; speed := speed ac; heading := heading ac;
     type := type ac; last_seen := last_seen ac;
     lat_even_cpr := if time_bit =? 0 then Some lat_cpr else lat_even_cpr ac;
     lon_even_cpr := if time_bit =? 0 then Some lon_cpr else lon_even_cpr ac;
     lat_odd_cpr := if time_bit =? 0 then lat_odd_cpr ac else Some lat_cpr;
     lon_odd_cpr := if time_bit =? 0 then lon_odd_cpr ac else Some lon_cpr |}.

(** [ADSBReceiver._decode_position(msg_hex, ac)]: the updated [ac] and the
    returned [(lat, lon, alt)]. [None] when [fuel] iterations do not end a
    normalisation loop. *)
Definition _decode_position (M : pymath) (fuel : nat) (msg_hex : str) (ac : received)
  : option (received * (option float * option float * option Z)) :=
  match position_fields msg_hex with
  | None => Some (ac, (None, None, None))
  | Some (altitude, time_bit, lat_cpr, lon_cpr) =>
      let ac := store_fragment ac time_bit lat_cpr lon_cpr in
      match lat_even_cpr ac, lon_even_cpr ac, lat_odd_cpr ac, lon_odd_cpr ac with
      | Some le, Some lone, Some lo, Some lono =>
          match global_decode M fuel time_bit le lone lo lono with
          | Ret (Some (la, lg)) => Some (ac, (Some la, Some lg, altitude))
          | Ret None => Some (ac, (None, None, altitude))
          | Raise => Some (ac, (None, None, None))
          | OutOfFuel => None
          end
      | _, _, _, _ => Some (ac, (None, None, altitude))
      end
  end.

Definition new_aircraft (icao : str) (t : float) : received :=
  {| icao := icao; callsign := None; lat := None; lon := None; altitude := None;
     speed := None; heading := None; type := py "unknown"; last_seen := t;
     lat_even_cpr := None; lon_even_cpr := None;
     lat_odd_cpr := None; lon_odd_cpr := None |}.

Definition touch (ac : received) (t : float) : received :=
  {| icao := icao ac; callsign := callsign ac; lat := lat ac; lon := lon ac;
     altitude := altitude ac; speed := speed ac; heading := heading ac;
     type := type ac; last_seen := t;
     lat_even_cpr := lat_even_cpr ac; lon_even_cpr := lon_even_cpr ac;
     lat_odd_cpr := lat_odd_cpr ac; lon_odd_cpr := lon_odd_cpr ac |}.

Definition set_callsign (ac : received) (cs : str) : received :=
  {| icao := icao ac; callsign := Some cs; lat := lat ac; lon := lon ac;
     altitude := altitude ac; speed := speed ac; heading := heading ac;
     type := type ac; last_seen := last_seen ac;
     lat_even_cpr := lat_even_cpr ac; lon_even_cpr := lon_even_cpr ac;
     lat_odd_cpr := lat_odd_cpr ac; lon_odd_cpr := lon_odd_cpr ac |}.

(** [if lat is not None and lon is not None: ...; if alt is not None: ...]. *)
Definition set_position (ac : received) (la lo : option float) (alt : option Z) : received :=
  let both := match la, lo with Some _, Some _ => true | _, _ => false end in
  {| icao := icao ac; callsign := callsign ac;
     lat := if both then la else lat ac;
     lon := if both then lo else lon ac;
     altitude := match alt with Some a => Some a | None => altitude ac end;
     speed := speed ac; heading := heading ac;
     type := type ac; last_seen := last_seen ac;
     lat_even_cpr := lat_even_cpr ac; lon_even_cpr := lon_even_cpr ac;
     lat_odd_cpr := lat_odd_cpr ac; lon_odd_cpr := lon_odd_cpr ac |}.

Definition set_velocity (ac : received) (s h : option float) : received :=
  {| icao := icao ac; callsign := callsign ac; lat := lat ac; lon := lon ac;
     altitude := altitude ac;
     speed := match s with Some v => Some v | None => speed ac end;
     heading := match h with Some v => Some v | None => heading ac end;
     type := type ac; last_seen := last_seen ac;
     lat_even_cpr := lat_even_cpr ac; lon_even_cpr := lon_even_cpr ac;
     lat_odd_cpr := lat_odd_cpr ac; lon_odd_cpr := lon_odd_cpr ac |}.

(** The part of [_process_message] after the entry is made and touched:
    an exception leaves [ac] as it is by then. *)
Definition dispatch (M : pymath) (fuel : nat) (msg_hex : str) (ac : received)
  : option received :=
  match me_bin_of msg_hex with
  | None => Some ac
  | Some me_bin =>
      match parse_int 2 (slice 0 5 me_bin) with
      | None => Some ac
      | Some tc =>
          if (1 <=? tc) && (tc <=? 4) then
            match _decode_callsign msg_hex with
            | Some (c :: cs) => Some (set_callsign ac (c :: cs))
            | _ => Some ac
            end
          else if (9 <=? tc) && (tc <=? 18) then
            '(ac, (la, lo, alt)) <- _decode_position M fuel msg_hex ac ;;
            Some (set_position ac la lo alt)
          else if tc =? 19 then
            let '(s, h) := _decode_velocity M msg_hex in
            Some (set_velocity ac s h)
          else Some ac
      end
  end.

(** [ADSBReceiver._process_message(msg_hex)] on the received-aircraft map;
    [current_time] is the [time.time()] that ends up in [last_seen]. *)
Definition _process_message (M : pymath) (fuel : nat) (msg_hex : str)
  (current_time : float) (received_aircraft : dict received) : option (dict received) :=
  let icao := slice 2 8 msg_hex in
  let ac :=
    match dict_get received_aircraft icao with
    | Some ac => ac
    | None => new_aircraft icao current_time
    end in
  let ac := touch ac current_time in
  ac <- dispatch M fuel msg_hex ac ;;
  Some (dict_set received_aircraft icao ac).

(** What [_handle_client] does with one line of the buffer: the message it
    hands to [_process_message], if any. *)
Definition accepted_line (line : str) : option str :=
  match line, rev line with
  | first :: _, last :: _ =>
      if Ascii.eqb first "*"%char && Ascii.eqb last ";"%char then
        let msg_hex := slice 1 (length line - 1) line in
        if Nat.eqb (length msg_hex) 28 then Some msg_hex else None
      else None
  | _, _ => None
  end.

(** The loop [while '\n' in buffer: line, buffer = buffer.split('\n', 1)]
    of [_handle_client]: the messages it hands to [_process_message], in
    order, and the buffer it keeps. Every iteration shortens the buffer, so
    its length bounds them. *)
Fixpoint line_loop (fuel : nat) (buffer : str) : option (list str * str) :=
  if contains "010"%char buffer then
    match fuel with
    | O => None
    | S fuel' =>
        match find "010"%char buffer 0 with
        | None => Some ([], buffer)
        | Some p =>
            let line := slice 0 p buffer in
            let buffer := slice_from (p + 1) buffer in
            '(msgs, buffer) <- line_loop fuel' buffer ;;
            Some (match accepted_line line with
                  | Some msg_hex => msg_hex :: msgs
                  | None => msgs
                  end, buffer)
        end
    end
  else Some ([], buffer).

(** One turn of the receive loop of [_handle_client]:
    [buffer += data.decode('ascii', errors='ignore')], then the loop. *)
Definition feed (buffer : str) (data : bytes) : option (list str * str) :=
  let buffer := buffer ++ decode_ascii_ignore data in
  line_loop (length buffer) buffer.

End ADSBReceiver.

Module WebHandler.
Import Json.

Definition simulated_entry (M : pymath) (message_count : Z) (ac : Aircraft) : option entry :=
  '(la, lo) <- get_position M ac ;;
  h <- get_heading M ac ;;
  Some {| e_hex := JStr (ac_icao ac);
          e_flight := JStr (ac_callsign ac);
          e_lat := JFloat la; e_lon := JFloat lo;
          e_altitude := JInt (ac_altitude ac);
          e_track := JFloat h;
          e_speed := JInt (speed_knots ac);
          e_type := JStr (ac_type ac);
          e_messages := JInt message_count; e_seen := JInt 0;
          e_source := JStr (py "simulated") |}.

(** [current_time - data['last_seen'] > AIRCRAFT_TIMEOUT]. *)
Definition stale (current_time : float) (ac : received) : bool :=
  PrimFloat.ltb AIRCRAFT_TIMEOUT (current_time - last_seen ac)%float.

Definition remove_stale (current_time : float) (d : dict received) : dict received :=
  dict_del_where (stale current_time) d.

Definition received_entry (current_time : float) (icao : str) (ac : received)
  (la lo : float) : option entry :=
  s <- int_of_float (current_time - last_seen ac)%float ;;
  Some {| e_hex := JStr (atc_debian9.icao ac);
          e_flight := JStr (match callsign ac with
                            | Some (c :: cs) => c :: cs
                            | _ => icao
                            end);
          e_lat := JFloat la; e_lon := JFloat lo;
          e_altitude := opt_int (altitude ac);
          e_track := opt_float (heading ac);
          e_speed := opt_float (speed ac);
          e_type := JStr (atc_debian9.type ac);
          e_messages := JInt 0; e_seen := JInt s;
          e_source := JStr (py "adsb") |}.

(** The loop over [received_aircraft.items()]: an aircraft is appended
    [if ac['lat'] is not None and ac['lon'] is not None]. *)
Definition received_entries (current_time : float) (d : dict received)
  : option (list entry) :=
  dict_collect
    (fun icao ac =>
       match lat ac, lon ac with
       | Some la, Some lo =>
           e <- received_entry current_time icao ac la lo ;; Some (Some e)
       | _, _ => Some None
       end) d.

(** [WebHandler.serve_aircraft_json()]: the globals afterwards, and the
    response written ([None] when the [except] answers instead). *)
Definition serve_aircraft_json (M : pymath) (current_time now2 : float) (st : tracker)
  : tracker * option response :=
  match all_some (map (simulated_entry M (message_count st)) (aircraft_list st)) with
  | None => (st, None)
  | Some sim =>
      let d := remove_stale current_time (received_aircraft st) in
      let st' := {| aircraft_list := aircraft_list st; received_aircraft := d;
                    message_count := message_count st |} in
      match received_entries current_time d with
      | None => (st', None)
      | Some rec =>
          (st', Some {| r_now := JFloat now2;
                        r_messages := JInt (message_count st);
                        r_aircraft := sim ++ rec |})
      end
  end.

End WebHandler.

End atc_debian9.

(** * Notions of the statements

    The vocabulary the lemmas below are stated in: short names for the
    modules of the four programs, readings of frames, shapes of the
    received-aircraft map, and the sample inputs of the examples. *)

Module Notions.
Import Py PyFloat Json Receiver.

Module AS := aircraft_simulator.ADSBEncoder.
Module SA := send_adsb.ADSBEncoder.
Module BE := aircraft_simulator.BeastEncoder.
Module Army := atc_army_offline.
Module ArmyR := atc_army_offline.ADSBReceiver.
Module ArmyW := atc_army_offline.WebHandler.
Module Deb := atc_debian9.
Module DebR := atc_debian9.ADSBReceiver.
Module DebW := atc_debian9.WebHandler.

Definition dv (c : ascii) : Z :=
  match digit_value c with Some d => d | None => 0 end.

(** The number a string of digits writes. *)
Definition value (base : Z) (s : str) : Z :=
  fold_left (fun a c => a * base + dv c) s 0.

Definition digit_str (base : Z) (s : str) : Prop :=
  Forall (fun c => is_digit base c = true) s.

Definition pow2_base (base : Z) : Prop := base = 2 \/ base = 16.

(** The shape the two [crc] functions share: bit [p len i] is tested and
    [g len i] is folded in, for [i] in [range(len - 24)]. *)
Definition crc_gen (p g : Z -> nat -> Z) (msg_hex : str) (encode : bool) : option Z :=
  n <- parse_int 16 msg_hex ;;
  let msg_bin := zfill (length msg_hex * 4) (skipn 2 (bin n)) in
  let msg_bin := if encode then msg_bin ++ repeat "0"%char 24 else msg_bin in
  msg_int <- parse_int 2 msg_bin ;;
  let len := Z.of_nat (length msg_bin) in
  let msg_int :=
    fold_left
      (fun m i => if Z.testbit m (p len i) then Z.lxor m (g len i) else m)
      (seq 0 (length msg_bin - 24)) msg_int in
  Some (Z.land msg_int 0xFFFFFF).

(** The frames the encoders of a file can return. *)
Definition as_produced (M : pymath) (frame : str) : Prop :=
  (exists icao callsign, AS.encode_callsign icao callsign = Some frame)
  \/ (exists icao lat lon alt time_bit,
        AS.encode_position M icao lat lon alt time_bit = Some frame)
  \/ (exists icao speed heading vr,
        AS.encode_velocity M icao speed heading vr = Some frame).

Definition sa_produced (M : pymath) (frame : str) : Prop :=
  (exists icao callsign, SA.encode_callsign icao callsign = Some frame)
  \/ (exists icao lat lon alt time_bit,
        SA.encode_position M icao lat lon alt time_bit = Some frame)
  \/ (exists icao speed heading vr,
        SA.encode_velocity M icao speed heading vr = Some frame).

(** The altitude a receiver reads from a frame: [_decode_position] of
    atc_debian9.py returns it as it is, [None] inside when Q = 0. *)
Definition frame_altitude (frame : str) : option (option Z) :=
  me_bin <- Receiver.me_bin_of frame ;;
  Receiver.decode_altitude me_bin.

Definition ac0 : Deb.received := DebR.new_aircraft (py "40621D") 0.

Definition keys {V : Type} (d : dict V) : list str := map fst d.

(** The shape of the received-aircraft map: one entry per key, each
    holding its key as ['icao']. *)
Definition army_ok (d : dict Army.received) : Prop :=
  NoDup (keys d) /\ forall k ac, In (k, ac) d -> Army.icao ac = k.

Definition debian9_ok (d : dict Deb.received) : Prop :=
  NoDup (keys d) /\ forall k ac, In (k, ac) d -> Deb.icao ac = k.

Definition adsb (e : entry) : Prop := e_source e = JStr (py "adsb").

(** Two messages that differ at most in their last six characters (where
    the CRC is). *)
Definition same_but_crc (msg msg' : str) : Prop :=
  length msg = length msg' /\ firstn 22 msg = firstn 22 msg'.

(** The downlink format and the type code as [_process_message] of
    atc_army_offline.py reads them; [None] where [int()] raises. *)
Definition df_of (msg_hex : str) : option Z :=
  first_byte <- parse_int 16 (slice 0 2 msg_hex) ;; Some (Z.shiftr first_byte 3).

Definition tc_of (msg_hex : str) : option Z :=
  me_byte <- parse_int 16 (slice 8 10 msg_hex) ;; Some (Z.shiftr me_byte 3).

Definition known_tc (tc : Z) : bool :=
  ((1 <=? tc) && (tc <=? 4)) || ((9 <=? tc) && (tc <=? 18)) || (tc =? 19).

(** The entry of a message's sender after it is created, if new, and its
    [last_seen] set. *)
Definition touched (d : dict Army.received) (icao : str) (now : float) : Army.received :=
  ArmyR.touch
    (match dict_get d icao with Some ac => ac | None => ArmyR.new_aircraft icao now end)
    now.

(** An ICAO address as the encoders take it: hex that [int(icao, 16)]
    reads as a 24-bit number. *)
Definition valid_icao (icao : str) (i : Z) : Prop :=
  parse_int 16 icao = Some i /\ 0 <= i < 2 ^ 24.

Definition signed (sign v : Z) : Z := if sign =? 0 then v else - v.

(** The twelve bits [encode_position] of aircraft_simulator.py writes for
    the altitude code [N]: eight bits of [N], the Q bit, three bits. *)
Definition as_alt12 (N : Z) : Z := N / 8 * 16 + 8 + N mod 8.

(** The twelve bits [encode_position] of send_adsb.py writes. *)
Definition sa_alt12 (N : Z) : Z :=
  Z.lor (Z.lor (Z.shiftl (Z.land (Z.shiftr N 4) 0x7F) 5) (Z.shiftl 1 4)) (Z.land N 0x0F).

(** The altitude [_decode_position] computes from the twelve bits [x]. *)
Definition altitude_of_bits (x : Z) : option Z :=
  if Z.land (Z.shiftr x 4) 1 =? 1 then
    Some (Z.lor (Z.shiftl (Z.land (Z.shiftr x 5) 0x7F) 4) (Z.land x 0x0F) * 25 - 1000)
  else None.

Definition opt_z_eqb (a b : option Z) : bool :=
  match a, b with
  | Some x, Some y => x =? y
  | None, None => true
  | _, _ => false
  end.

(** What the receivers read in the [me_bin] of a position frame. *)
Definition position_reading (me_bin : str) (alt12 F lat_cpr lon_cpr : Z) : Prop :=
  decode_altitude me_bin = Some (altitude_of_bits alt12)
  /\ bit_at me_bin 20 = Some 0
  /\ bit_at me_bin 21 = Some F
  /\ parse_int 2 (slice 22 39 me_bin) = Some lat_cpr
  /\ parse_int 2 (slice 39 56 me_bin) = Some lon_cpr.

(** What the C library returns, on IEEE-754 doubles, at the arguments of
    the two velocity examples below: [sin] and [cos] of [radians(45.5)] and
    of [radians(45)], [atan2(4, 4)] and [atan2(0, 0)]; [pow(x, 2)] and
    [x % y] for [0 <= x < y], which are exact. Elsewhere it is left
    undefined. *)
Definition libm_sample : pymath :=
  {| math_sin := fun x =>
       if PrimFloat.eqb x 0x1.969786ecd778dp-1 then Some 0x1.6d2f29b1f2f46p-1%float
       else if PrimFloat.eqb x 0x1.921fb54442d18p-1 then Some 0x1.6a09e667f3bccp-1%float
       else None;
     math_cos := fun x =>
       if PrimFloat.eqb x 0x1.969786ecd778dp-1 then Some 0x1.66dd943f43372p-1%float
       else if PrimFloat.eqb x 0x1.921fb54442d18p-1 then Some 0x1.6a09e667f3bcdp-1%float
       else None;
     math_acos := fun _ => None;
     math_atan2 := fun y x =>
       if PrimFloat.eqb y 4 && PrimFloat.eqb x 4 then Some 0x1.921fb54442d18p-1%float
       else if PrimFloat.eqb y 0 && PrimFloat.eqb x 0 then Some 0%float
       else None;
     float_pow := fun x y => if PrimFloat.eqb y 2 then Some (x * x)%float else None;
     float_mod := fun x y =>
       if PrimFloat.leb 0 x && PrimFloat.ltb x y then Some x else None |}.

(** The velocity a receiver reports for the components it decoded. *)
Definition reported (M : pymath) (ew_vel ns_vel : Z) : option float * option float :=
  match speed_heading M ew_vel ns_vel with
  | Some (s, h) => (Some s, Some h)
  | None => (None, None)
  end.

Definition vr_field_ok (vr : Z) : bool :=
  match AS.vr_field vr with
  | Some ve => (0 <=? ve) && (ve <? 512)
  | None => false
  end.

(** The ident frame of KLM1023 from 4840D6, as aircraft_simulator.py
    encodes it. *)
Definition klm_frame : str := py "8D4840D6202CC371C32CE0F4AB80".

Definition klm_bytes : bytes :=
  map chr [141; 72; 64; 214; 32; 44; 195; 113; 195; 44; 224; 244; 171; 128].

Definition klm_record : bytes :=
  map chr [26; 51; 0; 2; 203; 65; 120; 0; 200] ++ klm_bytes.

Definition odd_frame : str := py "8D40621D58C38D08880000C75A80".

Definition even_frame : str := py "8D40621D58C382000000007A3E0D".

(** An aircraft heard at time 0 with a decoded position, and one heard at
    time 40 with a callsign, a speed and a heading but no position. *)
Definition old_ac : Army.received :=
  ArmyR.set_position (ArmyR.new_aircraft (py "40621D") 0) 87 0 38000.

Definition fresh_ac : Army.received :=
  ArmyR.set_velocity
    (ArmyR.set_callsign (ArmyR.new_aircraft (py "4840D6") 40) (py "KLM1023"))
    (Some 450%float) (Some 90%float).

Definition sample_tracker : Army.tracker :=
  {| Army.aircraft_list := [];
     Army.received_aircraft := [(py "40621D", old_ac); (py "4840D6", fresh_ac)];
     Army.message_count := 2 |}.

Definition sample_served : Army.tracker * option response :=
  Eval vm_compute in ArmyW.serve_aircraft_json no_math 100 100 sample_tracker.

Definition sample_response : response :=
  match snd sample_served with
  | Some r => r
  | None => {| r_now := JNull; r_messages := JNull; r_aircraft := [] |}
  end.

(** The same tracker asked at time 50: both aircraft are fresh, the one
    with a position is in the array, the one without is not. *)
Definition sample_served_50 : Army.tracker * option response :=
  Eval vm_compute in ArmyW.serve_aircraft_json no_math 50 50 sample_tracker.

Definition sample_response_50 : response :=
  match snd sample_served_50 with
  | Some r => r
  | None => {| r_now := JNull; r_messages := JNull; r_aircraft := [] |}
  end.

(** A character a callsign can carry: a capital letter, a digit or a space. *)
Definition plain (c : ascii) : bool :=
  ((65 <=? ord c) && (ord c <=? 90)) || ((48 <=? ord c) && (ord c <=? 57)) || (ord c =? 32).

(** The eight characters [encode_callsign] encodes. *)
Definition padded (callsign : str) : str := upper (firstn 8 (callsign ++ py "        ")).

(** The bit string of an ident message from its eight character codes. *)
Definition ident_bits (i : Z) (c0 c1 c2 c3 c4 c5 c6 c7 : Z) : str :=
  fixed_digits 2 false 5 17 ++ fixed_digits 2 false 3 5 ++ fixed_digits 2 false 24 i
  ++ fixed_digits 2 false 5 4 ++ fixed_digits 2 false 3 0
  ++ fixed_digits 2 false 6 c0 ++ fixed_digits 2 false 6 c1 ++ fixed_digits 2 false 6 c2
  ++ fixed_digits 2 false 6 c3 ++ fixed_digits 2 false 6 c4 ++ fixed_digits 2 false 6 c5
  ++ fixed_digits 2 false 6 c6 ++ fixed_digits 2 false 6 c7 ++ [].

(** The entry of a message's sender in atc_debian9.py after it is
    created, if new, and its [last_seen] set. *)
Definition touched9 (d : dict Deb.received) (icao : str) (now : float) : Deb.received :=
  DebR.touch
    (match dict_get d icao with Some ac => ac | None => DebR.new_aircraft icao now end)
    now.

(** The header every encoder writes: DF 17, CA 5, the address, the type code. *)
Definition header (i tc : Z) : str :=
  fixed_digits 2 false 5 17 ++ fixed_digits 2 false 3 5 ++ fixed_digits 2 false 24 i
  ++ fixed_digits 2 false 5 tc.

(** The fragment of parity [F] in an entry. *)
Definition fragment (F : Z) (ac : Army.received) : option (Z * Z * float) :=
  if F =? 0 then Army.position_even ac else Army.position_odd ac.

Definition newline : ascii := "010"%char.

(** The complete lines of a text and what follows the last newline. *)
Fixpoint split_lines (s : str) : list str * str :=
  match s with
  | [] => ([], [])
  | c :: t =>
      let '(ls, r) := split_lines t in
      if Ascii.eqb c newline then ([] :: ls, r)
      else match ls with
           | [] => ([], c :: r)
           | l :: ls' => ((c :: l) :: ls', r)
           end
  end.

(** The messages among some lines that [_handle_client] of atc_debian9.py
    hands on. *)
Definition accepted (ls : list str) : list str :=
  flat_map (fun l => match DebR.accepted_line l with Some m => [m] | None => [] end) ls.

(** [int(abs(vr) / 64)] of [encode_velocity] is the integer quotient. *)
Definition vr_quotient_ok (vr : Z) : bool :=
  match int_true_div vr 64 with
  | Some q => match int_of_float q with
              | Some k => k =? vr / 64
              | None => false
              end
  | None => false
  end.

(** An entry that holds an even fragment received at time 0. *)
Definition waiting_ac : Army.received :=
  ArmyR.store_fragment (ArmyR.new_aircraft (py "40621D") 0) 0 1000 2000 0.

End Notions.

(** * Lemmas *)

Module PyFacts.
Import Py PyFloat Json Receiver Notions.

(** *** Characters *)

Lemma ord_range (c : ascii) : 0 <= ord c < 256.
Proof.
  unfold ord. pose proof (N_ascii_bounded c) as H. lia.
Qed.

Lemma chr_ord (c : ascii) : chr (ord c) = c.
Proof.
  unfold chr, ord. rewrite N2Z.id. apply ascii_N_embedding.
Qed.

Lemma ord_chr (n : Z) : 0 <= n < 256 -> ord (chr n) = n.
Proof.
  intros H. unfold chr, ord. rewrite N_ascii_embedding by lia. lia.
Qed.

Lemma ord_inj (a b : ascii) : ord a = ord b -> a = b.
Proof.
  intros H. rewrite <- (chr_ord a), <- (chr_ord b). now rewrite H.
Qed.

Lemma eqb_ord (a b : ascii) : Ascii.eqb a b = (ord a =? ord b).
Proof.
  destruct (Ascii.eqb_spec a b) as [->|Hne].
  - now rewrite Z.eqb_refl.
  - symmetry. apply Z.eqb_neq. intros H. apply Hne. now apply ord_inj.
Qed.

(** A digit character is no space, sign or underscore. *)
Lemma is_digit_ord (base : Z) (c : ascii) :
  is_digit base c = true ->
  48 <= ord c <= 57 \/ 65 <= ord c <= 90 \/ 97 <= ord c <= 122.
Proof.
  unfold is_digit, digit_value. intros H.
  destruct ((48 <=? ord c) && (ord c <=? 57)) eqn:E1; [lia|].
  destruct ((97 <=? ord c) && (ord c <=? 122)) eqn:E2; [lia|].
  destruct ((65 <=? ord c) && (ord c <=? 90)) eqn:E3; [lia|].
  discriminate.
Qed.

Lemma is_digit_not_space (base : Z) (c : ascii) :
  is_digit base c = true -> is_space c = false.
Proof.
  intros H. apply is_digit_ord in H. unfold is_space. lia.
Qed.

Lemma is_digit_not_char (base : Z) (c x : ascii) :
  is_digit base c = true -> ord x < 48 \/ ord x = 95 -> Ascii.eqb c x = false.
Proof.
  intros H Hx. apply is_digit_ord in H. rewrite eqb_ord. lia.
Qed.

(** *** Digit strings *)

Lemma digit_value_digit_char (u : bool) (d : Z) :
  0 <= d < 36 -> digit_value (digit_char u d) = Some d.
Proof.
  intros H. unfold digit_char, digit_value.
  destruct (d <? 10) eqn:E.
  - rewrite ord_chr by lia.
    replace ((48 <=? 48 + d) && (48 + d <=? 57)) with true by lia.
    f_equal. lia.
  - destruct u.
    + rewrite ord_chr by lia.
      replace ((48 <=? 55 + d) && (55 + d <=? 57)) with false by lia.
      replace ((97 <=? 55 + d) && (55 + d <=? 122)) with false by lia.
      replace ((65 <=? 55 + d) && (55 + d <=? 90)) with true by lia.
      f_equal. lia.
    + rewrite ord_chr by lia.
      replace ((48 <=? 87 + d) && (87 + d <=? 57)) with false by lia.
      replace ((97 <=? 87 + d) && (87 + d <=? 122)) with true by lia.
      f_equal. lia.
Qed.

Lemma is_digit_digit_char (base : Z) (u : bool) (d : Z) :
  base <= 36 -> 0 <= d < base -> is_digit base (digit_char u d) = true.
Proof.
  intros Hb Hd. unfold is_digit. rewrite digit_value_digit_char by lia. lia.
Qed.

Lemma dv_digit_char (u : bool) (d : Z) : 0 <= d < 36 -> dv (digit_char u d) = d.
Proof.
  intros H. unfold dv. now rewrite digit_value_digit_char.
Qed.

Lemma is_digit_dv (base : Z) (c : ascii) :
  is_digit base c = true -> digit_value c = Some (dv c) /\ 0 <= dv c < base.
Proof.
  unfold is_digit, dv. destruct (digit_value c) as [d|] eqn:E; [|discriminate].
  intros H. split; [reflexivity|].
  split; [|lia].
  unfold digit_value in E. pose proof (ord_range c).
  destruct ((48 <=? ord c) && (ord c <=? 57)) eqn:E1; [injection E; lia|].
  destruct ((97 <=? ord c) && (ord c <=? 122)) eqn:E2; [injection E; lia|].
  destruct ((65 <=? ord c) && (ord c <=? 90)) eqn:E3; [injection E; lia|].
  discriminate.
Qed.

Lemma fold_value (base : Z) (s : str) (acc : Z) :
  fold_left (fun a c => a * base + dv c) s acc
  = acc * base ^ Z.of_nat (length s) + value base s.
Proof.
  unfold value. revert acc. induction s as [|c s IH]; intros acc; simpl fold_left.
  - simpl. lia.
  - rewrite (IH (acc * base + dv c)), (IH (dv c)).
    change (length (c :: s)) with (S (length s)).
    rewrite Nat2Z.inj_succ, Z.pow_succ_r by lia. ring.
Qed.

Lemma value_app (base : Z) (s1 s2 : str) :
  value base (s1 ++ s2) = value base s1 * base ^ Z.of_nat (length s2) + value base s2.
Proof.
  unfold value at 1. rewrite fold_left_app. rewrite fold_value. reflexivity.
Qed.

Lemma value_nonneg (base : Z) (s : str) :
  0 < base -> digit_str base s -> 0 <= value base s < base ^ Z.of_nat (length s).
Proof.
  intros Hb H. induction s as [|c s IH] using rev_ind.
  - simpl. unfold value. simpl. lia.
  - apply Forall_app in H. destruct H as [Hs Hc].
    specialize (IH Hs). inversion Hc as [|? ? Hc' _]. subst.
    rewrite value_app, length_app. simpl length.
    apply is_digit_dv in Hc'. destruct Hc' as [_ Hc'].
    replace (value base [c]) with (dv c) by (unfold value; simpl; lia).
    rewrite Nat2Z.inj_add, Z.pow_add_r by lia.
    change (Z.of_nat 1) with 1. rewrite Z.pow_1_r. nia.
Qed.

Lemma parse_body_digits (base : Z) (s : str) (acc : Z) :
  digit_str base s ->
  parse_body base acc false s = Some (acc * base ^ Z.of_nat (length s) + value base s).
Proof.
  intros H. rewrite <- fold_value. revert acc.
  induction H as [|c s Hc Hs IH]; intros acc.
  - reflexivity.
  - simpl. unfold underscore.
    rewrite (is_digit_not_char base) by (auto; right; reflexivity).
    destruct (is_digit_dv _ _ Hc) as [-> Hd].
    replace (dv c <? base) with true by lia.
    apply IH.
Qed.

Lemma lstrip_digit (base : Z) (c : ascii) (s : str) :
  is_digit base c = true -> lstrip_with is_space (c :: s) = c :: s.
Proof.
  intros H. simpl. now rewrite (is_digit_not_space base).
Qed.

Lemma rstrip_digit_str (base : Z) (s : str) :
  digit_str base s -> rstrip_with is_space s = s.
Proof.
  intros H. unfold rstrip_with.
  destruct (rev s) as [|c r] eqn:E.
  - simpl. apply (f_equal (@rev ascii)) in E. rewrite rev_involutive in E. now subst.
  - assert (Hc : is_digit base c = true).
    { unfold digit_str in H. rewrite Forall_forall in H. apply H.
      apply in_rev. rewrite E. now left. }
    rewrite (lstrip_digit base) by assumption.
    rewrite <- E. apply rev_involutive.
Qed.

Lemma strip_prefix_digit_str (base : Z) (s : str) :
  digit_str base s -> strip_prefix base s = s.
Proof.
  intros H. unfold strip_prefix.
  destruct (prefix_letter base) as [l|] eqn:El; [|now destruct s].
  destruct s as [|z [|x t]]; try reflexivity.
  assert (Hx : is_digit base x = true) by (inversion H as [|? ? _ H2]; now inversion H2).
  replace (Ascii.eqb (upper_char x) (upper_char l)) with false;
    [now rewrite andb_false_r|].
  symmetry. rewrite eqb_ord. apply Z.eqb_neq.
  unfold prefix_letter in El.
  destruct (is_digit_dv _ _ Hx) as [Hv Hd]. pose proof (ord_range x) as Hr.
  unfold digit_value in Hv. unfold upper_char.
  assert (Hl : (base = 16 /\ ord l = 120) \/ (base = 2 /\ ord l = 98)).
  { destruct (base =? 16) eqn:E16.
    - injection El as <-. left. split; [lia|reflexivity].
    - destruct (base =? 2) eqn:E2b; [|discriminate].
      injection El as <-. right. split; [lia|reflexivity]. }
  assert (Hu : ord (if (97 <=? ord l) && (ord l <=? 122) then chr (ord l - 32) else l)
               = ord l - 32).
  { replace ((97 <=? ord l) && (ord l <=? 122)) with true by lia.
    apply ord_chr. lia. }
  rewrite Hu.
  destruct ((48 <=? ord x) && (ord x <=? 57)) eqn:E1.
  - replace ((97 <=? ord x) && (ord x <=? 122)) with false by lia. lia.
  - destruct ((97 <=? ord x) && (ord x <=? 122)) eqn:E2.
    + rewrite ord_chr by lia. injection Hv as Hv. lia.
    + destruct ((65 <=? ord x) && (ord x <=? 90)) eqn:E3; [|discriminate].
      injection Hv as Hv. lia.
Qed.

(** [int(s, base)] of a non-empty string of digits is the number it writes. *)
Lemma parse_int_digits (base : Z) (s : str) :
  s <> [] -> digit_str base s -> parse_int base s = Some (value base s).
Proof.
  intros Hne H. unfold parse_int.
  destruct s as [|c t]; [congruence|].
  assert (Hc : is_digit base c = true) by now inversion H.
  rewrite (lstrip_digit base) by assumption.
  rewrite (rstrip_digit_str base) by assumption.
  rewrite (is_digit_not_char base c "-"%char) by (auto; left; reflexivity).
  rewrite (is_digit_not_char base c "+"%char) by (auto; left; reflexivity).
  rewrite strip_prefix_digit_str by assumption.
  unfold underscore.
  rewrite (is_digit_not_char base c "_"%char) by (auto; right; reflexivity).
  rewrite parse_body_digits by assumption. simpl. reflexivity.
Qed.

(** *** [fixed_digits] and [format_int] *)

Lemma length_fixed_digits (base : Z) (u : bool) (w : nat) (n : Z) :
  length (fixed_digits base u w n) = w.
Proof.
  revert n. induction w as [|w IH]; intros n; simpl; [reflexivity|].
  rewrite length_app, IH. simpl. lia.
Qed.

Lemma digit_str_fixed_digits (base : Z) (u : bool) (w : nat) (n : Z) :
  1 < base <= 36 -> digit_str base (fixed_digits base u w n).
Proof.
  intros Hb. revert n. induction w as [|w IH]; intros n; simpl.
  - constructor.
  - apply Forall_app. split; [apply IH|].
    constructor; [|constructor].
    apply is_digit_digit_char; [lia|]. apply Z.mod_pos_bound. lia.
Qed.

Lemma value_fixed_digits (base : Z) (u : bool) (w : nat) (n : Z) :
  1 < base <= 36 -> value base (fixed_digits base u w n) = n mod base ^ Z.of_nat w.
Proof.
  intros Hb. revert n. induction w as [|w IH]; intros n.
  - simpl. unfold value. simpl. now rewrite Z.mod_1_r.
  - cbn [fixed_digits]. rewrite value_app, IH. simpl length.
    change (Z.of_nat 1) with 1. rewrite Z.pow_1_r.
    replace (value base [digit_char u (n mod base)]) with (n mod base).
    2:{ unfold value. simpl. rewrite dv_digit_char; [lia|].
        pose proof (Z.mod_pos_bound n base). lia. }
    assert (Hr : 0 < base ^ Z.of_nat w) by (apply Z.pow_pos_nonneg; lia).
    rewrite Nat2Z.inj_succ, Z.pow_succ_r by lia.
    rewrite Z.rem_mul_r by lia. lia.
Qed.

Lemma fixed_digits_split (base : Z) (u : bool) (w1 w2 : nat) (n : Z) :
  1 < base ->
  fixed_digits base u (w1 + w2) n
  = fixed_digits base u w1 (n / base ^ Z.of_nat w2) ++ fixed_digits base u w2 n.
Proof.
  intros Hb. revert n. induction w2 as [|w2 IH]; intros n.
  - rewrite Nat.add_0_r. simpl. now rewrite Z.div_1_r, app_nil_r.
  - rewrite Nat.add_succ_r. cbn [fixed_digits]. rewrite IH, app_assoc.
    f_equal. f_equal. f_equal.
    assert (Hp : 0 < base ^ Z.of_nat w2) by (apply Z.pow_pos_nonneg; lia).
    rewrite Nat2Z.inj_succ, Z.pow_succ_r by lia.
    rewrite Z.div_div by lia. reflexivity.
Qed.

Lemma fixed_digits_zero (base : Z) (u : bool) (w : nat) :
  1 < base -> fixed_digits base u w 0 = repeat "0"%char w.
Proof.
  intros Hb. induction w as [|w IH]; [reflexivity|].
  cbn [fixed_digits]. rewrite Z.div_0_l, Z.mod_0_l, IH by lia.
  change (digit_char u 0) with "0"%char.
  cbn [repeat]. now rewrite repeat_cons.
Qed.

Lemma fixed_digits_mod (base : Z) (u : bool) (w : nat) (n : Z) :
  1 < base -> fixed_digits base u w (n mod base ^ Z.of_nat w) = fixed_digits base u w n.
Proof.
  intros Hb. revert n. induction w as [|w IH]; intros n; [reflexivity|].
  cbn [fixed_digits].
  assert (Hp : 0 < base ^ Z.of_nat w) by (apply Z.pow_pos_nonneg; lia).
  rewrite Nat2Z.inj_succ, Z.pow_succ_r by lia.
  rewrite Z.rem_mul_r by lia.
  set (X := (n / base) mod base ^ Z.of_nat w).
  assert (Hd : (n mod base + base * X) / base = X).
  { rewrite (Z.mul_comm base), Z.div_add by lia.
    rewrite Z.div_small by (apply Z.mod_pos_bound; lia). lia. }
  assert (Hm : (n mod base + base * X) mod base = n mod base).
  { rewrite (Z.mul_comm base), Z.mod_add by lia. apply Z.mod_mod. lia. }
  rewrite Hd, Hm. unfold X. now rewrite IH.
Qed.

(** A string of binary digits is the digits of the number it writes. *)
Lemma fixed_digits_value (s : str) :
  digit_str 2 s -> fixed_digits 2 false (length s) (value 2 s) = s.
Proof.
  induction s as [|c s IH] using rev_ind; intros H; [reflexivity|].
  apply Forall_app in H. destruct H as [Hs Hc]. inversion Hc as [|? ? Hc' _]. subst.
  rewrite length_app, value_app. simpl length. rewrite Nat.add_1_r.
  cbn [fixed_digits].
  change (Z.of_nat 1) with 1. rewrite Z.pow_1_r.
  destruct (is_digit_dv _ _ Hc') as [Hv Hd].
  replace (value 2 [c]) with (dv c) by (unfold value; simpl; lia).
  rewrite Z.div_add_l, Z.div_small, Z.add_0_r by lia.
  rewrite Z.add_comm, Z.mod_add, Z.mod_small by lia.
  rewrite IH by assumption. f_equal. f_equal.
  apply ord_inj. pose proof (ord_range c) as Hr.
  unfold digit_value in Hv.
  destruct ((48 <=? ord c) && (ord c <=? 57)) eqn:E1.
  - injection Hv as Hv. unfold digit_char.
    replace (dv c <? 10) with true by lia. rewrite ord_chr by lia. lia.
  - destruct ((97 <=? ord c) && (ord c <=? 122)) eqn:E2; [injection Hv as Hv; lia|].
    destruct ((65 <=? ord c) && (ord c <=? 90)) eqn:E3; [injection Hv as Hv; lia|].
    discriminate.
Qed.

Lemma ndigits_bound (base : Z) (n : Z) :
  pow2_base base -> 0 <= n -> n < base ^ Z.of_nat (ndigits base n).
Proof.
  intros Hb Hn. unfold ndigits.
  destruct (n <=? 0) eqn:E.
  - assert (n = 0) by lia. subst. simpl. destruct Hb; subst; lia.
  - assert (Hpos : 0 < n) by lia.
    pose proof (Z.log2_nonneg n) as Hl.
    destruct (Z.log2_spec n Hpos) as [_ Hu].
    destruct Hb; subst base.
    + change (Z.log2 2) with 1. rewrite Z.div_1_r, Z2Nat.id by lia.
      now rewrite Z.add_1_r.
    + change (Z.log2 16) with 4.
      assert (Hq : 0 <= Z.log2 n / 4) by (apply Z.div_pos; lia).
      rewrite Z2Nat.id by lia.
      change 16 with (2 ^ 4). rewrite <- Z.pow_mul_r by lia.
      eapply Z.lt_le_trans; [exact Hu|].
      apply Z.pow_le_mono_r; [lia|].
      pose proof (Z.mod_pos_bound (Z.log2 n) 4).
      pose proof (Z.div_mod (Z.log2 n) 4). lia.
Qed.

Lemma ndigits_le (base : Z) (n : Z) (w : nat) :
  pow2_base base -> (1 <= w)%nat -> 0 <= n < base ^ Z.of_nat w ->
  (ndigits base n <= w)%nat.
Proof.
  intros Hb Hw Hn. unfold ndigits.
  destruct (n <=? 0) eqn:E; [assumption|].
  assert (Hpos : 0 < n) by lia.
  pose proof (Z.log2_nonneg n) as Hl.
  destruct Hb; subst base.
  - change (Z.log2 2) with 1. rewrite Z.div_1_r.
    assert (Z.log2 n < Z.of_nat w) by (apply Z.log2_lt_pow2; lia). lia.
  - change (Z.log2 16) with 4.
    assert (Hlt : Z.log2 n < 4 * Z.of_nat w).
    { apply Z.log2_lt_pow2; [lia|]. rewrite Z.pow_mul_r by lia. exact (proj2 Hn). }
    assert (Z.log2 n / 4 < Z.of_nat w) by (apply Z.div_lt_upper_bound; lia).
    assert (0 <= Z.log2 n / 4) by (apply Z.div_pos; lia). lia.
Qed.

Lemma ndigits_pos (base n : Z) : (1 <= ndigits base n)%nat.
Proof.
  unfold ndigits. destruct (n <=? 0); [lia|].
  destruct (Z.log2 base) eqn:E.
  - rewrite Z.div_0_r. simpl. lia.
  - assert (0 <= Z.log2 n / Z.pos p).
    { apply Z.div_pos; [apply Z.log2_nonneg|lia]. }
    lia.
  - pose proof (Z.log2_nonneg base). lia.
Qed.

Lemma format_int_fixed (base : Z) (u : bool) (w : nat) (n : Z) :
  pow2_base base -> (1 <= w)%nat -> 0 <= n < base ^ Z.of_nat w ->
  format_int base u w n = fixed_digits base u w n.
Proof.
  intros Hb Hw Hn. unfold format_int.
  replace (n <? 0) with false by lia.
  rewrite Nat.max_l; [reflexivity|]. now apply ndigits_le.
Qed.

Lemma pow2_base_range (base : Z) : pow2_base base -> 1 < base <= 36.
Proof. intros [->| ->]; lia. Qed.

Lemma format_int_nonneg (base : Z) (u : bool) (w : nat) (n : Z) :
  pow2_base base -> 0 <= n ->
  digit_str base (format_int base u w n)
  /\ format_int base u w n <> []
  /\ value base (format_int base u w n) = n.
Proof.
  intros Hb Hn. pose proof (pow2_base_range _ Hb) as Hr.
  unfold format_int. replace (n <? 0) with false by lia.
  split; [now apply digit_str_fixed_digits|]. split.
  - intros H. apply (f_equal (@length ascii)) in H.
    rewrite length_fixed_digits in H. simpl in H.
    pose proof (ndigits_pos base n). lia.
  - rewrite value_fixed_digits by assumption.
    apply Z.mod_small. split; [assumption|].
    eapply Z.lt_le_trans; [apply (ndigits_bound base n Hb Hn)|].
    apply Z.pow_le_mono_r; lia.
Qed.

End PyFacts.

Module CrcFacts.
Import Py PyFloat Json Receiver Notions.
Import PyFacts.

Lemma testbit_low (r k : Z) : 0 <= r < 2 ^ 24 -> 24 <= k -> Z.testbit r k = false.
Proof.
  intros Hr Hk. apply Z.testbit_false; [lia|].
  rewrite Z.div_small; [reflexivity|].
  split; [lia|]. eapply Z.lt_le_trans; [apply Hr|].
  apply Z.pow_le_mono_r; lia.
Qed.

(** A value below [2^24] folded into the message passes through the loop. *)
Lemma loop_lxor_low (p g : nat -> Z) (l : list nat) (m r : Z) :
  (forall i, In i l -> 24 <= p i) -> 0 <= r < 2 ^ 24 ->
  fold_left (fun m i => if Z.testbit m (p i) then Z.lxor m (g i) else m) l (Z.lxor m r)
  = Z.lxor
      (fold_left (fun m i => if Z.testbit m (p i) then Z.lxor m (g i) else m) l m) r.
Proof.
  intros Hp Hr. revert m. induction l as [|i l IH]; intros m; [reflexivity|].
  cbn [fold_left].
  rewrite Z.lxor_spec, (testbit_low r) by (auto; apply Hp; now left).
  rewrite xorb_false_r.
  destruct (Z.testbit m (p i)).
  - rewrite <- IH by (intros; apply Hp; now right). f_equal.
    rewrite !Z.lxor_assoc. f_equal. apply Z.lxor_comm.
  - apply IH. intros; apply Hp; now right.
Qed.

Lemma land_lxor_distr (a b m : Z) :
  Z.land (Z.lxor a b) m = Z.lxor (Z.land a m) (Z.land b m).
Proof.
  apply Z.bits_inj'. intros k Hk.
  rewrite Z.lxor_spec, !Z.land_spec, Z.lxor_spec.
  destruct (Z.testbit a k), (Z.testbit b k), (Z.testbit m k); reflexivity.
Qed.

Lemma add_low_lxor (n c : Z) :
  0 <= c < 2 ^ 24 -> n * 2 ^ 24 + c = Z.lxor (n * 2 ^ 24) c.
Proof.
  intros Hc. apply Z.add_nocarry_lxor.
  apply Z.bits_inj'. intros k Hk. rewrite Z.land_spec, Z.bits_0.
  destruct (Z.lt_ge_cases k 24).
  - rewrite <- Z.shiftl_mul_pow2 by lia. rewrite Z.shiftl_spec_low by lia. reflexivity.
  - rewrite (testbit_low c) by lia. apply andb_false_r.
Qed.

Lemma zfill_bin (w : nat) (n : Z) :
  (1 <= w)%nat -> 0 <= n < 2 ^ Z.of_nat w ->
  zfill w (skipn 2 (bin n)) = fixed_digits 2 false w n.
Proof.
  intros Hw Hn. unfold bin. replace (n <? 0) with false by lia.
  change (skipn 2 (py "0b" ++ digits 2 false n)) with (digits 2 false n).
  unfold digits. set (nd := ndigits 2 n).
  assert (Hnd : (nd <= w)%nat) by (apply ndigits_le; [now left|assumption|assumption]).
  assert (Hpos : (1 <= nd)%nat) by apply ndigits_pos.
  unfold zfill. rewrite length_fixed_digits.
  destruct (fixed_digits 2 false nd n) as [|c t] eqn:E.
  { apply (f_equal (@length ascii)) in E. rewrite length_fixed_digits in E.
    simpl in E. lia. }
  assert (Hc : is_digit 2 c = true).
  { assert (Hd : digit_str 2 (c :: t)).
    { rewrite <- E. apply digit_str_fixed_digits. lia. }
    now inversion Hd. }
  rewrite (is_digit_not_char 2 c "-"%char), (is_digit_not_char 2 c "+"%char)
    by (auto; left; reflexivity).
  cbn [orb]. rewrite <- E.
  replace w with ((w - nd) + nd)%nat at 2 by lia.
  rewrite fixed_digits_split by lia.
  rewrite Z.div_small by (split; [lia|apply ndigits_bound; [now left|lia]]).
  now rewrite fixed_digits_zero by lia.
Qed.

Lemma hex_bits_bound (s : str) :
  digit_str 16 s ->
  0 <= value 16 s < 2 ^ Z.of_nat (length s * 4).
Proof.
  intros H. pose proof (value_nonneg 16 s ltac:(lia) H) as Hv.
  rewrite Nat2Z.inj_mul, Z.mul_comm, Z.pow_mul_r by lia. exact Hv.
Qed.

(** The message as the loop sees it: its bits, their number, its value. *)
Lemma msg_bin_verify (s : str) :
  s <> [] -> digit_str 16 s ->
  let msg_bin := zfill (length s * 4) (skipn 2 (bin (value 16 s))) in
  parse_int 2 msg_bin = Some (value 16 s) /\ length msg_bin = (length s * 4)%nat.
Proof.
  intros Hne H msg_bin. subst msg_bin.
  assert (Hl : (1 <= length s * 4)%nat) by (destruct s; [congruence|simpl; lia]).
  pose proof (hex_bits_bound s H) as Hb.
  rewrite zfill_bin by assumption.
  rewrite length_fixed_digits. split; [|reflexivity].
  rewrite parse_int_digits.
  - rewrite value_fixed_digits by lia. f_equal. now apply Z.mod_small.
  - intros E. apply (f_equal (@length ascii)) in E.
    rewrite length_fixed_digits in E. simpl in E. lia.
  - apply digit_str_fixed_digits. lia.
Qed.

Lemma msg_bin_encode (s : str) :
  s <> [] -> digit_str 16 s ->
  let msg_bin := zfill (length s * 4) (skipn 2 (bin (value 16 s))) ++ repeat "0"%char 24 in
  parse_int 2 msg_bin = Some (value 16 s * 2 ^ 24)
  /\ length msg_bin = (length s * 4 + 24)%nat.
Proof.
  intros Hne H msg_bin. subst msg_bin.
  assert (Hl : (1 <= length s * 4)%nat) by (destruct s; [congruence|simpl; lia]).
  pose proof (hex_bits_bound s H) as Hb.
  rewrite zfill_bin by assumption.
  rewrite <- (fixed_digits_zero 2 false 24) by lia.
  rewrite length_app, !length_fixed_digits. split; [|reflexivity].
  rewrite parse_int_digits.
  - rewrite value_app, !value_fixed_digits, length_fixed_digits by lia.
    rewrite Z.mod_0_l by lia. rewrite Z.mod_small by assumption.
    f_equal. change (Z.of_nat 24) with 24. lia.
  - intros E. apply (f_equal (@length ascii)) in E.
    rewrite length_app, !length_fixed_digits in E. simpl in E. lia.
  - apply Forall_app. split; apply digit_str_fixed_digits; lia.
Qed.

(** Zero residue for any CRC of the shared shape whose tested bit stays
    at position 24 or above. *)
Lemma crc_gen_residue (p g : Z -> nat -> Z) (msg_hex : str) :
  (forall len i, (i < Z.to_nat len - 24)%nat -> 24 <= p len i) ->
  msg_hex <> [] -> digit_str 16 msg_hex ->
  exists c, crc_gen p g msg_hex true = Some c
            /\ 0 <= c < 2 ^ 24
            /\ crc_gen p g (msg_hex ++ format_X 6 c) false = Some 0.
Proof.
  intros Hp Hne Hd.
  destruct (msg_bin_encode msg_hex Hne Hd) as [He Hle].
  unfold crc_gen at 1. rewrite parse_int_digits by assumption.
  cbv zeta. rewrite He, Hle.
  replace (length msg_hex * 4 + 24 - 24)%nat with (length msg_hex * 4)%nat by lia.
  set (len := Z.of_nat (length msg_hex * 4 + 24)).
  set (loop := fold_left
                 (fun m i => if Z.testbit m (p len i) then Z.lxor m (g len i) else m)
                 (seq 0 (length msg_hex * 4))).
  set (c := Z.land (loop (value 16 msg_hex * 2 ^ 24)) 0xFFFFFF).
  assert (Hc : 0 <= c < 2 ^ 24).
  { unfold c. change 0xFFFFFF with (Z.ones 24). rewrite Z.land_ones by lia.
    apply Z.mod_pos_bound. lia. }
  exists c. split; [reflexivity|]. split; [assumption|].
  assert (Hf : format_X 6 c = fixed_digits 16 true 6 c).
  { apply format_int_fixed; [now right|lia|]. change (16 ^ Z.of_nat 6) with (2 ^ 24). lia. }
  assert (Hd' : digit_str 16 (msg_hex ++ format_X 6 c)).
  { apply Forall_app. split; [assumption|]. rewrite Hf. apply digit_str_fixed_digits. lia. }
  assert (Hne' : msg_hex ++ format_X 6 c <> []).
  { destruct msg_hex; [congruence|discriminate]. }
  assert (Hv : value 16 (msg_hex ++ format_X 6 c) = value 16 msg_hex * 2 ^ 24 + c).
  { rewrite value_app, Hf, length_fixed_digits, value_fixed_digits by lia.
    change (16 ^ Z.of_nat 6) with (2 ^ 24). rewrite Z.mod_small by lia. reflexivity. }
  destruct (msg_bin_verify _ Hne' Hd') as [Hv2 Hlv].
  unfold crc_gen. rewrite parse_int_digits by assumption.
  cbv zeta. rewrite Hv2, Hlv, Hv.
  rewrite length_app, Hf, length_fixed_digits.
  replace ((length msg_hex + 6) * 4 - 24)%nat with (length msg_hex * 4)%nat by lia.
  replace (Z.of_nat ((length msg_hex + 6) * 4)) with len by (unfold len; lia).
  fold loop. rewrite add_low_lxor by assumption.
  unfold loop. rewrite loop_lxor_low; [|intros i Hi|assumption].
  - fold loop. f_equal. rewrite land_lxor_distr. fold c.
    replace (Z.land c 0xFFFFFF) with c; [apply Z.lxor_nilpotent|].
    change 0xFFFFFF with (Z.ones 24). rewrite Z.land_ones by lia.
    symmetry. apply Z.mod_small. assumption.
  - apply Hp. apply in_seq in Hi. unfold len. lia.
Qed.

End CrcFacts.

Module EncoderFacts.
Import Py PyFloat Json Receiver Notions.
Import PyFacts CrcFacts.

(** Destructs the binds of a hypothesis [H : ... = Some _]. *)
Ltac unbind H :=
  repeat match type of H with
  | match ?e with Some _ => _ | None => None end = Some _ =>
      let E := fresh "E" in destruct e eqn:E; [|discriminate H]
  | (let '(_, _) := ?p in _) = Some _ => destruct p
  end.

Lemma digit_value_nonneg (c : ascii) (d : Z) : digit_value c = Some d -> 0 <= d.
Proof.
  unfold digit_value. intros H.
  destruct ((48 <=? ord c) && (ord c <=? 57)) eqn:E1; [injection H; lia|].
  destruct ((97 <=? ord c) && (ord c <=? 122)) eqn:E2; [injection H; lia|].
  destruct ((65 <=? ord c) && (ord c <=? 90)) eqn:E3; [injection H; lia|].
  discriminate.
Qed.

Lemma parse_body_nonneg (base : Z) (s : str) (acc : Z) (pu : bool) (v : Z) :
  0 < base -> 0 <= acc -> parse_body base acc pu s = Some v -> 0 <= v.
Proof.
  intros Hb. revert acc pu. induction s as [|c s IH]; intros acc pu Ha H; simpl in H.
  - destruct pu; [discriminate|]. injection H as <-. assumption.
  - destruct (Ascii.eqb c underscore).
    + destruct pu; [discriminate|]. eapply IH; eauto.
    + destruct (digit_value c) as [d|] eqn:Ed; [|discriminate].
      destruct (d <? base); [|discriminate].
      apply digit_value_nonneg in Ed. eapply IH; [|exact H]. nia.
Qed.

Lemma lstrip_app_keep (f : ascii -> bool) (l : str) (c : ascii) :
  f c = false -> exists l', lstrip_with f (l ++ [c]) = l' ++ [c].
Proof.
  intros Hc. induction l as [|x l IH]; simpl.
  - rewrite Hc. now exists [].
  - destruct (f x); [exact IH|]. now exists (x :: l).
Qed.

Lemma rstrip_cons_keep (f : ascii -> bool) (c : ascii) (t : str) :
  f c = false -> exists t', rstrip_with f (c :: t) = c :: t'.
Proof.
  intros Hc. unfold rstrip_with. simpl rev.
  destruct (lstrip_app_keep f (rev t) c Hc) as [l' ->].
  rewrite rev_app_distr. simpl. now exists (rev l').
Qed.

(** [int(s, base)] of a string that starts with a digit is not negative. *)
Lemma parse_int_head_digit (base : Z) (c : ascii) (t : str) (v : Z) :
  0 < base -> is_digit base c = true -> parse_int base (c :: t) = Some v -> 0 <= v.
Proof.
  intros Hb Hc H. unfold parse_int in H.
  rewrite (lstrip_digit base) in H by assumption.
  destruct (rstrip_cons_keep is_space c t (is_digit_not_space _ _ Hc)) as [t' Ht].
  rewrite Ht in H.
  rewrite (is_digit_not_char base c "-"%char) in H by (auto; left; reflexivity).
  rewrite (is_digit_not_char base c "+"%char) in H by (auto; left; reflexivity).
  destruct (strip_prefix base (c :: t')) as [|c' t'']; [discriminate|].
  destruct (Ascii.eqb c' underscore); [discriminate|].
  destruct (parse_body base 0 false (c' :: t'')) as [v'|] eqn:E; [|discriminate].
  injection H as <-. eapply parse_body_nonneg; [exact Hb| |exact E]. lia.
Qed.

(** Every encoder of both files starts its bit string with [format(17, '05b')]. *)
Lemma df17_head (rest : str) :
  exists t, format_b 5 17 ++ rest = "1"%char :: t.
Proof. now exists (py "0001" ++ rest). Qed.

Section Finish.

Variables (crc : str -> bool -> option Z) (p g : Z -> nat -> Z).

Hypothesis crc_shape : forall s e, crc s e = crc_gen p g s e.

Hypothesis p_high : forall len i, (i < Z.to_nat len - 24)%nat -> 24 <= p len i.

(** What [finish] returns has zero residue, whichever of the two CRCs closes it. *)
Lemma finish_zero_residue (w : nat) (msg_bin frame : str) (t : str) :
  msg_bin = "1"%char :: t ->
  (m <- parse_int 2 msg_bin ;;
   let msg_hex := format_X w m in
   c <- crc msg_hex true ;;
   Some (msg_hex ++ format_X 6 c)) = Some frame ->
  crc frame false = Some 0.
Proof.
  intros Hhead H. unbind H. cbv zeta in H. unbind H. injection H as <-.
  assert (Hm : 0 <= z).
  { rewrite Hhead in E. eapply (parse_int_head_digit 2); [lia| |exact E]. reflexivity. }
  destruct (format_int_nonneg 16 true w z ltac:(now right) Hm) as (Hd & Hne & _).
  destruct (crc_gen_residue p g (format_X w z) p_high Hne Hd) as (c & Hc & _ & Hr).
  rewrite crc_shape in E0. unfold format_X in E0 at 1. 
  assert (c = z0) by (unfold format_X in Hc; congruence). subst.
  rewrite crc_shape. exact Hr.
Qed.

End Finish.

Lemma as_crc_shape (s : str) (e : bool) :
  AS.crc s e
  = crc_gen (fun len i => len - 1 - Z.of_nat i)
      (fun len i => Z.shiftl (Z.shiftr AS.GENERATOR 1) (len - 25 - Z.of_nat i)) s e.
Proof. reflexivity. Qed.

Lemma sa_crc_shape (s : str) (e : bool) :
  SA.crc s e
  = crc_gen (fun len i => len - Z.of_nat i - 1)
      (fun len i => Z.shiftr SA.generator (Z.of_nat i)) s e.
Proof. reflexivity. Qed.

Lemma as_finish_residue (w : nat) (msg_bin frame t : str) :
  msg_bin = "1"%char :: t -> AS.finish w msg_bin = Some frame -> AS.crc frame false = Some 0.
Proof.
  intros Hh H. eapply (finish_zero_residue AS.crc _ _ as_crc_shape); [|exact Hh|exact H].
  intros len i Hi. cbv beta. lia.
Qed.

Lemma sa_finish_residue (w : nat) (msg_bin frame t : str) :
  msg_bin = "1"%char :: t -> SA.finish w msg_bin = Some frame -> SA.crc frame false = Some 0.
Proof.
  intros Hh H. eapply (finish_zero_residue SA.crc _ _ sa_crc_shape); [|exact Hh|exact H].
  intros len i Hi. cbv beta. lia.
Qed.

Lemma as_callsign_residue (icao callsign frame : str) :
  AS.encode_callsign icao callsign = Some frame -> AS.crc frame false = Some 0.
Proof.
  unfold AS.encode_callsign. cbv zeta. intros H. unbind H.
  rewrite <- ?app_assoc in H.
  destruct (df17_head (format_b 3 5 ++ format_b 24 z ++ format_b 5 4 ++ format_b 3 0
      ++ flat_map (format_b 6)
           (map AS.char_code (upper (firstn 8 (callsign ++ py "        ")))))) as [t Ht].
  eapply as_finish_residue; [exact Ht|exact H].
Qed.

Lemma as_position_frame_residue (icao frame : str) (alt_code time_bit lat_cpr lon_cpr : Z) :
  AS.position_frame icao alt_code time_bit lat_cpr lon_cpr = Some frame ->
  AS.crc frame false = Some 0.
Proof.
  unfold AS.position_frame. cbv zeta. intros H. unbind H.
  match type of H with (if ?b then _ else _) = _ => destruct b; [|discriminate] end.
  rewrite <- ?app_assoc in H.
  match type of H with AS.finish _ (format_b 5 17 ++ ?r) = _ =>
    destruct (df17_head r) as [t Ht] end.
  eapply as_finish_residue; [exact Ht|exact H].
Qed.

Lemma as_velocity_frame_residue (icao frame : str) (a b c d e f : Z) :
  AS.velocity_frame icao a b c d e f = Some frame -> AS.crc frame false = Some 0.
Proof.
  unfold AS.velocity_frame. cbv zeta. intros H. unbind H.
  match type of H with (if ?b then _ else _) = _ => destruct b; [|discriminate] end.
  rewrite <- ?app_assoc in H.
  match type of H with AS.finish _ (format_b 5 17 ++ ?r) = _ =>
    destruct (df17_head r) as [t Ht] end.
  eapply as_finish_residue; [exact Ht|exact H].
Qed.

Lemma sa_callsign_residue (icao callsign frame : str) :
  SA.encode_callsign icao callsign = Some frame -> SA.crc frame false = Some 0.
Proof.
  unfold SA.encode_callsign. cbv zeta. intros H. unbind H.
  rewrite <- ?app_assoc in H.
  match type of H with SA.finish _ (format_b 5 17 ++ ?r) = _ =>
    destruct (df17_head r) as [t Ht] end.
  eapply sa_finish_residue; [exact Ht|exact H].
Qed.

Lemma sa_position_frame_residue (icao frame : str) (alt_code time_bit lat_cpr lon_cpr : Z) :
  SA.position_frame icao alt_code time_bit lat_cpr lon_cpr = Some frame ->
  SA.crc frame false = Some 0.
Proof.
  unfold SA.position_frame. cbv zeta. intros H. unbind H.
  rewrite <- ?app_assoc in H.
  match type of H with SA.finish _ (format_b 5 17 ++ ?r) = _ =>
    destruct (df17_head r) as [t Ht] end.
  eapply sa_finish_residue; [exact Ht|exact H].
Qed.

Lemma sa_velocity_frame_residue (icao frame : str) (a b c d e f : Z) :
  SA.velocity_frame icao a b c d e f = Some frame -> SA.crc frame false = Some 0.
Proof.
  unfold SA.velocity_frame. cbv zeta. intros H. unbind H.
  match type of H with (if ?b then _ else _) = _ => destruct b; [|discriminate] end.
  rewrite <- ?app_assoc in H.
  match type of H with SA.finish _ (format_b 5 17 ++ ?r) = _ =>
    destruct (df17_head r) as [t Ht] end.
  eapply sa_finish_residue; [exact Ht|exact H].
Qed.

(** C1. Zero residue: every frame an encoder returns (ident, airborne
    position, airborne velocity, in aircraft_simulator.py and in
    send_adsb.py) has CRC 0 when the file's [crc] is run over the whole
    frame in verify mode ([encode=False]). *)
Theorem crc_zero_residue (M : pymath) (frame : str) :
  (as_produced M frame -> AS.crc frame false = Some 0)
  /\ (sa_produced M frame -> SA.crc frame false = Some 0).
Proof.
  split.
  - intros [(icao & cs & H)|[(icao & lat & lon & alt & tb & H)|(icao & sp & hd & vr & H)]].
    + eapply as_callsign_residue; eauto.
    + unfold AS.encode_position in H. unbind H.
      eapply as_position_frame_residue; eauto.
    + unfold AS.encode_velocity in H. cbv zeta in H. unbind H.
      eapply as_velocity_frame_residue; eauto.
  - intros [(icao & cs & H)|[(icao & lat & lon & alt & tb & H)|(icao & sp & hd & vr & H)]].
    + eapply sa_callsign_residue; eauto.
    + unfold SA.encode_position in H. unbind H.
      eapply sa_position_frame_residue; eauto.
    + unfold SA.encode_velocity in H. cbv zeta in H. unbind H.
      eapply sa_velocity_frame_residue; eauto.
Qed.

End EncoderFacts.

Module Evaluations.
Import Py PyFloat Json Receiver Notions.
Import PyFacts CrcFacts EncoderFacts.

(** C2. At 35000 ft (N = 1440, bit 3 of N clear) the encoder of
    aircraft_simulator.py, which puts the Q bit after eight bits of N and
    not after seven, returns a frame in which both receivers read Q = 0:
    atc_debian9.py decodes altitude [None], atc_army_offline.py altitude 0.
    The encoder of send_adsb.py, which lays the field out as
    top7 | Q=1 | bottom4, returns a frame that decodes to 35000. *)
Theorem aircraft_simulator_altitude_not_recovered :
  (exists frame,
      AS.encode_position no_math (py "40621D") 0 0 35000 0 = Some frame
      /\ frame_altitude frame = Some None
      /\ option_map (fun f => fst (fst (fst f))) (ArmyR.position_fields frame) = Some 0)
  /\ (exists frame,
        SA.encode_position no_math (py "40621D") 90 0 35000 0 = Some frame
        /\ frame_altitude frame = Some (Some 35000)).
Proof.
  split.
  - exists (py "8D40621D58B48000000000100F80"). vm_compute. repeat split.
  - exists (py "8D40621D58B500000000007A3E0D"). vm_compute. repeat split.
Qed.

(** C3. A frame encoded with F = 1 (odd): [_decode_position] of
    atc_army_offline.py, which reads bit 21, stores it as the odd fragment;
    [_decode_position] of atc_debian9.py, which reads bit 20 (the Time
    bit, always 0), stores it as the even fragment and leaves the odd one
    empty. *)
Theorem debian9_stores_odd_frame_as_even :
  exists frame,
    AS.encode_position no_math (py "40621D") 0 0 38000 1 = Some frame
    /\ option_map (fun r => (Army.position_even (fst r), Army.position_odd (fst r)))
         (ArmyR._decode_position no_math 0 frame (ArmyR.new_aircraft (py "40621D") 0) 5)
       = Some (None, Some (0, 0, 5%float))
    /\ option_map (fun r => (Deb.lat_even_cpr (fst r), Deb.lon_even_cpr (fst r),
                             Deb.lat_odd_cpr (fst r), Deb.lon_odd_cpr (fst r)))
         (DebR._decode_position no_math 0 frame ac0)
       = Some (Some 0, Some 0, None, None).
Proof.
  exists (py "8D40621D58C3840000000068C080"). vm_compute. repeat split.
Qed.

End Evaluations.

Module DictFacts.
Import Py PyFloat Json Receiver Notions.
Import PyFacts CrcFacts EncoderFacts Evaluations.

Lemma str_eqb_eq (a b : str) : str_eqb a b = true <-> a = b.
Proof.
  unfold str_eqb. destruct (list_eq_dec ascii_dec a b); split; congruence.
Qed.

Lemma str_eqb_refl (a : str) : str_eqb a a = true.
Proof. now apply str_eqb_eq. Qed.

Lemma str_eqb_neq (a b : str) : str_eqb a b = false <-> a <> b.
Proof.
  unfold str_eqb. destruct (list_eq_dec ascii_dec a b); split; congruence.
Qed.

Section Dict.

Context {V : Type}.

Implicit Types (d : dict V) (k : str) (v : V).

Lemma in_dict_del d k x : In x (dict_del d k) -> In x d.
Proof.
  induction d as [|[k' v'] d IH]; simpl; [tauto|].
  destruct (str_eqb k' k); simpl; intuition.
Qed.

Lemma keys_dict_del d k k0 : In k0 (keys (dict_del d k)) -> In k0 (keys d).
Proof.
  unfold keys. rewrite !in_map_iff. intros (x & Hx & Hin).
  exists x. split; [assumption|]. eapply in_dict_del; eauto.
Qed.

Lemma nodup_dict_del d k : NoDup (keys d) -> NoDup (keys (dict_del d k)).
Proof.
  unfold keys. induction d as [|[k' v'] d IH]; simpl; intros H; [constructor|].
  inversion H as [|? ? Hn Hd]; subst.
  destruct (str_eqb k' k); [assumption|].
  simpl. constructor; [|now apply IH].
  intros Hin. apply Hn. now apply (keys_dict_del d k).
Qed.

Lemma dict_del_absent d k : NoDup (keys d) -> ~ In k (keys (dict_del d k)).
Proof.
  unfold keys. induction d as [|[k' v'] d IH]; simpl; intros H; [tauto|].
  inversion H as [|? ? Hn Hd]; subst.
  destruct (str_eqb k' k) eqn:E.
  - apply str_eqb_eq in E. now subst.
  - simpl. intros [Hk|Hin]; [apply str_eqb_neq in E; congruence|].
    now apply IH.
Qed.

Lemma in_fold_del (ks : list str) d x : In x (fold_left dict_del ks d) -> In x d.
Proof.
  revert d. induction ks as [|k0 ks IH]; intros d; simpl; [tauto|].
  intros H. apply IH in H. eapply in_dict_del; eauto.
Qed.

Lemma keys_fold_del (ks : list str) d k0 :
  In k0 (keys (fold_left dict_del ks d)) -> In k0 (keys d).
Proof.
  revert d. induction ks as [|k1 ks IH]; intros d; simpl; [tauto|].
  intros H. apply IH in H. eapply keys_dict_del; eauto.
Qed.

Lemma fold_del_absent (ks : list str) d k :
  NoDup (keys d) -> In k ks -> ~ In k (keys (fold_left dict_del ks d)).
Proof.
  revert d. induction ks as [|k0 ks IH]; intros d Hd Hin; simpl; [destruct Hin|].
  destruct (list_eq_dec ascii_dec k0 k) as [->|Hne].
  - intros H. apply keys_fold_del in H. revert H. now apply dict_del_absent.
  - destruct Hin as [?|Hin]; [congruence|].
    apply IH; [now apply nodup_dict_del|assumption].
Qed.

(** What [dict_del_where] leaves: nothing that satisfied [p], and only
    items that were there. *)
Lemma dict_del_where_absent (p : V -> bool) d k v :
  NoDup (keys d) -> In (k, v) d -> p v = true ->
  ~ In k (keys (dict_del_where p d)).
Proof.
  intros Hd Hin Hp. unfold dict_del_where. apply fold_del_absent; [assumption|].
  apply in_map_iff. exists (k, v). split; [reflexivity|].
  apply filter_In. now split.
Qed.

Lemma dict_del_where_subset (p : V -> bool) d x :
  In x (dict_del_where p d) -> In x d.
Proof. apply in_fold_del. Qed.

Lemma dict_get_none d k : ~ In k (keys d) -> dict_get d k = None.
Proof.
  unfold keys. induction d as [|[k' v'] d IH]; simpl; intros H; [reflexivity|].
  destruct (str_eqb k' k) eqn:E.
  - apply str_eqb_eq in E. tauto.
  - apply IH. tauto.
Qed.

Lemma dict_collect_in {E : Type} (f : str -> V -> option (option E)) d (l : list E) (e : E) :
  dict_collect f d = Some l -> In e l ->
  exists k v, In (k, v) d /\ f k v = Some (Some e).
Proof.
  revert l. induction d as [|[k v] d IH]; intros l H Hin; simpl in H.
  - injection H as <-. destruct Hin.
  - destruct (f k v) as [[e0|]|] eqn:Ef; [| |discriminate].
    + destruct (dict_collect f d) as [r|]; [|discriminate].
      injection H as <-. destruct Hin as [->|Hin].
      * exists k, v. split; [now left|assumption].
      * destruct (IH r eq_refl Hin) as (k1 & v1 & H1 & H2).
        exists k1, v1. split; [now right|assumption].
    + destruct (IH l H Hin) as (k1 & v1 & H1 & H2).
      exists k1, v1. split; [now right|assumption].
Qed.

End Dict.

Lemma all_some_in {A B : Type} (f : A -> option B) (l : list A) (r : list B) (b : B) :
  all_some (map f l) = Some r -> In b r -> exists a, In a l /\ f a = Some b.
Proof.
  revert r. induction l as [|a l IH]; intros r H Hin; simpl in H.
  - injection H as <-. destruct Hin.
  - destruct (f a) as [b0|] eqn:Ef; [|discriminate].
    destruct (all_some (map f l)) as [r0|]; [|discriminate].
    injection H as <-. destruct Hin as [->|Hin].
    + exists a. split; [now left|assumption].
    + destruct (IH r0 eq_refl Hin) as (a1 & H1 & H2). exists a1. split; [now right|assumption].
Qed.

End DictFacts.

Module ViewFacts.
Import Py PyFloat Json Receiver Notions.
Import PyFacts CrcFacts EncoderFacts Evaluations DictFacts.

Lemma nodup_keys_unique {V : Type} (d : dict V) (k : str) (v1 v2 : V) :
  NoDup (keys d) -> In (k, v1) d -> In (k, v2) d -> v1 = v2.
Proof.
  unfold keys. induction d as [|[k' v'] d IH]; simpl; intros Hd H1 H2; [destruct H1|].
  inversion Hd as [|? ? Hn Hd']; subst.
  destruct H1 as [E1|H1], H2 as [E2|H2].
  - congruence.
  - injection E1 as -> ->. exfalso. apply Hn. apply in_map_iff. now exists (k, v2).
  - injection E2 as -> ->. exfalso. apply Hn. apply in_map_iff. now exists (k, v1).
  - now apply IH.
Qed.

(** Where an object of the array comes from. *)
Lemma army_entry_origin (M : pymath) (now now2 : float) (st st' : Army.tracker)
  (resp : response) (e : entry) :
  ArmyW.serve_aircraft_json M now now2 st = (st', Some resp) ->
  In e (r_aircraft resp) -> adsb e ->
  Army.received_aircraft st' = ArmyW.remove_stale now (Army.received_aircraft st)
  /\ exists k ac la lo,
       In (k, ac) (Army.received_aircraft st')
       /\ Army.lat ac = Some la /\ Army.lon ac = Some lo
       /\ e_hex e = JStr (Army.icao ac)
       /\ e_lat e = JFloat la /\ e_lon e = JFloat lo.
Proof.
  unfold ArmyW.serve_aircraft_json. intros H Hin Ha.
  destruct (all_some _) as [sim|] eqn:Es; [|discriminate].
  destruct (ArmyW.received_entries _ _) as [rec|] eqn:Er; [|discriminate].
  injection H as <- <-. simpl in *. split; [reflexivity|].
  apply in_app_or in Hin. destruct Hin as [Hin|Hin].
  - destruct (all_some_in _ _ _ _ Es Hin) as (a & _ & Hf).
    unfold ArmyW.simulated_entry in Hf.
    destruct (aircraft_simulator.get_position M a) as [[la lo]|]; [|discriminate].
    destruct (aircraft_simulator.get_heading M a); [|discriminate].
    injection Hf as <-. unfold adsb in Ha. simpl in Ha. discriminate.
  - unfold ArmyW.received_entries in Er.
    destruct (dict_collect_in _ _ _ _ Er Hin) as (k & ac & Hk & Hf).
    destruct (Army.lat ac) as [la|] eqn:Ela; [|discriminate].
    destruct (Army.lon ac) as [lo|] eqn:Elo; [|discriminate].
    unfold ArmyW.received_entry in Hf.
    destruct (int_of_float _); [|discriminate].
    injection Hf as <-. exists k, ac, la, lo. simpl. auto 10.
Qed.

Lemma debian9_entry_origin (M : pymath) (now now2 : float) (st st' : Deb.tracker)
  (resp : response) (e : entry) :
  DebW.serve_aircraft_json M now now2 st = (st', Some resp) ->
  In e (r_aircraft resp) -> adsb e ->
  Deb.received_aircraft st' = DebW.remove_stale now (Deb.received_aircraft st)
  /\ exists k ac la lo,
       In (k, ac) (Deb.received_aircraft st')
       /\ Deb.lat ac = Some la /\ Deb.lon ac = Some lo
       /\ e_hex e = JStr (Deb.icao ac)
       /\ e_lat e = JFloat la /\ e_lon e = JFloat lo.
Proof.
  unfold DebW.serve_aircraft_json. intros H Hin Ha.
  destruct (all_some _) as [sim|] eqn:Es; [|discriminate].
  destruct (DebW.received_entries _ _) as [rec|] eqn:Er; [|discriminate].
  injection H as <- <-. simpl in *. split; [reflexivity|].
  apply in_app_or in Hin. destruct Hin as [Hin|Hin].
  - destruct (all_some_in _ _ _ _ Es Hin) as (a & _ & Hf).
    unfold DebW.simulated_entry in Hf.
    destruct (Deb.get_position M a) as [[la lo]|]; [|discriminate].
    destruct (Deb.get_heading M a); [|discriminate].
    injection Hf as <-. unfold adsb in Ha. simpl in Ha. discriminate.
  - unfold DebW.received_entries in Er.
    destruct (dict_collect_in _ _ _ _ Er Hin) as (k & ac & Hk & Hf).
    destruct (Deb.lat ac) as [la|] eqn:Ela; [|discriminate].
    destruct (Deb.lon ac) as [lo|] eqn:Elo; [|discriminate].
    unfold DebW.received_entry in Hf.
    destruct (int_of_float _); [|discriminate].
    injection Hf as <-. exists k, ac, la, lo. simpl. auto 10.
Qed.

Lemma army_served_state (M : pymath) (now now2 : float) (st st' : Army.tracker)
  (resp : response) :
  ArmyW.serve_aircraft_json M now now2 st = (st', Some resp) ->
  Army.received_aircraft st' = ArmyW.remove_stale now (Army.received_aircraft st).
Proof.
  unfold ArmyW.serve_aircraft_json. intros H.
  destruct (all_some _); [|discriminate].
  destruct (ArmyW.received_entries _ _); [|discriminate].
  now injection H as <- _.
Qed.

Lemma debian9_served_state (M : pymath) (now now2 : float) (st st' : Deb.tracker)
  (resp : response) :
  DebW.serve_aircraft_json M now now2 st = (st', Some resp) ->
  Deb.received_aircraft st' = DebW.remove_stale now (Deb.received_aircraft st).
Proof.
  unfold DebW.serve_aircraft_json. intros H.
  destruct (all_some _); [|discriminate].
  destruct (DebW.received_entries _ _); [|discriminate].
  now injection H as <- _.
Qed.

(** Staleness in atc_army_offline.py: the entry is deleted, and no object
    of the array is made from it. *)
Lemma army_stale_absent (M : pymath) (now now2 : float) (st st' : Army.tracker)
  (resp : response) (k : str) (ac : Army.received) :
  army_ok (Army.received_aircraft st) ->
  In (k, ac) (Army.received_aircraft st) ->
  PrimFloat.ltb Army.AIRCRAFT_TIMEOUT (now - Army.last_seen ac)%float = true ->
  ArmyW.serve_aircraft_json M now now2 st = (st', Some resp) ->
  dict_get (Army.received_aircraft st') k = None
  /\ forall e, In e (r_aircraft resp) -> adsb e -> e_hex e <> JStr k.
Proof.
  intros [Hnd Hic] Hin Hst H.
  assert (Habs : ~ In k (keys (Army.received_aircraft st'))).
  { rewrite (army_served_state _ _ _ _ _ _ H).
    now apply (dict_del_where_absent _ _ k ac). }
  split; [now apply dict_get_none|].
  intros e He Ha Hhex.
  destruct (army_entry_origin _ _ _ _ _ _ _ H He Ha)
    as (Hst' & k' & ac' & la & lo & Hk' & _ & _ & Hh & _).
  apply Habs. apply in_map_iff. exists (k', ac'). split; [|assumption].
  simpl. rewrite Hh in Hhex. injection Hhex as <-.
  symmetry. apply Hic. rewrite Hst' in Hk'. eapply dict_del_where_subset; eauto.
Qed.

(** Staleness in atc_debian9.py. *)
Lemma debian9_stale_absent (M : pymath) (now now2 : float) (st st' : Deb.tracker)
  (resp : response) (k : str) (ac : Deb.received) :
  debian9_ok (Deb.received_aircraft st) ->
  In (k, ac) (Deb.received_aircraft st) ->
  PrimFloat.ltb Deb.AIRCRAFT_TIMEOUT (now - Deb.last_seen ac)%float = true ->
  DebW.serve_aircraft_json M now now2 st = (st', Some resp) ->
  dict_get (Deb.received_aircraft st') k = None
  /\ forall e, In e (r_aircraft resp) -> adsb e -> e_hex e <> JStr k.
Proof.
  intros [Hnd Hic] Hin Hst H.
  assert (Habs : ~ In k (keys (Deb.received_aircraft st'))).
  { rewrite (debian9_served_state _ _ _ _ _ _ H).
    now apply (dict_del_where_absent _ _ k ac). }
  split; [now apply dict_get_none|].
  intros e He Ha Hhex.
  destruct (debian9_entry_origin _ _ _ _ _ _ _ H He Ha)
    as (Hst' & k' & ac' & la & lo & Hk' & _ & _ & Hh & _).
  apply Habs. apply in_map_iff. exists (k', ac'). split; [|assumption].
  simpl. rewrite Hh in Hhex. injection Hhex as <-.
  symmetry. apply Hic. rewrite Hst' in Hk'. eapply dict_del_where_subset; eauto.
Qed.

End ViewFacts.

Module ProcessFacts.
Import Py PyFloat Json Receiver Notions.
Import PyFacts CrcFacts EncoderFacts Evaluations DictFacts ViewFacts.

Lemma slice_firstn (a b n : nat) (l : str) :
  (b <= n)%nat -> slice a b (firstn n l) = slice a b l.
Proof.
  intros H. unfold slice. rewrite skipn_firstn_comm, firstn_firstn.
  f_equal. lia.
Qed.

Lemma slice_same (a b : nat) (msg msg' : str) :
  same_but_crc msg msg' -> (b <= 22)%nat -> slice a b msg = slice a b msg'.
Proof.
  intros [_ H] Hb.
  rewrite <- (slice_firstn a b 22 msg), <- (slice_firstn a b 22 msg') by assumption.
  now rewrite H.
Qed.

Lemma me_bin_of_same (msg msg' : str) :
  same_but_crc msg msg' -> me_bin_of msg = me_bin_of msg'.
Proof.
  intros H. unfold me_bin_of. now rewrite (slice_same 8 22 msg msg').
Qed.

Lemma callsign_char_same (msg msg' : str) (i : nat) :
  same_but_crc msg msg' -> (i < 8)%nat -> callsign_char msg i = callsign_char msg' i.
Proof.
  intros H Hi. unfold callsign_char.
  assert (Hb : ((i * 6 + 40) / 4 + 2 <= 22)%nat).
  { assert ((i * 6 + 40) / 4 < 21)%nat; [|lia].
    apply Nat.Div0.div_lt_upper_bound. lia. }
  rewrite (slice_same _ _ msg msg' H Hb).
  destruct H as [-> _]. reflexivity.
Qed.

Lemma decode_callsign_same (msg msg' : str) :
  same_but_crc msg msg' -> _decode_callsign msg = _decode_callsign msg'.
Proof.
  intros H. unfold _decode_callsign.
  replace (fold_left
             (fun acc i => a <- acc ;; c <- callsign_char msg i ;; Some (a ++ c))
             (seq 0 8) (Some []))
    with (fold_left
            (fun acc i => a <- acc ;; c <- callsign_char msg' i ;; Some (a ++ c))
            (seq 0 8) (Some [])); [reflexivity|].
  cbn [seq fold_left].
  rewrite !(callsign_char_same msg msg') by (assumption || lia). reflexivity.
Qed.

Lemma army_process_same (M : pymath) (fuel : nat) (msg msg' : str)
  (now t : float) (d : dict Army.received) :
  same_but_crc msg msg' ->
  ArmyR._process_message M fuel msg now t d = ArmyR._process_message M fuel msg' now t d.
Proof.
  intros H. unfold ArmyR._process_message.
  rewrite (slice_same 0 2 msg msg'), (slice_same 2 8 msg msg'), (slice_same 8 10 msg msg')
    by (assumption || lia).
  replace (length msg) with (length msg') by (symmetry; apply H).
  unfold ArmyR.dispatch, ArmyR._decode_position, ArmyR.position_fields,
    _decode_velocity, velocity_components.
  rewrite (decode_callsign_same msg msg' H), (me_bin_of_same msg msg' H).
  reflexivity.
Qed.

Lemma debian9_process_same (M : pymath) (fuel : nat) (msg msg' : str)
  (now : float) (d : dict Deb.received) :
  same_but_crc msg msg' ->
  DebR._process_message M fuel msg now d = DebR._process_message M fuel msg' now d.
Proof.
  intros H. unfold DebR._process_message.
  rewrite (slice_same 2 8 msg msg') by (assumption || lia).
  unfold DebR.dispatch, DebR._decode_position, DebR.position_fields,
    _decode_velocity, velocity_components.
  rewrite (decode_callsign_same msg msg' H), (me_bin_of_same msg msg' H).
  reflexivity.
Qed.

Lemma army_wrong_length (M : pymath) (fuel : nat) (msg : str) (now t : float)
  (d : dict Army.received) :
  length msg <> 28%nat -> ArmyR._process_message M fuel msg now t d = Some d.
Proof.
  intros H. unfold ArmyR._process_message.
  apply Nat.eqb_neq in H. now rewrite H.
Qed.

Lemma army_not_df17 (M : pymath) (fuel : nat) (msg : str) (now t : float)
  (d : dict Army.received) :
  df_of msg <> Some 17 -> ArmyR._process_message M fuel msg now t d = Some d.
Proof.
  intros H. unfold ArmyR._process_message, df_of in *.
  destruct (negb (length msg =? 28)%nat); [reflexivity|].
  destruct (parse_int 16 (slice 0 2 msg)) as [fb|]; [|reflexivity].
  destruct (Z.shiftr fb 3 =? 17) eqn:E; [|reflexivity].
  apply Z.eqb_eq in E. congruence.
Qed.

Lemma army_unknown_tc (M : pymath) (fuel : nat) (msg : str) (now t : float)
  (d : dict Army.received) (tc : Z) :
  length msg = 28%nat -> df_of msg = Some 17 -> tc_of msg = Some tc -> known_tc tc = false ->
  ArmyR._process_message M fuel msg now t d
  = Some (dict_set d (slice 2 8 msg) (touched d (slice 2 8 msg) now)).
Proof.
  intros Hl Hdf Htc Hk. unfold ArmyR._process_message, df_of, tc_of in *.
  rewrite Hl. cbn [Nat.eqb negb].
  destruct (parse_int 16 (slice 0 2 msg)) as [fb|]; [|discriminate].
  injection Hdf as Hdf. rewrite Hdf. cbn [Z.eqb Pos.eqb negb].
  destruct (parse_int 16 (slice 8 10 msg)) as [mb|]; [|discriminate].
  injection Htc as Htc. rewrite Htc.
  unfold ArmyR.dispatch. unfold known_tc in Hk.
  destruct ((1 <=? tc) && (tc <=? 4)); [discriminate|].
  destruct ((9 <=? tc) && (tc <=? 18)); [discriminate|].
  destruct (tc =? 19); [discriminate|]. reflexivity.
Qed.

Lemma debian9_line_length (line msg : str) :
  DebR.accepted_line line = Some msg -> length msg = 28%nat.
Proof.
  unfold DebR.accepted_line. intros H.
  destruct line as [|c l]; [discriminate|].
  destruct (rev (c :: l)); [discriminate|].
  destruct (_ && _); [|discriminate].
  destruct (length _ =? 28)%nat eqn:E; [|discriminate].
  injection H as <-. now apply Nat.eqb_eq.
Qed.

End ProcessFacts.

Module BeastFacts.
Import Py PyFloat Json Receiver Notions.
Import PyFacts CrcFacts EncoderFacts Evaluations DictFacts ViewFacts.
Import ProcessFacts.

Lemma upper_char_digit_char (d : Z) :
  0 <= d < 16 -> upper_char (digit_char false d) = digit_char true d.
Proof.
  intros H. unfold digit_char, upper_char.
  destruct (d <? 10) eqn:E.
  - rewrite ord_chr by lia.
    replace ((97 <=? 48 + d) && (48 + d <=? 122)) with false by lia. reflexivity.
  - rewrite ord_chr by lia.
    replace ((97 <=? 87 + d) && (87 + d <=? 122)) with true by lia.
    f_equal. lia.
Qed.

(** The two characters [b.hex().upper()] writes for one byte. *)
Lemma upper_hex_byte (c : ascii) :
  upper (fixed_digits 16 false 2 (ord c))
  = [digit_char true (ord c / 16); digit_char true (ord c mod 16)].
Proof.
  pose proof (ord_range c) as Hr.
  cbn [fixed_digits upper map app].
  rewrite !upper_char_digit_char by (apply Z.mod_pos_bound; lia).
  rewrite (Z.mod_small (ord c / 16)); [reflexivity|].
  split; [apply Z.div_pos; lia|apply Z.div_lt_upper_bound; lia].
Qed.

Lemma upper_hex_cons (c : ascii) (b : bytes) :
  upper (hex (c :: b))
  = digit_char true (ord c / 16) :: digit_char true (ord c mod 16) :: upper (hex b).
Proof.
  unfold hex, upper. cbn [flat_map]. rewrite map_app.
  fold (upper (fixed_digits 16 false 2 (ord c))). rewrite upper_hex_byte. reflexivity.
Qed.

Lemma length_upper_hex (b : bytes) : length (upper (hex b)) = (2 * length b)%nat.
Proof.
  induction b as [|c b IH]; [reflexivity|].
  rewrite upper_hex_cons. cbn [length]. rewrite IH. lia.
Qed.

(** [bytes.fromhex(b.hex().upper()) == b]. *)
Lemma fromhex_fuel_upper_hex (b : bytes) (fuel : nat) :
  (length b < fuel)%nat -> fromhex_fuel fuel (upper (hex b)) = Some b.
Proof.
  revert fuel. induction b as [|c b IH]; intros fuel Hf.
  - destruct fuel; [lia|]. reflexivity.
  - destruct fuel as [|fuel]; [simpl in Hf; lia|].
    rewrite upper_hex_cons. pose proof (ord_range c) as Hr.
    assert (Hh : 0 <= ord c / 16 < 16).
    { split; [apply Z.div_pos; lia|apply Z.div_lt_upper_bound; lia]. }
    assert (Hl : 0 <= ord c mod 16 < 16) by (apply Z.mod_pos_bound; lia).
    cbn [fromhex_fuel].
    rewrite (lstrip_digit 16) by (apply is_digit_digit_char; lia).
    rewrite !is_digit_digit_char by lia. cbn [andb].
    rewrite !digit_value_digit_char by lia.
    rewrite IH by (simpl in Hf; lia).
    f_equal. f_equal.
    replace (ord c / 16 * 16 + ord c mod 16) with (ord c)
      by (pose proof (Z.div_mod (ord c) 16); lia).
    apply chr_ord.
Qed.

Lemma fromhex_upper_hex (b : bytes) : fromhex (upper (hex b)) = Some b.
Proof.
  unfold fromhex. apply fromhex_fuel_upper_hex. rewrite length_upper_hex. lia.
Qed.

Lemma in_escape (b : ascii) (bs : bytes) : In b bs -> In b (BE.escape bs).
Proof.
  unfold BE.escape. intros H. apply in_flat_map. exists b. split; [assumption|].
  destruct (ord b =? BE.ESC); simpl; auto.
Qed.

Lemma escape_clean (bs : bytes) :
  (forall b, In b bs -> ord b <> 0x1A) -> BE.escape bs = bs.
Proof.
  unfold BE.escape. induction bs as [|b bs IH]; intros H; [reflexivity|].
  cbn [flat_map]. rewrite IH by (intros; apply H; now right).
  replace (ord b =? BE.ESC) with false; [reflexivity|].
  symmetry. apply Z.eqb_neq. apply H. now left.
Qed.

Lemma length_to_bytes_big (k : nat) (n : Z) (bs : bytes) :
  to_bytes_big k n = Some bs -> length bs = k.
Proof.
  unfold to_bytes_big. destruct (_ && _); [|discriminate].
  intros H. injection H as <-. now rewrite length_map, length_rev, length_seq.
Qed.

(** The record of a frame in which nothing was doubled. *)
Lemma encode_message_plain (payload rec : bytes) (now : float) (signal_level : Z) :
  length payload = 14%nat -> 150 <= signal_level <= 250 ->
  BE.encode_message (upper (hex payload)) now signal_level = Some rec ->
  (forall b, In b (tl rec) -> ord b <> 0x1A) ->
  exists ts, length ts = 6%nat
             /\ rec = [chr 0x1A; chr 0x33] ++ ts ++ [chr signal_level] ++ payload.
Proof.
  intros Hl Hs H Hclean. unfold BE.encode_message in H.
  rewrite fromhex_upper_hex, Hl in H. cbn [Nat.eqb] in H.
  destruct (int_of_float _) as [us|]; [|discriminate].
  destruct (to_bytes_big 6 _) as [ts|] eqn:Et; [|discriminate].
  replace ((0 <=? signal_level) && (signal_level <? 256)) with true in H by lia.
  replace (signal_level =? BE.ESC) with false in H by (unfold BE.ESC; lia).
  injection H as <-. cbn [app tl] in Hclean.
  exists ts. split; [now apply length_to_bytes_big in Et|].
  cbn [app]. do 2 f_equal.
  rewrite escape_clean.
  - f_equal. f_equal. apply escape_clean.
    intros b Hb. apply Hclean. right. apply in_or_app. right. right. now apply in_escape.
  - intros b Hb. apply Hclean. right. apply in_or_app. left. now apply in_escape.
Qed.

Lemma avr_loop_quiet (fuel : nat) (buffer : bytes) :
  contains "*"%char buffer && contains ";"%char buffer = false ->
  ArmyR.avr_loop fuel buffer = Some ([], buffer).
Proof.
  intros H. destruct fuel; cbn [ArmyR.avr_loop]; now rewrite H.
Qed.

Lemma contains_false_in (c : ascii) (s : str) (b : ascii) :
  contains c s = false -> In b s -> ord b <> ord c.
Proof.
  unfold contains. intros H Hb E. apply ord_inj in E. subst b.
  assert (existsb (Ascii.eqb c) s = true); [|congruence].
  apply existsb_exists. exists c. split; [assumption|apply Ascii.eqb_refl].
Qed.

(** C4, as amended. A 14-byte frame whose Beast record has no 0x1A after
    its first byte (so nothing in it was doubled) and does not hold both
    a [*] and a [;] byte (so the AVR scan, which runs first on the same
    buffer, leaves it alone) comes back from the parser of
    [_handle_client], fed the record on an empty buffer, as the frame's 28
    hex characters, with nothing left over. *)
Theorem beast_round_trip_without_escape (payload rec : bytes) (now : float)
  (signal_level : Z) :
  length payload = 14%nat -> 150 <= signal_level <= 250 ->
  BE.encode_message (upper (hex payload)) now signal_level = Some rec ->
  contains (chr BE.ESC) (tl rec) = false ->
  contains "*"%char rec && contains ";"%char rec = false ->
  ArmyR.feed [] rec = Some ([upper (hex payload)], []).
Proof.
  intros Hl Hs H Hesc Hstar.
  assert (Hclean : forall b, In b (tl rec) -> ord b <> 0x1A).
  { intros b Hb. exact (contains_false_in _ _ _ Hesc Hb). }
  destruct (encode_message_plain _ _ _ _ Hl Hs H Hclean) as (ts & Hts & ->).
  unfold ArmyR.feed. cbn [app].
  rewrite avr_loop_quiet by exact Hstar.
  destruct ts as [|t1 [|t2 [|t3 [|t4 [|t5 [|t6 [|]]]]]]]; try discriminate Hts.
  destruct payload
    as [|p1 [|p2 [|p3 [|p4 [|p5 [|p6 [|p7 [|p8 [|p9 [|p10 [|p11 [|p12 [|p13 [|p14 [|]]]]]]]]]]]]]]];
    try discriminate Hl.
  reflexivity.
Qed.

End BeastFacts.

Module FrameFacts.
Import Py PyFloat Json Receiver Notions.
Import PyFacts CrcFacts EncoderFacts Evaluations DictFacts ViewFacts.
Import ProcessFacts BeastFacts.

(** *** Slices of concatenations *)

Lemma slice_app_skip (f r : str) (n a b : nat) :
  length f = n -> (n <= a)%nat -> slice a b (f ++ r) = slice (a - n) (b - n) r.
Proof.
  intros Hl Ha. unfold slice. rewrite skipn_app, Hl.
  rewrite skipn_all2 by lia. cbn [app]. f_equal. lia.
Qed.

Lemma slice_app_take (f r : str) (n : nat) :
  length f = n -> slice 0 n (f ++ r) = f.
Proof.
  intros Hl. unfold slice. cbn [skipn]. rewrite Nat.sub_0_r, firstn_app, Hl.
  rewrite Nat.sub_diag, firstn_O, app_nil_r. rewrite <- Hl. apply firstn_all.
Qed.

Lemma slice_all (f : str) (n : nat) : length f = n -> slice 0 n f = f.
Proof.
  intros Hl. rewrite <- (app_nil_r f) at 1. now apply slice_app_take.
Qed.

Lemma skipn_app_exact (f r : str) (n : nat) : length f = n -> skipn n (f ++ r) = r.
Proof.
  intros Hl. rewrite skipn_app, Hl, Nat.sub_diag.
  rewrite skipn_all2 by lia. reflexivity.
Qed.

Lemma index_app_skip (f r : str) (n i : nat) :
  length f = n -> (n <= i)%nat -> index (f ++ r) i = index r (i - n).
Proof.
  intros Hl Hi. unfold index. rewrite nth_error_app2 by lia. now rewrite Hl.
Qed.

(** *** Fields *)

Lemma format_b_field (w : nat) (n : Z) :
  (1 <= w)%nat -> 0 <= n < 2 ^ Z.of_nat w ->
  format_b w n = fixed_digits 2 false w n
  /\ length (format_b w n) = w
  /\ digit_str 2 (format_b w n)
  /\ parse_int 2 (format_b w n) = Some n.
Proof.
  intros Hw Hn. unfold format_b.
  rewrite format_int_fixed by (auto; now left).
  split; [reflexivity|]. split; [apply length_fixed_digits|].
  assert (Hd : digit_str 2 (fixed_digits 2 false w n)) by (apply digit_str_fixed_digits; lia).
  split; [assumption|].
  rewrite parse_int_digits; [|intros E|assumption].
  - rewrite value_fixed_digits by lia. f_equal. now apply Z.mod_small.
  - apply (f_equal (@length ascii)) in E. rewrite length_fixed_digits in E. simpl in E. lia.
Qed.

Lemma bit_field (b : Z) :
  b = 0 \/ b = 1 -> format_b 1 b = [digit_char false b] /\ bit_at (format_b 1 b) 0 = Some b.
Proof. intros [->| ->]; split; reflexivity. Qed.

(** *** From the bit string to [me_bin] *)

Lemma me_bin_of_frame (msg_bin : str) (c : Z) :
  digit_str 2 msg_bin -> length msg_bin = 88%nat -> 0 <= c < 2 ^ 24 ->
  let frame := format_X 22 (value 2 msg_bin) ++ format_X 6 c in
  length frame = 28%nat /\ me_bin_of frame = Some (skipn 32 msg_bin).
Proof.
  intros Hd Hl Hc frame. subst frame.
  pose proof (value_nonneg 2 msg_bin ltac:(lia) Hd) as Hm. rewrite Hl in Hm.
  set (m := value 2 msg_bin) in *.
  assert (HX : format_X 22 m = fixed_digits 16 true 22 m).
  { apply format_int_fixed; [now right|lia|].
    change (16 ^ Z.of_nat 22) with (2 ^ 88). exact Hm. }
  assert (HC : format_X 6 c = fixed_digits 16 true 6 c).
  { apply format_int_fixed; [now right|lia|].
    change (16 ^ Z.of_nat 6) with (2 ^ 24). exact Hc. }
  rewrite HX, HC. split.
  { rewrite length_app, !length_fixed_digits. reflexivity. }
  unfold me_bin_of.
  rewrite (fixed_digits_split 16 true 8 14 m ltac:(lia) : fixed_digits 16 true 22 m = _).
  rewrite <- app_assoc.
  rewrite (slice_app_skip _ _ 8) by (rewrite ?length_fixed_digits; lia).
  change (8 - 8)%nat with 0%nat. change (22 - 8)%nat with 14%nat.
  rewrite (slice_app_take _ _ 14) by apply length_fixed_digits.
  rewrite parse_int_digits;
    [|intros E; apply (f_equal (@length ascii)) in E;
      rewrite length_fixed_digits in E; discriminate
     |apply digit_str_fixed_digits; lia].
  rewrite value_fixed_digits by lia.
  change (16 ^ Z.of_nat 14) with (2 ^ Z.of_nat 56).
  f_equal. unfold format_b.
  rewrite format_int_fixed by (try (now left); try lia; apply Z.mod_pos_bound; lia).
  rewrite fixed_digits_mod by lia.
  transitivity (skipn 32 (fixed_digits 2 false 88 m)).
  - rewrite (fixed_digits_split 2 false 32 56 m ltac:(lia) : fixed_digits 2 false 88 m = _).
    now rewrite skipn_app_exact by apply length_fixed_digits.
  - f_equal. unfold m. rewrite <- Hl. now apply fixed_digits_value.
Qed.

Section Finish.

Variables (crc : str -> bool -> option Z) (p g : Z -> nat -> Z).

Hypothesis crc_shape : forall s e, crc s e = crc_gen p g s e.

Hypothesis p_high : forall len i, (i < Z.to_nat len - 24)%nat -> 24 <= p len i.

(** A bit string of 88 binary digits is finished into a frame of 28
    characters whose [me_bin] is its last 56 digits. *)
Lemma finish_me_bin (msg_bin : str) :
  digit_str 2 msg_bin -> length msg_bin = 88%nat ->
  exists frame,
    (m <- parse_int 2 msg_bin ;;
     let msg_hex := format_X 22 m in
     c <- crc msg_hex true ;;
     Some (msg_hex ++ format_X 6 c)) = Some frame
    /\ length frame = 28%nat
    /\ me_bin_of frame = Some (skipn 32 msg_bin).
Proof.
  intros Hd Hl.
  assert (Hne : msg_bin <> []) by (intros ->; discriminate).
  rewrite parse_int_digits by assumption. cbv zeta.
  pose proof (value_nonneg 2 msg_bin ltac:(lia) Hd) as Hm.
  destruct (format_int_nonneg 16 true 22 (value 2 msg_bin) ltac:(now right) (proj1 Hm))
    as (Hxd & Hxne & _).
  destruct (crc_gen_residue p g _ p_high Hxne Hxd) as (c & Hc & Hcr & _).
  rewrite crc_shape. unfold format_X at 1. rewrite Hc.
  eexists. split; [reflexivity|].
  now apply me_bin_of_frame.
Qed.

End Finish.

Lemma as_finish_me_bin (msg_bin : str) :
  digit_str 2 msg_bin -> length msg_bin = 88%nat ->
  exists frame, AS.finish 22 msg_bin = Some frame /\ length frame = 28%nat
                /\ me_bin_of frame = Some (skipn 32 msg_bin).
Proof.
  apply (finish_me_bin AS.crc _ _ as_crc_shape). intros len i Hi. cbv beta. lia.
Qed.

Lemma sa_finish_me_bin (msg_bin : str) :
  digit_str 2 msg_bin -> length msg_bin = 88%nat ->
  exists frame, SA.finish 22 msg_bin = Some frame /\ length frame = 28%nat
                /\ me_bin_of frame = Some (skipn 32 msg_bin).
Proof.
  apply (finish_me_bin SA.crc _ _ sa_crc_shape). intros len i Hi. cbv beta. lia.
Qed.

(** *** The fields of the encoders' frames, as the receivers read them *)

Lemma skipn_app_skip (f r : str) (n k : nat) :
  length f = n -> (n <= k)%nat -> skipn k (f ++ r) = skipn (k - n) r.
Proof.
  intros Hl Hk. rewrite skipn_app, Hl. rewrite skipn_all2 by lia. reflexivity.
Qed.

Lemma parse_fixed (w : nat) (n : Z) :
  (1 <= w)%nat -> 0 <= n < 2 ^ Z.of_nat w ->
  parse_int 2 (fixed_digits 2 false w n) = Some n.
Proof.
  intros Hw Hn. rewrite <- (proj1 (format_b_field w n Hw Hn)).
  apply format_b_field; assumption.
Qed.

Lemma bit_fixed (b : Z) (r : str) :
  b = 0 \/ b = 1 -> bit_at (fixed_digits 2 false 1 b ++ r) 0 = Some b.
Proof. intros [->| ->]; reflexivity. Qed.

Lemma format_b_fixed (w : nat) (n : Z) :
  (1 <= w)%nat -> 0 <= n < 2 ^ Z.of_nat w -> format_b w n = fixed_digits 2 false w n.
Proof. intros. now apply format_b_field. Qed.

Ltac range := cbn; lia.

Ltac to_fixed :=
  repeat match goal with
  | |- context [format_b ?w ?x] => rewrite (format_b_fixed w x) by range
  end.

Ltac lengths :=
  rewrite ?length_app, ?length_fixed_digits, ?repeat_length; cbn [length]; try lia.

Lemma digit_str_app (base : Z) (a b : str) :
  digit_str base a -> digit_str base b -> digit_str base (a ++ b).
Proof. intros Ha Hb. apply Forall_app. now split. Qed.

Lemma digit_str_zeros (n : nat) : digit_str 2 (repeat "0"%char n).
Proof.
  apply Forall_forall. intros x Hx. apply repeat_spec in Hx. now subst.
Qed.

Ltac digit_strs :=
  repeat first
    [ apply digit_str_fixed_digits; lia
    | apply digit_str_zeros
    | apply digit_str_app ].

Lemma bit_at_app_skip (f r : str) (n i : nat) :
  length f = n -> (n <= i)%nat -> bit_at (f ++ r) i = bit_at r (i - n).
Proof.
  intros Hl Hi. unfold bit_at. now rewrite (index_app_skip f r n i Hl Hi).
Qed.

Ltac take :=
  first
    [ rewrite (slice_app_take _ _ _ (length_fixed_digits _ _ _ _))
    | rewrite (slice_all _ _ (length_fixed_digits _ _ _ _)) ].

(** [slice a b me] is the field of width [w] that holds [x]. *)
Ltac slice_is a b w x :=
  match goal with
  | |- context [slice a b ?me] =>
      let E := fresh "E" in
      assert (E : slice a b me = fixed_digits 2 false w x)
        by (repeat (rewrite (slice_app_skip _ _ _ _ _ (length_fixed_digits _ _ _ _)) by lia;
                    cbn [Nat.sub]);
            take; reflexivity);
      rewrite E; clear E
  end.

(** [int(me[i])] is the one-bit field that holds [b]. *)
Ltac bit_is i b H :=
  match goal with
  | |- context [bit_at ?me i] =>
      let E := fresh "E" in
      assert (E : bit_at me i = Some b)
        by (repeat (rewrite (bit_at_app_skip _ _ _ _ (length_fixed_digits _ _ _ _)) by lia;
                    cbn [Nat.sub]);
            apply bit_fixed; exact H);
      rewrite E; clear E
  end.

Ltac skip_header :=
  repeat (rewrite (skipn_app_skip _ _ _ _ (length_fixed_digits _ _ _ _)) by lia;
          cbn [Nat.sub]);
  cbn [skipn].

(** The velocity fields of a frame of [encode_velocity] of
    aircraft_simulator.py, as [_decode_velocity] reads them back. *)
Lemma as_velocity_fields (icao : str) (i s1 e1 s2 e2 vs ve : Z) :
  valid_icao icao i ->
  (s1 = 0 \/ s1 = 1) -> (s2 = 0 \/ s2 = 1) -> (vs = 0 \/ vs = 1) ->
  0 <= e1 < 1024 -> 0 <= e2 < 1024 -> 0 <= ve < 512 ->
  exists frame,
    AS.velocity_frame icao s1 e1 s2 e2 vs ve = Some frame
    /\ length frame = 28%nat
    /\ velocity_components frame = Some (Some (signed s1 (e1 - 1), signed s2 (e2 - 1))).
Proof.
  intros [Hi Hr] H1 H2 H3 He1 He2 Hve.
  unfold AS.velocity_frame. rewrite Hi. cbv zeta. to_fixed.
  match goal with |- context [Nat.eqb (length ?mb) 88] =>
    assert (Hl : length mb = 88%nat) by lengths;
    assert (Hd : digit_str 2 mb) by digit_strs;
    rewrite Hl; cbn [Nat.eqb];
    destruct (as_finish_me_bin mb Hd Hl) as (frame & Hf & Hlen & Hme)
  end.
  exists frame. split; [exact Hf|]. split; [exact Hlen|].
  unfold velocity_components. rewrite Hme. clear Hf Hme Hl Hd.
  rewrite <- !app_assoc. skip_header.
  slice_is 0%nat 5%nat 5%nat 19.
  change (parse_int 2 (fixed_digits 2 false 5 19)) with (Some 19). cbn [Z.eqb Pos.eqb negb].
  bit_is 13%nat s1 H1. slice_is 14%nat 24%nat 10%nat e1.
  bit_is 24%nat s2 H2. slice_is 25%nat 35%nat 10%nat e2.
  rewrite !parse_fixed by range. reflexivity.
Qed.

End FrameFacts.

Module PositionFacts.
Import Py PyFloat Json Receiver Notions.
Import PyFacts CrcFacts EncoderFacts Evaluations DictFacts ViewFacts.
Import ProcessFacts BeastFacts FrameFacts.

(** A property of every integer of [0, n), from its check on each of them. *)
Lemma forall_below (n : nat) (P : Z -> bool) :
  forallb P (map Z.of_nat (seq 0 n)) = true ->
  forall k, 0 <= k < Z.of_nat n -> P k = true.
Proof.
  intros H k Hk. rewrite forallb_forall in H. apply H.
  apply in_map_iff. exists (Z.to_nat k). split; [lia|]. apply in_seq. lia.
Qed.

Lemma as_alt_field_fixed (N : Z) :
  0 <= N < 2048 -> AS.alt_field N = fixed_digits 2 false 12 (as_alt12 N).
Proof.
  intros HN. unfold AS.alt_field. cbv zeta.
  rewrite (format_b_fixed 11 N) by range.
  rewrite (fixed_digits_split 2 false 8 3 N ltac:(lia) : fixed_digits 2 false 11 N = _).
  rewrite (slice_app_take _ _ 8 (length_fixed_digits _ _ _ _)).
  rewrite (slice_app_skip _ _ 8 8 11 (length_fixed_digits _ _ _ _)) by lia.
  cbn [Nat.sub]. rewrite (slice_all _ 3 (length_fixed_digits _ _ _ _)).
  change (Z.of_nat 3) with 3. change (2 ^ 3) with 8.
  rewrite (fixed_digits_split 2 false 8 4 (as_alt12 N) ltac:(lia)
           : fixed_digits 2 false 12 (as_alt12 N) = _).
  rewrite (fixed_digits_split 2 false 1 3 (as_alt12 N) ltac:(lia)
           : fixed_digits 2 false 4 (as_alt12 N) = _).
  change (Z.of_nat 4) with 4. change (2 ^ 4) with 16.
  change (Z.of_nat 3) with 3. change (2 ^ 3) with 8.
  pose proof (Z.mod_pos_bound N 8 ltac:(lia)) as Hm.
  assert (H16 : as_alt12 N / 16 = N / 8).
  { unfold as_alt12. rewrite <- Z.add_assoc, Z.div_add_l by lia.
    rewrite (Z.div_small (8 + N mod 8)) by lia. lia. }
  assert (H8 : as_alt12 N / 8 = N / 8 * 2 + 1).
  { unfold as_alt12.
    replace (N / 8 * 16 + 8 + N mod 8) with ((N / 8 * 2 + 1) * 8 + N mod 8) by lia.
    rewrite Z.div_add_l by lia. rewrite (Z.div_small (N mod 8)) by lia. lia. }
  rewrite H16, H8. f_equal.
  rewrite <- (fixed_digits_mod 2 false 1 (N / 8 * 2 + 1)) by lia.
  rewrite <- (fixed_digits_mod 2 false 3 (as_alt12 N)) by lia.
  rewrite <- (fixed_digits_mod 2 false 3 N) by lia.
  change (2 ^ Z.of_nat 1) with 2. change (2 ^ Z.of_nat 3) with 8.
  replace ((N / 8 * 2 + 1) mod 2) with 1
    by (rewrite Z.add_comm, Z.mod_add by lia; reflexivity).
  replace (as_alt12 N mod 8) with (N mod 8); [reflexivity|].
  unfold as_alt12.
  replace (N / 8 * 16 + 8 + N mod 8) with (N mod 8 + (N / 8 * 2 + 1) * 8) by lia.
  rewrite Z.mod_add by lia. symmetry. apply Z.mod_small. lia.
Qed.

Lemma as_alt12_range (N : Z) : 0 <= N < 2048 -> 0 <= as_alt12 N < 4096.
Proof.
  intros H. unfold as_alt12.
  pose proof (Z.mod_pos_bound N 8 ltac:(lia)).
  assert (0 <= N / 8 < 256) by (split; [apply Z.div_pos; lia|apply Z.div_lt_upper_bound; lia]).
  lia.
Qed.

Lemma sa_alt12_range (N : Z) : 0 <= N < 2048 -> 0 <= sa_alt12 N < 4096.
Proof.
  intros H.
  assert (Hc : ((0 <=? sa_alt12 N) && (sa_alt12 N <? 4096)) = true).
  { revert N H. apply (forall_below 2048 (fun N => (0 <=? sa_alt12 N) && (sa_alt12 N <? 4096))).
    vm_compute. reflexivity. }
  lia.
Qed.

Lemma sa_alt_field_fixed (N : Z) :
  0 <= N < 2048 -> SA.alt_field N = fixed_digits 2 false 12 (sa_alt12 N).
Proof.
  intros HN. unfold SA.alt_field. cbv zeta. fold (sa_alt12 N).
  apply format_b_fixed; [lia|]. pose proof (sa_alt12_range N HN). range.
Qed.

Lemma opt_z_eqb_eq (a b : option Z) : opt_z_eqb a b = true -> a = b.
Proof.
  destruct a, b; simpl; intros H; try discriminate; [|reflexivity].
  apply Z.eqb_eq in H. now subst.
Qed.

(** send_adsb.py: the receivers' formula gives back every code of [0, 2047]. *)
Lemma sa_altitude_of_bits (N : Z) :
  0 <= N < 2048 -> altitude_of_bits (sa_alt12 N) = Some (N * 25 - 1000).
Proof.
  intros H. apply opt_z_eqb_eq. revert N H.
  apply (forall_below 2048
           (fun N => opt_z_eqb (altitude_of_bits (sa_alt12 N)) (Some (N * 25 - 1000)))).
  vm_compute. reflexivity.
Qed.

(** aircraft_simulator.py: the receivers find their Q bit where the
    encoder put bit 3 of the code, and give the code back only when that
    bit is set. *)
Lemma as_altitude_of_bits (N : Z) :
  0 <= N < 2048 ->
  altitude_of_bits (as_alt12 N) = if Z.testbit N 3 then Some (N * 25 - 1000) else None.
Proof.
  intros H. apply opt_z_eqb_eq. revert N H.
  apply (forall_below 2048
           (fun N => opt_z_eqb (altitude_of_bits (as_alt12 N))
                       (if Z.testbit N 3 then Some (N * 25 - 1000) else None))).
  vm_compute. reflexivity.
Qed.

Lemma decode_altitude_bits (me_bin : str) (x : Z) :
  parse_int 2 (slice 8 20 me_bin) = Some x ->
  decode_altitude me_bin = Some (altitude_of_bits x).
Proof.
  intros H. unfold decode_altitude, altitude_of_bits. rewrite H. cbv zeta.
  now destruct (Z.land (Z.shiftr x 4) 1 =? 1).
Qed.

Ltac slice_is' a b w x :=
  match goal with
  | |- context [slice a b ?me] =>
      let E := fresh "E" in
      assert (E : slice a b me = fixed_digits 2 false w x)
        by (repeat (rewrite (slice_app_skip _ _ _ _ _ (length_fixed_digits _ _ _ _)) by lia;
                    cbn [Nat.sub]);
            first [ rewrite (slice_app_take _ _ _ (length_fixed_digits _ _ _ _))
                  | rewrite (slice_all _ _ (length_fixed_digits _ _ _ _)) ];
            reflexivity);
      rewrite E; clear E
  end.

Ltac bit_is' i b H :=
  match goal with
  | |- context [bit_at ?me i] =>
      let E := fresh "E" in
      assert (E : bit_at me i = Some b)
        by (repeat (rewrite (bit_at_app_skip _ _ _ _ (length_fixed_digits _ _ _ _)) by lia;
                    cbn [Nat.sub]);
            apply bit_fixed; exact H);
      rewrite E; clear E
  end.

Lemma position_bits_reading (x F lat_cpr lon_cpr : Z) :
  0 <= x < 4096 -> (F = 0 \/ F = 1) ->
  0 <= lat_cpr < 2 ^ 17 -> 0 <= lon_cpr < 2 ^ 17 ->
  position_reading
    (fixed_digits 2 false 5 11 ++ fixed_digits 2 false 2 0 ++ fixed_digits 2 false 1 0
     ++ fixed_digits 2 false 12 x ++ fixed_digits 2 false 1 0 ++ fixed_digits 2 false 1 F
     ++ fixed_digits 2 false 17 lat_cpr ++ fixed_digits 2 false 17 lon_cpr)
    x F lat_cpr lon_cpr.
Proof.
  intros Hx HF Hlat Hlon. unfold position_reading.
  split; [|split; [|split; [|split]]].
  - apply decode_altitude_bits. slice_is' 8%nat 20%nat 12%nat x. apply parse_fixed; range.
  - bit_is' 20%nat 0 (or_introl (eq_refl 0) : 0 = 0 \/ 0 = 1). reflexivity.
  - bit_is' 21%nat F HF. reflexivity.
  - slice_is' 22%nat 39%nat 17%nat lat_cpr. apply parse_fixed; range.
  - slice_is' 39%nat 56%nat 17%nat lon_cpr. apply parse_fixed; range.
Qed.

Lemma as_position_fields (icao : str) (i N F lat_cpr lon_cpr : Z) :
  valid_icao icao i -> 0 <= N < 2048 -> (F = 0 \/ F = 1) ->
  0 <= lat_cpr < 2 ^ 17 -> 0 <= lon_cpr < 2 ^ 17 ->
  exists frame me_bin,
    AS.position_frame icao N F lat_cpr lon_cpr = Some frame
    /\ length frame = 28%nat
    /\ me_bin_of frame = Some me_bin
    /\ position_reading me_bin (as_alt12 N) F lat_cpr lon_cpr.
Proof.
  intros [Hi Hr] HN HF Hlat Hlon.
  unfold AS.position_frame. rewrite Hi. cbv zeta.
  rewrite as_alt_field_fixed by assumption. to_fixed.
  match goal with |- context [Nat.eqb (length ?mb) 88] =>
    assert (Hl : length mb = 88%nat) by lengths;
    assert (Hd : digit_str 2 mb) by digit_strs;
    rewrite Hl; cbn [Nat.eqb];
    destruct (as_finish_me_bin mb Hd Hl) as (frame & Hf & Hlen & Hme)
  end.
  exists frame. eexists. split; [exact Hf|]. split; [exact Hlen|].
  split; [exact Hme|]. skip_header.
  apply position_bits_reading; auto using as_alt12_range.
Qed.

Lemma sa_position_fields (icao : str) (i N F lat_cpr lon_cpr : Z) :
  valid_icao icao i -> 0 <= N < 2048 -> (F = 0 \/ F = 1) ->
  0 <= lat_cpr < 2 ^ 17 -> 0 <= lon_cpr < 2 ^ 17 ->
  exists frame me_bin,
    SA.position_frame icao N F lat_cpr lon_cpr = Some frame
    /\ length frame = 28%nat
    /\ me_bin_of frame = Some me_bin
    /\ position_reading me_bin (sa_alt12 N) F lat_cpr lon_cpr.
Proof.
  intros [Hi Hr] HN HF Hlat Hlon.
  unfold SA.position_frame. rewrite Hi. cbv zeta.
  rewrite sa_alt_field_fixed by assumption. to_fixed.
  match goal with |- context [SA.finish 22 ?mb] =>
    assert (Hl : length mb = 88%nat) by lengths;
    assert (Hd : digit_str 2 mb) by digit_strs;
    destruct (sa_finish_me_bin mb Hd Hl) as (frame & Hf & Hlen & Hme)
  end.
  exists frame. eexists. split; [exact Hf|]. split; [exact Hlen|].
  split; [exact Hme|]. skip_header.
  apply position_bits_reading; auto using sa_alt12_range.
Qed.

(** What the two receivers make of such a reading: atc_army_offline.py
    takes the format bit from position 21, atc_debian9.py from position 20. *)
Lemma army_position_fields (frame me_bin : str) (x F lat_cpr lon_cpr : Z) :
  me_bin_of frame = Some me_bin -> position_reading me_bin x F lat_cpr lon_cpr ->
  ArmyR.position_fields frame
  = Some (match altitude_of_bits x with Some a => a | None => 0 end, lat_cpr, lon_cpr, F).
Proof.
  intros Hme (Ha & _ & HF & Hlat & Hlon).
  unfold ArmyR.position_fields. now rewrite Hme, Ha, Hlat, Hlon, HF.
Qed.

Lemma debian9_position_fields (frame me_bin : str) (x F lat_cpr lon_cpr : Z) :
  me_bin_of frame = Some me_bin -> position_reading me_bin x F lat_cpr lon_cpr ->
  DebR.position_fields frame = Some (altitude_of_bits x, 0, lat_cpr, lon_cpr).
Proof.
  intros Hme (Ha & HT & _ & Hlat & Hlon).
  unfold DebR.position_fields. now rewrite Hme, Ha, HT, Hlat, Hlon.
Qed.

End PositionFacts.

Module TrackerFacts.
Import Py PyFloat Json Receiver Notions.
Import PyFacts CrcFacts EncoderFacts Evaluations DictFacts ViewFacts.
Import ProcessFacts BeastFacts FrameFacts PositionFacts.

Section DictSet.

Context {V : Type}.

Implicit Types (d : dict V) (k : str) (v : V).

Lemma dict_get_in d k v : dict_get d k = Some v -> In (k, v) d.
Proof.
  induction d as [|[k' v'] d IH]; simpl; [discriminate|].
  destruct (str_eqb k' k) eqn:E.
  - intros [= <-]. apply str_eqb_eq in E. subst. now left.
  - intros H. right. now apply IH.
Qed.

Lemma keys_dict_set d k v k0 : In k0 (keys (dict_set d k v)) -> k0 = k \/ In k0 (keys d).
Proof.
  unfold keys. induction d as [|[k' v'] d IH]; simpl.
  - intros [<-|[]]. now left.
  - destruct (str_eqb k' k) eqn:E; simpl.
    + intros [<-|H]; auto.
    + intros [<-|H]; auto. destruct (IH H); auto.
Qed.

Lemma in_dict_set d k v x : In x (dict_set d k v) -> x = (k, v) \/ In x d.
Proof.
  induction d as [|[k' v'] d IH]; simpl.
  - intros [<-|[]]. now left.
  - destruct (str_eqb k' k) eqn:E; simpl.
    + apply str_eqb_eq in E. subst. intros [<-|H]; auto.
    + intros [<-|H]; auto. destruct (IH H); auto.
Qed.

Lemma nodup_dict_set d k v : NoDup (keys d) -> NoDup (keys (dict_set d k v)).
Proof.
  unfold keys. induction d as [|[k' v'] d IH]; simpl; intros H.
  - constructor; [intros []|constructor].
  - inversion H as [|? ? Hn Hd]; subst.
    destruct (str_eqb k' k) eqn:E; simpl.
    + now constructor.
    + constructor; [|now apply IH].
      intros Hin. destruct (keys_dict_set _ _ _ _ Hin) as [->|Hin']; [|now apply Hn].
      apply str_eqb_neq in E. now apply E.
Qed.

Lemma nodup_fold_del (ks : list str) d :
  NoDup (keys d) -> NoDup (keys (fold_left dict_del ks d)).
Proof.
  revert d. induction ks as [|k ks IH]; simpl; intros d H; [assumption|].
  apply IH. now apply nodup_dict_del.
Qed.

Lemma nodup_dict_del_where (p : V -> bool) d :
  NoDup (keys d) -> NoDup (keys (dict_del_where p d)).
Proof. apply nodup_fold_del. Qed.

End DictSet.

(** *** The received-aircraft map keeps its shape *)

Lemma army_decode_position_icao (M : pymath) (fuel : nat) (msg : str)
  (ac ac' : Army.received) (t : float) r :
  ArmyR._decode_position M fuel msg ac t = Some (ac', r) -> Army.icao ac' = Army.icao ac.
Proof.
  unfold ArmyR._decode_position.
  destruct (ArmyR.position_fields msg) as [[[[a la] lo] tb]|]; [|now intros [= <- _]].
  cbv zeta.
  destruct (Army.position_even _) as [ev|]; [|now intros [= <- _]].
  destruct (Army.position_odd _) as [od|]; [|now intros [= <- _]].
  destruct (PrimFloat.ltb _ _); [now intros [= <- _]|].
  destruct (ArmyR.global_decode M fuel ev od) as [[[x y]|]| |]; try discriminate;
    now intros [= <- _].
Qed.

Lemma army_dispatch_icao (M : pymath) (fuel : nat) (msg : str) (tc : Z)
  (ac ac' : Army.received) (t : float) :
  ArmyR.dispatch M fuel msg tc ac t = Some ac' -> Army.icao ac' = Army.icao ac.
Proof.
  unfold ArmyR.dispatch.
  destruct ((1 <=? tc) && (tc <=? 4)).
  { destruct (_decode_callsign msg) as [[|c cs]|]; now intros [= <-]. }
  destruct ((9 <=? tc) && (tc <=? 18)).
  { destruct (ArmyR._decode_position M fuel msg ac t) as [[ac1 [[la lo] alt]]|] eqn:E;
      [|discriminate].
    apply army_decode_position_icao in E. simpl.
    destruct la, lo; intros [= <-]; assumption. }
  destruct (tc =? 19).
  { destruct (_decode_velocity M msg). now intros [= <-]. }
  now intros [= <-].
Qed.

Lemma army_set_ok (d : dict Army.received) (k : str) (ac : Army.received) :
  army_ok d -> Army.icao ac = k -> army_ok (dict_set d k ac).
Proof.
  intros [Hn Hi] Hk. split; [now apply nodup_dict_set|].
  intros k' ac' H. destruct (in_dict_set _ _ _ _ H) as [[= -> ->]|H']; auto.
Qed.

(** [_process_message] of atc_army_offline.py keeps one entry per ICAO
    address, each under its own address. *)
Lemma army_process_ok (M : pymath) (fuel : nat) (msg : str) (now t : float)
  (d d' : dict Army.received) :
  army_ok d -> ArmyR._process_message M fuel msg now t d = Some d' -> army_ok d'.
Proof.
  intros Hok. unfold ArmyR._process_message.
  destruct (negb _); [now intros [= <-]|].
  destruct (parse_int 16 (slice 0 2 msg)); [|now intros [= <-]].
  destruct (negb _); [now intros [= <-]|].
  destruct (parse_int 16 (slice 8 10 msg)); [|now intros [= <-]].
  cbv zeta.
  destruct (ArmyR.dispatch _ _ _ _ _ _) as [ac'|] eqn:E; [|discriminate].
  intros [= <-]. apply army_set_ok; [assumption|].
  rewrite (army_dispatch_icao _ _ _ _ _ _ _ E). simpl.
  destruct (dict_get d (slice 2 8 msg)) as [ac|] eqn:G; [|reflexivity].
  apply dict_get_in in G. now apply Hok.
Qed.

Lemma army_remove_stale_ok (now : float) (d : dict Army.received) :
  army_ok d -> army_ok (ArmyW.remove_stale now d).
Proof.
  intros [Hn Hi]. split; [now apply nodup_dict_del_where|].
  intros k ac H. apply Hi. eapply dict_del_where_subset; eauto.
Qed.

Lemma debian9_decode_position_icao (M : pymath) (fuel : nat) (msg : str)
  (ac ac' : Deb.received) r :
  DebR._decode_position M fuel msg ac = Some (ac', r) -> Deb.icao ac' = Deb.icao ac.
Proof.
  unfold DebR._decode_position.
  destruct (DebR.position_fields msg) as [[[[a tb] la] lo]|]; [|now intros [= <- _]].
  cbv zeta.
  destruct (Deb.lat_even_cpr _); [|now intros [= <- _]].
  destruct (Deb.lon_even_cpr _); [|now intros [= <- _]].
  destruct (Deb.lat_odd_cpr _); [|now intros [= <- _]].
  destruct (Deb.lon_odd_cpr _); [|now intros [= <- _]].
  destruct (DebR.global_decode _ _ _ _ _ _ _) as [[[x y]|]| |]; try discriminate;
    now intros [= <- _].
Qed.

Lemma debian9_dispatch_icao (M : pymath) (fuel : nat) (msg : str)
  (ac ac' : Deb.received) :
  DebR.dispatch M fuel msg ac = Some ac' -> Deb.icao ac' = Deb.icao ac.
Proof.
  unfold DebR.dispatch.
  destruct (me_bin_of msg) as [me|]; [|now intros [= <-]].
  destruct (parse_int 2 (slice 0 5 me)) as [tc|]; [|now intros [= <-]].
  destruct ((1 <=? tc) && (tc <=? 4)).
  { destruct (_decode_callsign msg) as [[|c cs]|]; now intros [= <-]. }
  destruct ((9 <=? tc) && (tc <=? 18)).
  { destruct (DebR._decode_position M fuel msg ac) as [[ac1 [[la lo] alt]]|] eqn:E;
      [|discriminate].
    apply debian9_decode_position_icao in E. simpl. now intros [= <-]. }
  destruct (tc =? 19).
  { destruct (_decode_velocity M msg). now intros [= <-]. }
  now intros [= <-].
Qed.

(** The same for atc_debian9.py. *)
Lemma debian9_process_ok (M : pymath) (fuel : nat) (msg : str) (now : float)
  (d d' : dict Deb.received) :
  debian9_ok d -> DebR._process_message M fuel msg now d = Some d' -> debian9_ok d'.
Proof.
  intros [Hn Hi]. unfold DebR._process_message. cbv zeta.
  destruct (DebR.dispatch _ _ _ _) as [ac'|] eqn:E; [|discriminate].
  intros [= <-]. split; [now apply nodup_dict_set|].
  intros k' ac1 H. destruct (in_dict_set _ _ _ _ H) as [[= -> ->]|H']; auto.
  rewrite (debian9_dispatch_icao _ _ _ _ _ E). simpl.
  destruct (dict_get d (slice 2 8 msg)) as [ac|] eqn:G; [|reflexivity].
  apply dict_get_in in G. now apply Hi.
Qed.

Lemma debian9_remove_stale_ok (now : float) (d : dict Deb.received) :
  debian9_ok d -> debian9_ok (DebW.remove_stale now d).
Proof.
  intros [Hn Hi]. split; [now apply nodup_dict_del_where|].
  intros k ac H. apply Hi. eapply dict_del_where_subset; eauto.
Qed.

End TrackerFacts.

Module VelocityFacts.
Import Py PyFloat Json Receiver Notions.
Import PyFacts CrcFacts EncoderFacts Evaluations DictFacts ViewFacts.
Import ProcessFacts BeastFacts FrameFacts PositionFacts TrackerFacts.

Lemma magnitude_nonneg (v : float) (m : Z) : AS.magnitude v = Some m -> 0 <= m.
Proof.
  unfold AS.magnitude, int_of_float. rewrite abs_spec.
  destruct (Prim2SF v) as [s|s| |s m0 e]; cbn [SFabs]; try discriminate.
  - intros [= <-]. lia.
  - intros H.
    assert (G : 0 <= if 0 <=? e then Z.pos m0 * 2 ^ e else Z.pos m0 / 2 ^ (- e)).
    { destruct (0 <=? e) eqn:E.
      + apply Z.mul_nonneg_nonneg; [lia|]. apply Z.pow_nonneg. lia.
      + apply Z.div_pos; [lia|]. apply Z.pow_pos_nonneg; lia. }
    congruence.
Qed.

Lemma vr_field_abs (vr : Z) : AS.vr_field vr = AS.vr_field (Z.abs vr).
Proof.
  unfold AS.vr_field. rewrite Z.abs_idemp.
  destruct (Z.eqb_spec vr 0) as [->|H]; [reflexivity|].
  destruct (Z.eqb_spec (Z.abs vr) 0); [lia|reflexivity].
Qed.

Lemma vr_field_range (vr : Z) :
  Z.abs vr < 8192 -> exists ve, AS.vr_field vr = Some ve /\ 0 <= ve < 512.
Proof.
  intros H. rewrite vr_field_abs.
  assert (E : vr_field_ok (Z.abs vr) = true).
  { apply (forall_below (Z.to_nat 8192) vr_field_ok);
      [vm_compute; reflexivity|rewrite Z2Nat.id by lia; lia]. }
  unfold vr_field_ok in E. destruct (AS.vr_field (Z.abs vr)) as [ve|]; [|discriminate].
  exists ve. split; [reflexivity|lia].
Qed.

Lemma sign_bit_cases (v : float) : AS.sign_bit v = 0 \/ AS.sign_bit v = 1.
Proof. unfold AS.sign_bit. destruct (PrimFloat.leb 0 v); auto. Qed.

(** C6, as amended. Whenever the C library gives the sine and cosine of
    the heading and the two components [speed * sin] and [speed * cos]
    have integer parts, [encode_velocity] of aircraft_simulator.py returns
    a 28-character frame from which [_decode_velocity] reads back, for
    each component, its magnitude truncated to an integer and capped at
    1022, under its sign; the speed and heading it reports are those of
    these truncated components, not of the inputs. *)
Theorem velocity_round_trip_truncated (M : pymath) (icao : str) (i : Z)
  (speed heading : float) (vr : Z) (s c : float) (ew ns : Z) :
  valid_icao icao i -> Z.abs vr < 8192 ->
  math_sin M (math_radians heading) = Some s ->
  math_cos M (math_radians heading) = Some c ->
  AS.magnitude (speed * s) = Some ew ->
  AS.magnitude (speed * c) = Some ns ->
  let ew_vel := signed (AS.sign_bit (speed * s)) (Z.min ew 1022) in
  let ns_vel := signed (AS.sign_bit (speed * c)) (Z.min ns 1022) in
  exists frame,
    AS.encode_velocity M icao speed heading vr = Some frame
    /\ length frame = 28%nat
    /\ velocity_components frame = Some (Some (ew_vel, ns_vel))
    /\ _decode_velocity M frame = reported M ew_vel ns_vel.
Proof.
  intros Hi Hvr Hs Hc Hew Hns ew_vel ns_vel.
  destruct (vr_field_range vr Hvr) as (ve & Hve & Hr).
  pose proof (magnitude_nonneg _ _ Hew) as Pew.
  pose proof (magnitude_nonneg _ _ Hns) as Pns.
  destruct (as_velocity_fields icao i
              (AS.sign_bit (speed * s)) (Z.min (ew + 1) 1023)
              (AS.sign_bit (speed * c)) (Z.min (ns + 1) 1023)
              (if 0 <=? vr then 0 else 1) ve Hi
              (sign_bit_cases _) (sign_bit_cases _))
    as (frame & Hf & Hl & Hv); try lia.
  { destruct (0 <=? vr); auto. }
  exists frame. unfold AS.encode_velocity. cbv zeta.
  rewrite Hs, Hc, Hew, Hns, Hve.
  replace (Z.min (ew + 1) 1023 - 1) with (Z.min ew 1022) in Hv by lia.
  replace (Z.min (ns + 1) 1023 - 1) with (Z.min ns 1022) in Hv by lia.
  repeat split; try assumption.
  unfold _decode_velocity, reported. now rewrite Hv.
Qed.

End VelocityFacts.

Module ReceiverFacts.
Import Py PyFloat Json Receiver Notions.
Import PyFacts CrcFacts EncoderFacts Evaluations DictFacts ViewFacts.
Import ProcessFacts BeastFacts FrameFacts PositionFacts TrackerFacts VelocityFacts.

Lemma crc_zero_residue_witness :
  AS.crc klm_frame false = Some 0.
Proof.
  apply (proj1 (crc_zero_residue no_math klm_frame)).
  left. exists (py "4840D6"), (py "KLM1023"). vm_compute. reflexivity.
Defined.

(** *** C4 *)

(** A frame whose ICAO address holds the byte 0x1A: the encoder doubles
    it, the parser still takes bytes 9 to 22 of the record, so the frame
    it hands on has the doubled byte and has lost its last one, which
    stays in the buffer. A frame whose address holds [*] and [;]: the AVR
    scan, which runs first, cuts the record at the [;], and the Beast
    loop finds no record in what is left. *)
Lemma beast_escape_not_undone :
  (exists rec,
      BE.encode_message (py "8DA01A2B202CC371C32CE011F180") 1000 200 = Some rec
      /\ ArmyR.feed [] rec = Some ([py "8DA01A1A2B202CC371C32CE011F1"], [chr 128]))
  /\ (exists rec rest,
        BE.encode_message (py "8D2A3B00202CC371C32CE0C59C80") 1000 200 = Some rec
        /\ ArmyR.feed [] rec = Some ([], rest)).
Proof.
  split.
  - eexists. split; [vm_compute; reflexivity|]. vm_compute. reflexivity.
  - eexists. eexists. split; [vm_compute; reflexivity|]. vm_compute. reflexivity.
Qed.

Lemma beast_round_trip_without_escape_witness :
  ArmyR.feed [] klm_record = Some ([klm_frame], []).
Proof.
  apply (beast_round_trip_without_escape klm_bytes klm_record 1000 200).
  - reflexivity.
  - lia.
  - vm_compute. reflexivity.
  - vm_compute. reflexivity.
  - vm_compute. reflexivity.
Defined.

(** *** C7 *)

(** C7. Two position frames of one aircraft, the odd one received at
    time 0 and the even one at time 1000: [_process_message] of
    atc_debian9.py, which keeps no reception time with a fragment, pairs
    them and sets a position; [_process_message] of atc_army_offline.py,
    which compares the two reception times, sets none, and sets the same
    position when the frames are 5 seconds apart. *)
Theorem debian9_pairs_fragments_of_any_age :
  (exists d1 d2 ac,
      DebR._process_message no_math 0 odd_frame 0 [] = Some d1
      /\ DebR._process_message no_math 0 even_frame 1000 d1 = Some d2
      /\ dict_get d2 (py "40621D") = Some ac
      /\ Deb.lat ac = Some 87%float /\ Deb.lon ac = Some 0%float)
  /\ (exists d1 d2 ac,
        ArmyR._process_message no_math 0 odd_frame 0 0 [] = Some d1
        /\ ArmyR._process_message no_math 0 even_frame 1000 1000 d1 = Some d2
        /\ dict_get d2 (py "40621D") = Some ac
        /\ Army.lat ac = None /\ Army.lon ac = None)
  /\ (exists d1 d2 ac,
        ArmyR._process_message no_math 0 odd_frame 0 0 [] = Some d1
        /\ ArmyR._process_message no_math 0 even_frame 5 5 d1 = Some d2
        /\ dict_get d2 (py "40621D") = Some ac
        /\ Army.lat ac = Some 87%float /\ Army.lon ac = Some 0%float).
Proof.
  split; [|split]; (do 3 eexists);
    (split; [vm_compute; reflexivity|]); (split; [vm_compute; reflexivity|]);
    (split; [vm_compute; reflexivity|]); split; vm_compute; reflexivity.
Qed.

(** *** C8 and C10 *)

(** C8. Staleness: when the view answers a snapshot request at time
    [now], a received aircraft with [now - last_seen] above the timeout
    has been deleted from the map, and no object of the array with source
    "adsb" carries its address; in atc_army_offline.py and in
    atc_debian9.py. *)
Theorem stale_aircraft_absent :
  (forall (M : pymath) (now now2 : float) (st st' : Army.tracker) (resp : response)
          (k : str) (ac : Army.received),
      army_ok (Army.received_aircraft st) ->
      In (k, ac) (Army.received_aircraft st) ->
      PrimFloat.ltb Army.AIRCRAFT_TIMEOUT (now - Army.last_seen ac)%float = true ->
      ArmyW.serve_aircraft_json M now now2 st = (st', Some resp) ->
      dict_get (Army.received_aircraft st') k = None
      /\ forall e, In e (r_aircraft resp) -> adsb e -> e_hex e <> JStr k)
  /\ (forall (M : pymath) (now now2 : float) (st st' : Deb.tracker) (resp : response)
             (k : str) (ac : Deb.received),
        debian9_ok (Deb.received_aircraft st) ->
        In (k, ac) (Deb.received_aircraft st) ->
        PrimFloat.ltb Deb.AIRCRAFT_TIMEOUT (now - Deb.last_seen ac)%float = true ->
        DebW.serve_aircraft_json M now now2 st = (st', Some resp) ->
        dict_get (Deb.received_aircraft st') k = None
        /\ forall e, In e (r_aircraft resp) -> adsb e -> e_hex e <> JStr k).
Proof.
  split; intros.
  - eapply army_stale_absent; eauto.
  - eapply debian9_stale_absent; eauto.
Qed.

Lemma sample_tracker_ok : army_ok (Army.received_aircraft sample_tracker).
Proof.
  split.
  - repeat constructor; simpl; intuition discriminate.
  - intros k ac [[= <- <-]|[[= <- <-]|[]]]; reflexivity.
Qed.

Lemma stale_aircraft_absent_witness :
  dict_get (Army.received_aircraft (fst sample_served)) (py "40621D") = None
  /\ forall e, In e (r_aircraft sample_response) -> adsb e -> e_hex e <> JStr (py "40621D").
Proof.
  apply (proj1 stale_aircraft_absent no_math 100%float 100%float sample_tracker
           (fst sample_served) sample_response (py "40621D") old_ac).
  - exact sample_tracker_ok.
  - left. reflexivity.
  - vm_compute. reflexivity.
  - vm_compute. reflexivity.
Defined.

Lemma no_position_no_entry_army (M : pymath) (now now2 : float) (st st' : Army.tracker)
  (resp : response) (k : str) (ac : Army.received) :
  army_ok (Army.received_aircraft st) ->
  In (k, ac) (Army.received_aircraft st) ->
  Army.lat ac = None \/ Army.lon ac = None ->
  ArmyW.serve_aircraft_json M now now2 st = (st', Some resp) ->
  forall e, In e (r_aircraft resp) -> adsb e -> e_hex e <> JStr k.
Proof.
  intros [Hnd Hic] Hin Hnone H e He Ha Hhex.
  destruct (army_entry_origin _ _ _ _ _ _ _ H He Ha)
    as (Hst' & k' & ac' & la & lo & Hk' & Hla & Hlo & Hh & _).
  rewrite Hst' in Hk'. apply dict_del_where_subset in Hk'.
  rewrite Hh in Hhex. injection Hhex as Hk. rewrite (Hic _ _ Hk') in Hk. subst k'.
  rewrite (nodup_keys_unique _ _ _ _ Hnd Hin Hk') in Hnone.
  destruct Hnone; congruence.
Qed.

Lemma no_position_no_entry_debian9 (M : pymath) (now now2 : float) (st st' : Deb.tracker)
  (resp : response) (k : str) (ac : Deb.received) :
  debian9_ok (Deb.received_aircraft st) ->
  In (k, ac) (Deb.received_aircraft st) ->
  Deb.lat ac = None \/ Deb.lon ac = None ->
  DebW.serve_aircraft_json M now now2 st = (st', Some resp) ->
  forall e, In e (r_aircraft resp) -> adsb e -> e_hex e <> JStr k.
Proof.
  intros [Hnd Hic] Hin Hnone H e He Ha Hhex.
  destruct (debian9_entry_origin _ _ _ _ _ _ _ H He Ha)
    as (Hst' & k' & ac' & la & lo & Hk' & Hla & Hlo & Hh & _).
  rewrite Hst' in Hk'. apply dict_del_where_subset in Hk'.
  rewrite Hh in Hhex. injection Hhex as Hk. rewrite (Hic _ _ Hk') in Hk. subst k'.
  rewrite (nodup_keys_unique _ _ _ _ Hnd Hin Hk') in Hnone.
  destruct Hnone; congruence.
Qed.

(** C10. A received aircraft whose [lat] or [lon] is still [None] has no
    object in the array of a snapshot, whatever else is known of it and
    however fresh it is; and every object with source "adsb" has a float
    for [lat] and for [lon], never [null]; in atc_army_offline.py and in
    atc_debian9.py. *)
Theorem positionless_aircraft_omitted :
  (forall (M : pymath) (now now2 : float) (st st' : Army.tracker) (resp : response)
          (k : str) (ac : Army.received),
      army_ok (Army.received_aircraft st) ->
      In (k, ac) (Army.received_aircraft st) ->
      Army.lat ac = None \/ Army.lon ac = None ->
      ArmyW.serve_aircraft_json M now now2 st = (st', Some resp) ->
      forall e, In e (r_aircraft resp) -> adsb e ->
                e_hex e <> JStr k /\ exists la lo, e_lat e = JFloat la /\ e_lon e = JFloat lo)
  /\ (forall (M : pymath) (now now2 : float) (st st' : Deb.tracker) (resp : response)
             (k : str) (ac : Deb.received),
        debian9_ok (Deb.received_aircraft st) ->
        In (k, ac) (Deb.received_aircraft st) ->
        Deb.lat ac = None \/ Deb.lon ac = None ->
        DebW.serve_aircraft_json M now now2 st = (st', Some resp) ->
        forall e, In e (r_aircraft resp) -> adsb e ->
                  e_hex e <> JStr k /\ exists la lo, e_lat e = JFloat la /\ e_lon e = JFloat lo).
Proof.
  split; intros M now now2 st st' resp k ac Hok Hin Hnone H e He Ha; split.
  - eapply no_position_no_entry_army; eauto.
  - destruct (army_entry_origin _ _ _ _ _ _ _ H He Ha)
      as (_ & k' & ac' & la & lo & _ & _ & _ & _ & Hla & Hlo).
    now exists la, lo.
  - eapply no_position_no_entry_debian9; eauto.
  - destruct (debian9_entry_origin _ _ _ _ _ _ _ H He Ha)
      as (_ & k' & ac' & la & lo & _ & _ & _ & _ & Hla & Hlo).
    now exists la, lo.
Qed.

Lemma positionless_aircraft_omitted_witness :
  length (r_aircraft sample_response_50) = 1%nat
  /\ forall e, In e (r_aircraft sample_response_50) -> adsb e ->
               e_hex e <> JStr (py "4840D6")
               /\ exists la lo, e_lat e = JFloat la /\ e_lon e = JFloat lo.
Proof.
  split; [reflexivity|].
  apply (proj1 positionless_aircraft_omitted no_math 50%float 50%float sample_tracker
           (fst sample_served_50) sample_response_50 (py "4840D6") fresh_ac).
  - exact sample_tracker_ok.
  - right. left. reflexivity.
  - left. reflexivity.
  - vm_compute. reflexivity.
Defined.

(** *** C9 *)

(** A DF17 frame of 28 characters with type code 0 and a good CRC: its
    sender gets an entry. The ident frame of KLM1023 with its CRC
    replaced by zeros: both receivers take the callsign from it. *)
Lemma unknown_type_code_and_bad_crc_change_state :
  (exists ac,
      ArmyR._process_message no_math 0 (py "8D4840D60000000000000071BE80") 5 5 []
      = Some [(py "4840D6", ac)] /\ Army.last_seen ac = 5%float)
  /\ AS.crc (py "8D4840D6202CC371C32CE0000000") false <> Some 0
  /\ (exists ac,
        ArmyR._process_message no_math 0 (py "8D4840D6202CC371C32CE0000000") 5 5 []
        = Some [(py "4840D6", ac)] /\ Army.callsign ac = py "KLM1023")
  /\ (exists ac,
        DebR._process_message no_math 0 (py "8D4840D6202CC371C32CE0000000") 5 []
        = Some [(py "4840D6", ac)] /\ Deb.callsign ac = Some (py "KLM1023")).
Proof.
  split; [|split; [|split]].
  - eexists. split; [vm_compute; reflexivity|]. vm_compute. reflexivity.
  - vm_compute. discriminate.
  - eexists. split; [vm_compute; reflexivity|]. vm_compute. reflexivity.
  - eexists. split; [vm_compute; reflexivity|]. vm_compute. reflexivity.
Qed.

(** C9, as amended. In atc_army_offline.py a frame that is not 28
    characters long, or whose downlink format is not 17, leaves the
    received-aircraft map as it is; a DF17 frame with a type code outside
    1-4, 9-18 and 19 creates the entry of its sender if there is none, sets
    its [last_seen], and changes nothing else. Neither receiver looks at
    the last six characters: two frames that differ only there are
    processed alike. In atc_debian9.py a frame reaches [_process_message]
    only with 28 characters. *)
Theorem malformed_frame_handling (M : pymath) (fuel : nat) (msg : str) (now t : float)
  (d : dict Army.received) :
  (length msg <> 28%nat -> ArmyR._process_message M fuel msg now t d = Some d)
  /\ (df_of msg <> Some 17 -> ArmyR._process_message M fuel msg now t d = Some d)
  /\ (forall tc, length msg = 28%nat -> df_of msg = Some 17 -> tc_of msg = Some tc ->
                 known_tc tc = false ->
                 ArmyR._process_message M fuel msg now t d
                 = Some (dict_set d (slice 2 8 msg) (touched d (slice 2 8 msg) now)))
  /\ (forall msg', same_but_crc msg msg' ->
                   ArmyR._process_message M fuel msg now t d
                   = ArmyR._process_message M fuel msg' now t d)
  /\ (forall msg' (d9 : dict Deb.received), same_but_crc msg msg' ->
                   DebR._process_message M fuel msg now d9
                   = DebR._process_message M fuel msg' now d9)
  /\ (forall line, DebR.accepted_line line = Some msg -> length msg = 28%nat).
Proof.
  split; [|split; [|split; [|split; [|split]]]].
  - apply army_wrong_length.
  - apply army_not_df17.
  - intros tc. apply army_unknown_tc.
  - intros msg'. apply army_process_same.
  - intros msg' d9. apply debian9_process_same.
  - intros line. apply debian9_line_length.
Qed.

Lemma malformed_frame_handling_witness :
  ArmyR._process_message no_math 0 (py "8D4840D6202CC371C32CE0F4AB") 5 5
    (Army.received_aircraft sample_tracker)
  = Some (Army.received_aircraft sample_tracker)
  /\ ArmyR._process_message no_math 0 (py "5D4840D6202CC371C32CE0F4AB80") 5 5
       (Army.received_aircraft sample_tracker)
     = Some (Army.received_aircraft sample_tracker).
Proof.
  split.
  - apply (proj1 (malformed_frame_handling no_math 0 (py "8D4840D6202CC371C32CE0F4AB") 5 5
                    (Army.received_aircraft sample_tracker))).
    simpl. lia.
  - apply (proj1 (proj2 (malformed_frame_handling no_math 0
                           (py "5D4840D6202CC371C32CE0F4AB80") 5 5
                           (Army.received_aircraft sample_tracker)))).
    vm_compute. discriminate.
Defined.

(** *** C6 *)

(** At 7 knots on heading 45.5 both components are a little under 5, the
    frame carries 4 and 4, and the decoded speed is [sqrt 32], more than
    1.3 knots short. At 1 knot on heading 45 both components truncate to
    0 and the decoded heading is 0. *)
Lemma velocity_round_trip_off_by_more :
  (exists frame s h,
      AS.encode_velocity libm_sample (py "40621D") 7 45.5 0 = Some frame
      /\ _decode_velocity libm_sample frame = (Some s, Some h)
      /\ PrimFloat.ltb 1.3 (7 - s) = true)
  /\ (exists frame s h,
        AS.encode_velocity libm_sample (py "40621D") 1 45 0 = Some frame
        /\ _decode_velocity libm_sample frame = (Some s, Some h)
        /\ PrimFloat.ltb 44 (45 - h) = true).
Proof.
  split; (do 3 eexists);
    (split; [vm_compute; reflexivity|]); split; vm_compute; reflexivity.
Qed.

Lemma velocity_round_trip_truncated_witness :
  exists frame,
    AS.encode_velocity libm_sample (py "40621D") 7 45.5 0 = Some frame
    /\ length frame = 28%nat
    /\ velocity_components frame = Some (Some (4, 4))
    /\ _decode_velocity libm_sample frame = reported libm_sample 4 4.
Proof.
  apply (velocity_round_trip_truncated libm_sample (py "40621D") 0x40621D 7 45.5 0
           0x1.6d2f29b1f2f46p-1 0x1.66dd943f43372p-1 4 4).
  - split; [reflexivity|lia].
  - simpl. lia.
  - reflexivity.
  - reflexivity.
  - reflexivity.
  - reflexivity.
Defined.

End ReceiverFacts.

Module LayoutFacts.
Import Py PyFloat Json Receiver Notions.
Import PyFacts CrcFacts EncoderFacts Evaluations DictFacts ViewFacts.
Import ProcessFacts BeastFacts FrameFacts PositionFacts TrackerFacts VelocityFacts.
Import ReceiverFacts.

(** X1. send_adsb.py: every altitude code of [0, 2047] comes back from the
    position frame as the altitude it stands for. *)
Theorem send_adsb_altitude_round_trip (icao : str) (i N F lat_cpr lon_cpr : Z) :
  valid_icao icao i -> 0 <= N < 2048 -> (F = 0 \/ F = 1) ->
  0 <= lat_cpr < 2 ^ 17 -> 0 <= lon_cpr < 2 ^ 17 ->
  exists frame,
    SA.position_frame icao N F lat_cpr lon_cpr = Some frame
    /\ length frame = 28%nat
    /\ frame_altitude frame = Some (Some (N * 25 - 1000)).
Proof.
  intros Hi HN HF Hlat Hlon.
  destruct (sa_position_fields icao i N F lat_cpr lon_cpr Hi HN HF Hlat Hlon)
    as (frame & me & Hf & Hl & Hme & Ha & _).
  exists frame. repeat split; try assumption.
  unfold frame_altitude. rewrite Hme. cbn. rewrite Ha.
  now rewrite sa_altitude_of_bits.
Qed.

Lemma send_adsb_altitude_round_trip_witness :
  exists frame,
    SA.position_frame (py "40621D") 1440 0 65536 0 = Some frame
    /\ length frame = 28%nat
    /\ frame_altitude frame = Some (Some 35000).
Proof.
  apply (send_adsb_altitude_round_trip (py "40621D") 0x40621D 1440 0 65536 0).
  - split; [reflexivity|lia].
  - lia.
  - now left.
  - simpl; lia.
  - simpl; lia.
Defined.

(** X2. aircraft_simulator.py: the altitude comes back from the position
    frame exactly when bit 3 of its code is set; otherwise the receivers
    read Q = 0. *)
Theorem aircraft_simulator_altitude_needs_bit3 (icao : str) (i N F lat_cpr lon_cpr : Z) :
  valid_icao icao i -> 0 <= N < 2048 -> (F = 0 \/ F = 1) ->
  0 <= lat_cpr < 2 ^ 17 -> 0 <= lon_cpr < 2 ^ 17 ->
  exists frame,
    AS.position_frame icao N F lat_cpr lon_cpr = Some frame
    /\ length frame = 28%nat
    /\ frame_altitude frame
       = Some (if Z.testbit N 3 then Some (N * 25 - 1000) else None).
Proof.
  intros Hi HN HF Hlat Hlon.
  destruct (as_position_fields icao i N F lat_cpr lon_cpr Hi HN HF Hlat Hlon)
    as (frame & me & Hf & Hl & Hme & Ha & _).
  exists frame. repeat split; try assumption.
  unfold frame_altitude. rewrite Hme. cbn. rewrite Ha.
  now rewrite as_altitude_of_bits.
Qed.

Lemma aircraft_simulator_altitude_needs_bit3_witness :
  exists frame,
    AS.position_frame (py "40621D") 1448 0 65536 0 = Some frame
    /\ length frame = 28%nat
    /\ frame_altitude frame = Some (Some 35200).
Proof.
  apply (aircraft_simulator_altitude_needs_bit3 (py "40621D") 0x40621D 1448 0 65536 0).
  - split; [reflexivity|lia].
  - lia.
  - now left.
  - simpl; lia.
  - simpl; lia.
Defined.

(** X3. The format bit [F] of a position frame of aircraft_simulator.py:
    [_decode_position] of atc_army_offline.py reads [F], that of
    atc_debian9.py reads 0 whatever [F] is. *)
Theorem format_bit_as_read (icao : str) (i N F lat_cpr lon_cpr : Z) :
  valid_icao icao i -> 0 <= N < 2048 -> (F = 0 \/ F = 1) ->
  0 <= lat_cpr < 2 ^ 17 -> 0 <= lon_cpr < 2 ^ 17 ->
  exists frame a,
    AS.position_frame icao N F lat_cpr lon_cpr = Some frame
    /\ ArmyR.position_fields frame
       = Some (match a with Some x => x | None => 0 end, lat_cpr, lon_cpr, F)
    /\ DebR.position_fields frame = Some (a, 0, lat_cpr, lon_cpr).
Proof.
  intros Hi HN HF Hlat Hlon.
  destruct (as_position_fields icao i N F lat_cpr lon_cpr Hi HN HF Hlat Hlon)
    as (frame & me & Hf & Hl & Hme & Hr).
  exists frame, (altitude_of_bits (as_alt12 N)). split; [assumption|]. split.
  - eapply army_position_fields; eauto.
  - eapply debian9_position_fields; eauto.
Qed.

Lemma format_bit_as_read_witness :
  exists frame a,
    AS.position_frame (py "40621D") 1560 1 33860 0 = Some frame
    /\ ArmyR.position_fields frame
       = Some (match a with Some x => x | None => 0 end, 33860, 0, 1)
    /\ DebR.position_fields frame = Some (a, 0, 33860, 0).
Proof.
  apply (format_bit_as_read (py "40621D") 0x40621D 1560 1 33860 0).
  - split; [reflexivity|lia].
  - lia.
  - now right.
  - simpl; lia.
  - simpl; lia.
Defined.

(** X4. The received-aircraft map of either receiver keeps one entry per
    address, each holding its address as ['icao'], from the empty map on
    through every [_process_message] and every removal of stale entries. *)
Theorem received_map_well_formed :
  army_ok [] /\ debian9_ok []
  /\ (forall M fuel msg now t d d',
         army_ok d -> ArmyR._process_message M fuel msg now t d = Some d' -> army_ok d')
  /\ (forall M fuel msg now d d',
         debian9_ok d -> DebR._process_message M fuel msg now d = Some d' -> debian9_ok d')
  /\ (forall now d, army_ok d -> army_ok (ArmyW.remove_stale now d))
  /\ (forall now d, debian9_ok d -> debian9_ok (DebW.remove_stale now d)).
Proof.
  split; [|split; [|split; [|split; [|split]]]].
  - split; [constructor|intros k ac []].
  - split; [constructor|intros k ac []].
  - intros. eapply army_process_ok; eauto.
  - intros. eapply debian9_process_ok; eauto.
  - intros. now apply army_remove_stale_ok.
  - intros. now apply debian9_remove_stale_ok.
Qed.

(** X5. The guards of the three NL functions, which return before the C
    library is reached: [nl] of aircraft_simulator.py is 59 at latitude 0
    and 1 from pi/2 radians on, [nl] of send_adsb.py is 1 from 1.5707963
    radians on, [_calculate_nl] of the receivers is 1 from 87 degrees on. *)
Theorem nl_guards (M : pymath) (lat : float) :
  AS.nl M 0 = Some 59
  /\ (PrimFloat.leb (math_pi / 2) (PrimFloat.abs lat) = true -> AS.nl M lat = Some 1)
  /\ (PrimFloat.leb 1.5707963 (PrimFloat.abs lat) = true -> SA.nl M lat = Some 1)
  /\ (PrimFloat.leb 87 (PrimFloat.abs lat) = true -> _calculate_nl M lat = Some 1).
Proof.
  split; [reflexivity|]. split; [|split].
  - intros H. unfold AS.nl. rewrite H.
    destruct (PrimFloat.eqb lat 0) eqn:E; [|reflexivity].
    exfalso. rewrite FloatAxioms.eqb_spec in E. rewrite FloatAxioms.leb_spec, abs_spec in H.
    destruct (Prim2SF lat) as [[|]|[|]| |[|] m e]; vm_compute in E; try discriminate E.
    all: vm_compute in H; discriminate H.
  - intros H. unfold SA.nl. now rewrite H.
  - intros H. unfold _calculate_nl. now rewrite H.
Qed.

Lemma nl_guards_witness :
  AS.nl no_math 2 = Some 1 /\ SA.nl no_math 2 = Some 1 /\ _calculate_nl no_math 88 = Some 1.
Proof.
  split; [|split].
  - apply (proj1 (proj2 (nl_guards no_math 2))). reflexivity.
  - apply (proj1 (proj2 (proj2 (nl_guards no_math 2)))). reflexivity.
  - apply (proj2 (proj2 (proj2 (nl_guards no_math 88)))). reflexivity.
Defined.

End LayoutFacts.

Module HexFacts.
Import Py PyFloat Json Receiver Notions.
Import PyFacts CrcFacts EncoderFacts Evaluations DictFacts ViewFacts.
Import ProcessFacts BeastFacts FrameFacts PositionFacts TrackerFacts VelocityFacts.
Import ReceiverFacts LayoutFacts.

(** *** The hex digits of a frame and the bits they stand for *)

Lemma format_X_22 (w : nat) (m : Z) :
  (w <= 22)%nat -> 2 ^ 87 <= m < 2 ^ 88 -> format_X w m = fixed_digits 16 true 22 m.
Proof.
  intros Hw Hm. unfold format_X, format_int.
  replace (m <? 0) with false by lia.
  replace (ndigits 16 m) with 22%nat; [f_equal; lia|].
  unfold ndigits. replace (m <=? 0) with false by lia.
  rewrite (Z.log2_unique m 87) by lia. reflexivity.
Qed.

Lemma parse_fixed_hex (w : nat) (x : Z) :
  (1 <= w)%nat -> parse_int 16 (fixed_digits 16 true w x) = Some (x mod 16 ^ Z.of_nat w).
Proof.
  intros Hw. rewrite parse_int_digits.
  - now rewrite value_fixed_digits by lia.
  - intros E. apply (f_equal (@length ascii)) in E.
    rewrite length_fixed_digits in E. simpl in E. lia.
  - apply digit_str_fixed_digits. lia.
Qed.

(** The hex characters [a] to [b] of a frame, read as a number. *)
Lemma hex_field (m : Z) (a w r : nat) (rest : str) :
  (1 <= w)%nat ->
  parse_int 16 (slice a (a + w) (fixed_digits 16 true (a + w + r) m ++ rest))
  = Some ((m / 16 ^ Z.of_nat r) mod 16 ^ Z.of_nat w).
Proof.
  intros Hw.
  rewrite (fixed_digits_split 16 true (a + w) r m) by lia.
  rewrite (fixed_digits_split 16 true a w (m / 16 ^ Z.of_nat r)) by lia.
  rewrite <- !app_assoc.
  rewrite (slice_app_skip _ _ a) by (rewrite ?length_fixed_digits; lia).
  replace (a - a)%nat with 0%nat by lia. replace (a + w - a)%nat with w by lia.
  rewrite (slice_app_take _ _ w) by apply length_fixed_digits.
  now apply parse_fixed_hex.
Qed.

Lemma digit_str_firstn_skipn (base : Z) (n : nat) (s : str) :
  digit_str base s -> digit_str base (firstn n s) /\ digit_str base (skipn n s).
Proof.
  intros H. unfold digit_str in *. rewrite <- (firstn_skipn n s) in H.
  now apply Forall_app in H.
Qed.

Lemma digit_str_firstn (base : Z) (n : nat) (s : str) :
  digit_str base s -> digit_str base (firstn n s).
Proof. intros H. now apply digit_str_firstn_skipn. Qed.

Lemma digit_str_skipn (base : Z) (n : nat) (s : str) :
  digit_str base s -> digit_str base (skipn n s).
Proof. intros H. now apply digit_str_firstn_skipn. Qed.

(** The bits [a] to [b] of a bit string, read as a number. *)
Lemma bits_field (s : str) (a b : nat) :
  digit_str 2 s -> (a <= b <= length s)%nat ->
  value 2 (slice a b s)
  = (value 2 s / 2 ^ Z.of_nat (length s - b)) mod 2 ^ Z.of_nat (b - a).
Proof.
  intros Hd Hab.
  assert (Hs : s = firstn a s ++ slice a b s ++ skipn b s).
  { unfold slice. rewrite <- (firstn_skipn a s) at 1. f_equal.
    rewrite <- (firstn_skipn (b - a) (skipn a s)) at 1. f_equal.
    rewrite skipn_skipn. f_equal. lia. }
  assert (Hm : digit_str 2 (slice a b s)).
  { unfold slice. now apply digit_str_firstn, digit_str_skipn. }
  assert (Hr : digit_str 2 (skipn b s)) by now apply digit_str_skipn.
  pose proof (value_nonneg 2 _ ltac:(lia) Hm) as Bm.
  pose proof (value_nonneg 2 _ ltac:(lia) Hr) as Br.
  assert (Lm : length (slice a b s) = (b - a)%nat).
  { unfold slice. rewrite length_firstn, length_skipn. lia. }
  assert (Lr : length (skipn b s) = (length s - b)%nat) by apply length_skipn.
  rewrite Lm in Bm. rewrite Lr in Br.
  rewrite Hs at 2. rewrite app_assoc, value_app, value_app, Lm, Lr.
  set (P := 2 ^ Z.of_nat (length s - b)) in *.
  set (Q := 2 ^ Z.of_nat (b - a)) in *.
  assert (0 < P) by (apply Z.pow_pos_nonneg; lia).
  assert (0 < Q) by (apply Z.pow_pos_nonneg; lia).
  rewrite Z.div_add_l by lia. rewrite (Z.div_small (value 2 (skipn b s))) by lia.
  rewrite Z.add_0_r, Z.add_comm, Z_mod_plus_full. symmetry. apply Z.mod_small. lia.
Qed.

(** The six bits at [idx] of the message, as [_decode_callsign] takes them
    from the two hex characters that hold them. *)
Lemma six_bits_of_hex_pair (m k s : Z) :
  0 <= k -> s = 0 \/ s = 2 ->
  Z.land (Z.shiftr ((m / 16 ^ k) mod 16 ^ 2) s) 63 = (m / 2 ^ (4 * k + s)) mod 2 ^ 6.
Proof.
  intros Hk Hs.
  change 63 with (Z.ones 6). rewrite Z.land_ones by lia.
  rewrite Z.shiftr_div_pow2 by lia.
  replace (2 ^ (4 * k + s)) with (16 ^ k * 2 ^ s).
  2:{ rewrite Z.pow_add_r, Z.pow_mul_r by lia. reflexivity. }
  assert (0 < 16 ^ k) by (apply Z.pow_pos_nonneg; lia).
  rewrite <- Z.div_div by (try lia; destruct Hs; subst; cbn; lia).
  set (A := m / 16 ^ k).
  destruct Hs; subst s; cbn; Z.div_mod_to_equations; lia.
Qed.

Lemma hex_pair (m : Z) (a b : nat) (rest : str) :
  (b = a + 2)%nat -> (b <= 22)%nat ->
  parse_int 16 (slice a b (fixed_digits 16 true 22 m ++ rest))
  = Some ((m / 16 ^ Z.of_nat (22 - b)) mod 16 ^ Z.of_nat 2).
Proof.
  intros -> Hb.
  replace 22%nat with (a + 2 + (22 - (a + 2)))%nat at 1 by lia.
  apply hex_field. lia.
Qed.

(** [_decode_callsign] reads, as the code of its character [i], the six
    bits of the message that start at bit [40 + 6 i]. *)
Lemma callsign_char_bits (msg_bin rest : str) (i : nat) :
  digit_str 2 msg_bin -> length msg_bin = 88%nat -> length rest = 6%nat -> (i < 8)%nat ->
  callsign_char (fixed_digits 16 true 22 (value 2 msg_bin) ++ rest) i
  = (c <- index charset (Z.to_nat (value 2 (slice (40 + 6 * i) (46 + 6 * i) msg_bin))) ;;
     Some [c]).
Proof.
  intros Hd Hl Hr Hi. unfold callsign_char.
  rewrite length_app, length_fixed_digits, Hr.
  set (m := value 2 msg_bin).
  assert (B : forall a b, (a <= b <= 88)%nat ->
              value 2 (slice a b msg_bin)
              = (m / 2 ^ Z.of_nat (88 - b)) mod 2 ^ Z.of_nat (b - a)).
  { intros a b Hab. rewrite bits_field by (assumption || lia). now rewrite Hl. }
  destruct i as [|[|[|[|[|[|[|[|]]]]]]]]; try lia; clear Hi;
    cbn [Nat.mul Nat.add Nat.div Nat.modulo Nat.divmod fst snd Nat.sub Nat.ltb Nat.leb];
    rewrite B by lia;
    match goal with
    | |- context [slice ?a ?b (fixed_digits 16 true 22 m ++ rest)] =>
        rewrite (hex_pair m a b rest) by lia
    end;
    cbn [Nat.sub Z.of_nat Pos.of_succ_nat Pos.succ Z.sub Z.opp Z.add Z.pos_sub Pos.pred_double].
  all: rewrite six_bits_of_hex_pair by (cbn; lia).
  all: reflexivity.
Qed.

Section FinishFrame.

Variables (crc : str -> bool -> option Z) (p g : Z -> nat -> Z).

Hypothesis crc_shape : forall s e, crc s e = crc_gen p g s e.

Hypothesis p_high : forall len i, (i < Z.to_nat len - 24)%nat -> 24 <= p len i.

(** A bit string of 88 binary digits that starts with 1 is finished,
    whatever the width asked of [format], into 22 hex characters and 6 of
    CRC. *)
Lemma finish_frame (w : nat) (msg_bin t : str) :
  (w <= 22)%nat -> msg_bin = "1"%char :: t ->
  digit_str 2 msg_bin -> length msg_bin = 88%nat ->
  exists rest,
    (m <- parse_int 2 msg_bin ;;
     let msg_hex := format_X w m in
     c <- crc msg_hex true ;;
     Some (msg_hex ++ format_X 6 c))
    = Some (fixed_digits 16 true 22 (value 2 msg_bin) ++ rest)
    /\ length rest = 6%nat /\ digit_str 16 rest.
Proof.
  intros Hw Hh Hd Hl.
  assert (Hne : msg_bin <> []) by (intros ->; discriminate).
  rewrite parse_int_digits by assumption. cbv zeta.
  assert (Hm : 2 ^ 87 <= value 2 msg_bin < 2 ^ 88).
  { pose proof (value_nonneg 2 msg_bin ltac:(lia) Hd) as B. rewrite Hl in B.
    split; [|exact (proj2 B)].
    rewrite Hh in Hd, Hl |- *. change ("1"%char :: t) with (["1"%char] ++ t).
    rewrite value_app. simpl in Hl. injection Hl as Hl. rewrite Hl.
    inversion Hd as [|? ? _ Ht]. subst.
    pose proof (value_nonneg 2 t ltac:(lia) Ht) as Bt.
    change (value 2 ["1"%char]) with 1. lia. }
  rewrite (format_X_22 w _ Hw Hm).
  assert (Hxd : digit_str 16 (fixed_digits 16 true 22 (value 2 msg_bin)))
    by (apply digit_str_fixed_digits; lia).
  assert (Hxne : fixed_digits 16 true 22 (value 2 msg_bin) <> []).
  { intros E. apply (f_equal (@length ascii)) in E.
    rewrite length_fixed_digits in E. discriminate. }
  destruct (crc_gen_residue p g _ p_high Hxne Hxd) as (c & Hc & Hcr & _).
  rewrite crc_shape, Hc.
  eexists. split; [reflexivity|].
  unfold format_X. rewrite format_int_fixed by (try (now right); try lia; exact Hcr).
  split; [apply length_fixed_digits|apply digit_str_fixed_digits; lia].
Qed.

End FinishFrame.

Lemma as_finish_frame (w : nat) (msg_bin t : str) :
  (w <= 22)%nat -> msg_bin = "1"%char :: t ->
  digit_str 2 msg_bin -> length msg_bin = 88%nat ->
  exists rest,
    AS.finish w msg_bin = Some (fixed_digits 16 true 22 (value 2 msg_bin) ++ rest)
    /\ length rest = 6%nat /\ digit_str 16 rest.
Proof.
  apply (finish_frame AS.crc _ _ as_crc_shape). intros len i Hi. cbv beta. lia.
Qed.

Lemma sa_finish_frame (w : nat) (msg_bin t : str) :
  (w <= 22)%nat -> msg_bin = "1"%char :: t ->
  digit_str 2 msg_bin -> length msg_bin = 88%nat ->
  exists rest,
    SA.finish w msg_bin = Some (fixed_digits 16 true 22 (value 2 msg_bin) ++ rest)
    /\ length rest = 6%nat /\ digit_str 16 rest.
Proof.
  apply (finish_frame SA.crc _ _ sa_crc_shape). intros len i Hi. cbv beta. lia.
Qed.

End HexFacts.

Module CallsignFacts.
Import Py PyFloat Json Receiver Notions.
Import PyFacts CrcFacts EncoderFacts Evaluations DictFacts ViewFacts.
Import ProcessFacts BeastFacts FrameFacts PositionFacts TrackerFacts VelocityFacts.
Import ReceiverFacts LayoutFacts HexFacts.

Lemma char_code_range (c : ascii) : 0 <= AS.char_code c < 64.
Proof.
  destruct c as [[|] [|] [|] [|] [|] [|] [|] [|]]; vm_compute; split; congruence.
Qed.

Lemma char_code_charset (c : ascii) :
  plain c = true -> index charset (Z.to_nat (AS.char_code c)) = Some c.
Proof.
  destruct c as [[|] [|] [|] [|] [|] [|] [|] [|]]; vm_compute; congruence.
Qed.

Lemma plain_not_hash (c : ascii) : plain c = true -> Ascii.eqb c "#"%char = false.
Proof.
  destruct c as [[|] [|] [|] [|] [|] [|] [|] [|]]; vm_compute; congruence.
Qed.

Lemma plain_upper (c : ascii) : plain c = true -> upper_char c = c.
Proof.
  destruct c as [[|] [|] [|] [|] [|] [|] [|] [|]]; vm_compute; congruence.
Qed.

Lemma sa_char_code (c : ascii) : SA.char_code c = AS.char_code (upper_char c).
Proof. reflexivity. Qed.

Lemma forallb_lstrip (f : ascii -> bool) (s : str) :
  forallb plain s = true -> forallb plain (lstrip_with f s) = true.
Proof.
  induction s as [|c s IH]; simpl; [reflexivity|].
  intros H. apply andb_prop in H. destruct H as [Hc Hs].
  destruct (f c); [now apply IH|]. simpl. now rewrite Hc, Hs.
Qed.

Lemma forallb_rev (s : str) : forallb plain s = true -> forallb plain (rev s) = true.
Proof.
  rewrite !forallb_forall. intros H x Hx. apply H. now apply in_rev.
Qed.

Lemma forallb_strip (s : str) : forallb plain s = true -> forallb plain (strip s) = true.
Proof.
  intros H. unfold strip, rstrip_with.
  now apply forallb_rev, forallb_lstrip, forallb_rev, forallb_lstrip.
Qed.

Lemma remove_hash_plain (s : str) :
  forallb plain s = true -> remove_char "#"%char s = s.
Proof.
  induction s as [|c s IH]; simpl; [reflexivity|].
  intros H. apply andb_prop in H. destruct H as [Hc Hs].
  rewrite (plain_not_hash c Hc). simpl. now rewrite IH.
Qed.

Lemma length_padded (callsign : str) : length (padded callsign) = 8%nat.
Proof.
  unfold padded, upper. rewrite length_map, length_firstn, length_app.
  change (length (py "        ")) with 8%nat. lia.
Qed.

Lemma value_fixed6 (c : Z) : 0 <= c < 64 -> value 2 (fixed_digits 2 false 6 c) = c.
Proof.
  intros H. rewrite value_fixed_digits by lia. apply Z.mod_small. cbn. lia.
Qed.

(** What [_decode_callsign] makes of a frame with these bits. *)
Lemma decode_ident_bits (i : Z) (x0 x1 x2 x3 x4 x5 x6 x7 : ascii) (rest : str) :
  forallb plain [x0; x1; x2; x3; x4; x5; x6; x7] = true -> length rest = 6%nat ->
  _decode_callsign
    (fixed_digits 16 true 22
       (value 2 (ident_bits i (AS.char_code x0) (AS.char_code x1) (AS.char_code x2)
                   (AS.char_code x3) (AS.char_code x4) (AS.char_code x5)
                   (AS.char_code x6) (AS.char_code x7))) ++ rest)
  = Some (strip [x0; x1; x2; x3; x4; x5; x6; x7]).
Proof.
  intros Hp Hr.
  set (bits := ident_bits _ _ _ _ _ _ _ _ _).
  assert (Hl : length bits = 88%nat) by (unfold bits, ident_bits; lengths).
  assert (Hd : digit_str 2 bits).
  { unfold bits, ident_bits. digit_strs. constructor. }
  unfold _decode_callsign. cbn [seq fold_left].
  rewrite !(callsign_char_bits bits rest) by (assumption || lia).
  cbn [Nat.add Nat.mul].
  pose proof Hp as Hq. cbn [forallb] in Hq.
  repeat (apply andb_prop in Hq; destruct Hq as [? Hq]).
  unfold bits, ident_bits.
  slice_is 40%nat 46%nat 6%nat (AS.char_code x0).
  slice_is 46%nat 52%nat 6%nat (AS.char_code x1).
  slice_is 52%nat 58%nat 6%nat (AS.char_code x2).
  slice_is 58%nat 64%nat 6%nat (AS.char_code x3).
  slice_is 64%nat 70%nat 6%nat (AS.char_code x4).
  slice_is 70%nat 76%nat 6%nat (AS.char_code x5).
  slice_is 76%nat 82%nat 6%nat (AS.char_code x6).
  slice_is 82%nat 88%nat 6%nat (AS.char_code x7).
  rewrite !value_fixed6 by apply char_code_range.
  rewrite !char_code_charset by assumption.
  cbn [app]. f_equal. apply remove_hash_plain. now apply forallb_strip.
Qed.

Ltac codes_to_fixed :=
  repeat match goal with
  | |- context [format_b 6 (AS.char_code ?x)] =>
      rewrite (format_b_fixed 6 (AS.char_code x))
        by (lia || (change (2 ^ Z.of_nat 6) with 64; apply char_code_range))
  end.

Lemma ident_bits_shape (i : Z) (c0 c1 c2 c3 c4 c5 c6 c7 : Z) :
  exists t, ident_bits i c0 c1 c2 c3 c4 c5 c6 c7 = "1"%char :: t
            /\ digit_str 2 (ident_bits i c0 c1 c2 c3 c4 c5 c6 c7)
            /\ length (ident_bits i c0 c1 c2 c3 c4 c5 c6 c7) = 88%nat.
Proof.
  eexists. split; [|split].
  - unfold ident_bits. reflexivity.
  - unfold ident_bits. digit_strs. constructor.
  - unfold ident_bits. lengths.
Qed.

Lemma as_encode_ident (icao : str) (i : Z) (x0 x1 x2 x3 x4 x5 x6 x7 : ascii) (callsign : str) :
  valid_icao icao i -> padded callsign = [x0; x1; x2; x3; x4; x5; x6; x7] ->
  AS.encode_callsign icao callsign
  = AS.finish 16 (ident_bits i (AS.char_code x0) (AS.char_code x1) (AS.char_code x2)
                    (AS.char_code x3) (AS.char_code x4) (AS.char_code x5)
                    (AS.char_code x6) (AS.char_code x7)).
Proof.
  intros [Hi Hr] Hp. unfold AS.encode_callsign. cbv zeta. rewrite Hi.
  change (upper (firstn 8 (callsign ++ py "        "))) with (padded callsign).
  rewrite Hp. cbn [map flat_map]. codes_to_fixed. to_fixed. reflexivity.
Qed.

Lemma sa_encode_ident (icao : str) (i : Z) (x0 x1 x2 x3 x4 x5 x6 x7 : ascii) (callsign : str) :
  valid_icao icao i -> padded callsign = [x0; x1; x2; x3; x4; x5; x6; x7] ->
  SA.encode_callsign icao callsign
  = SA.finish 16 (ident_bits i (AS.char_code x0) (AS.char_code x1) (AS.char_code x2)
                    (AS.char_code x3) (AS.char_code x4) (AS.char_code x5)
                    (AS.char_code x6) (AS.char_code x7)).
Proof.
  intros [Hi Hr] Hp. unfold SA.encode_callsign. cbv zeta. rewrite Hi.
  replace (map SA.char_code (firstn 8 (callsign ++ py "        ")))
    with (map AS.char_code (padded callsign))
    by (unfold padded, upper; rewrite map_map; reflexivity).
  rewrite Hp. cbn [map flat_map]. codes_to_fixed. to_fixed. reflexivity.
Qed.

(** X6. Callsign round trip: for a 24-bit ICAO address and a callsign
    whose first eight characters (after padding with spaces and
    upper-casing) are capital letters, digits and spaces,
    [encode_callsign] of aircraft_simulator.py and of send_adsb.py return
    a 28-character frame from which [_decode_callsign] of the receivers
    returns those eight characters without the spaces at either end. *)
Theorem callsign_round_trip (icao callsign : str) (i : Z) :
  valid_icao icao i -> forallb plain (padded callsign) = true ->
  (exists frame,
      AS.encode_callsign icao callsign = Some frame /\ length frame = 28%nat
      /\ _decode_callsign frame = Some (strip (padded callsign)))
  /\ (exists frame,
        SA.encode_callsign icao callsign = Some frame /\ length frame = 28%nat
        /\ _decode_callsign frame = Some (strip (padded callsign))).
Proof.
  intros Hi Hp.
  pose proof (length_padded callsign) as Hl.
  destruct (padded callsign) as [|x0 [|x1 [|x2 [|x3 [|x4 [|x5 [|x6 [|x7 [|]]]]]]]]] eqn:E;
    try discriminate Hl.
  destruct (ident_bits_shape i (AS.char_code x0) (AS.char_code x1) (AS.char_code x2)
              (AS.char_code x3) (AS.char_code x4) (AS.char_code x5)
              (AS.char_code x6) (AS.char_code x7)) as (t & Hh & Hd & Hb).
  split.
  - destruct (as_finish_frame 16 _ t ltac:(lia) Hh Hd Hb) as (rest & Hf & Hr & _).
    eexists. split; [|split].
    + rewrite (as_encode_ident icao i _ _ _ _ _ _ _ _ callsign Hi E). exact Hf.
    + rewrite length_app, length_fixed_digits, Hr. reflexivity.
    + now apply decode_ident_bits.
  - destruct (sa_finish_frame 16 _ t ltac:(lia) Hh Hd Hb) as (rest & Hf & Hr & _).
    eexists. split; [|split].
    + rewrite (sa_encode_ident icao i _ _ _ _ _ _ _ _ callsign Hi E). exact Hf.
    + rewrite length_app, length_fixed_digits, Hr. reflexivity.
    + now apply decode_ident_bits.
Qed.

Lemma callsign_round_trip_witness :
  (exists frame,
      AS.encode_callsign (py "4840d6") (py "klm 1023x") = Some frame
      /\ length frame = 28%nat
      /\ _decode_callsign frame = Some (py "KLM 1023"))
  /\ (exists frame,
        SA.encode_callsign (py "4840d6") (py "klm 1023x") = Some frame
        /\ length frame = 28%nat
        /\ _decode_callsign frame = Some (py "KLM 1023")).
Proof.
  apply (callsign_round_trip (py "4840d6") (py "klm 1023x") 0x4840D6).
  - split; [reflexivity|lia].
  - reflexivity.
Defined.

End CallsignFacts.

Module DeliveryFacts.
Import Py PyFloat Json Receiver Notions.
Import PyFacts CrcFacts EncoderFacts Evaluations DictFacts ViewFacts.
Import ProcessFacts BeastFacts FrameFacts PositionFacts TrackerFacts VelocityFacts.
Import ReceiverFacts LayoutFacts HexFacts CallsignFacts.

(** The hex characters [a] to [b] of a frame are the bits [4 a] to [4 b]
    of its bit string. *)
Lemma hex_chars_as_bits (bits rest : str) (a b : nat) :
  digit_str 2 bits -> length bits = 88%nat -> (a < b <= 22)%nat ->
  slice a b (fixed_digits 16 true 22 (value 2 bits) ++ rest)
  = fixed_digits 16 true (b - a) (value 2 (slice (4 * a) (4 * b) bits)).
Proof.
  intros Hd Hl Ha.
  assert (E1 : forall x, fixed_digits 16 true 22 x
                         = fixed_digits 16 true b (x / 16 ^ Z.of_nat (22 - b))
                           ++ fixed_digits 16 true (22 - b) x).
  { intros x. rewrite <- fixed_digits_split by lia. f_equal. lia. }
  assert (E2 : forall x, fixed_digits 16 true b x
                         = fixed_digits 16 true a (x / 16 ^ Z.of_nat (b - a))
                           ++ fixed_digits 16 true (b - a) x).
  { intros x. rewrite <- fixed_digits_split by lia. f_equal. lia. }
  rewrite E1, E2.
  rewrite <- !app_assoc.
  rewrite (slice_app_skip _ _ a) by (rewrite ?length_fixed_digits; lia).
  replace (a - a)%nat with 0%nat by lia.
  rewrite (slice_app_take _ _ (b - a)) by apply length_fixed_digits.
  rewrite <- (fixed_digits_mod 16 true (b - a)) by lia. f_equal.
  rewrite bits_field by (assumption || lia). rewrite Hl.
  replace (4 * b - 4 * a)%nat with (4 * (b - a))%nat by lia.
  replace (88 - 4 * b)%nat with (4 * (22 - b))%nat by lia.
  rewrite !Nat2Z.inj_mul, !Z.pow_mul_r by lia. reflexivity.
Qed.

Lemma hex_as_bits (bits rest : str) (a b : nat) :
  digit_str 2 bits -> length bits = 88%nat -> (a < b <= 22)%nat ->
  parse_int 16 (slice a b (fixed_digits 16 true 22 (value 2 bits) ++ rest))
  = Some (value 2 (slice (4 * a) (4 * b) bits)).
Proof.
  intros Hd Hl Ha. rewrite hex_chars_as_bits by assumption.
  rewrite parse_fixed_hex by lia. f_equal. apply Z.mod_small.
  assert (Hs : digit_str 2 (slice (4 * a) (4 * b) bits)).
  { unfold slice. now apply digit_str_firstn, digit_str_skipn. }
  pose proof (value_nonneg 2 _ ltac:(lia) Hs) as B.
  replace (length (slice (4 * a) (4 * b) bits)) with (4 * (b - a))%nat in B
    by (unfold slice; rewrite length_firstn, length_skipn; lia).
  rewrite Nat2Z.inj_mul, Z.pow_mul_r in B by lia. exact B.
Qed.

Lemma me_bin_as_bits (bits rest : str) :
  digit_str 2 bits -> length bits = 88%nat ->
  me_bin_of (fixed_digits 16 true 22 (value 2 bits) ++ rest) = Some (skipn 32 bits).
Proof.
  intros Hd Hl. unfold me_bin_of.
  rewrite (hex_as_bits bits rest 8 22 Hd Hl) by lia. cbn [Nat.mul Nat.add Nat.sub].
  assert (Hs : slice 32 88 bits = skipn 32 bits).
  { unfold slice. apply firstn_all2. rewrite length_skipn. lia. }
  rewrite Hs.
  assert (Hd' : digit_str 2 (skipn 32 bits)) by now apply digit_str_skipn.
  assert (Hl' : length (skipn 32 bits) = 56%nat) by (rewrite length_skipn; lia).
  pose proof (value_nonneg 2 _ ltac:(lia) Hd') as B. rewrite Hl' in B.
  f_equal. rewrite format_b_fixed by (lia || exact B).
  rewrite <- Hl'. now apply fixed_digits_value.
Qed.

(** What the receivers read at the head of a frame of the encoders. *)
Lemma frame_header (i tc : Z) (tail rest : str) :
  0 <= i < 2 ^ 24 -> 0 <= tc < 32 ->
  digit_str 2 tail -> length tail = 51%nat -> length rest = 6%nat ->
  let frame := fixed_digits 16 true 22 (value 2 (header i tc ++ tail)) ++ rest in
  length frame = 28%nat
  /\ df_of frame = Some 17
  /\ slice 2 8 frame = fixed_digits 16 true 6 i
  /\ tc_of frame = Some tc
  /\ me_bin_of frame = Some (fixed_digits 2 false 5 tc ++ tail).
Proof.
  intros Hi Htc Hd Hl Hr frame. subst frame.
  set (bits := header i tc ++ tail).
  assert (Hb : length bits = 88%nat) by (unfold bits, header; lengths).
  assert (Hdb : digit_str 2 bits) by (unfold bits, header; digit_strs; assumption).
  split; [rewrite length_app, length_fixed_digits, Hr; reflexivity|].
  split; [|split; [|split]].
  - unfold df_of. rewrite (hex_as_bits bits rest 0 2 Hdb Hb) by lia. cbn [Nat.mul Nat.add Nat.sub].
    unfold bits, header. rewrite <- !app_assoc.
    assert (E : slice 0 8 (fixed_digits 2 false 5 17 ++ fixed_digits 2 false 3 5
                           ++ fixed_digits 2 false 24 i ++ fixed_digits 2 false 5 tc ++ tail)
                = fixed_digits 2 false 5 17 ++ fixed_digits 2 false 3 5).
    { rewrite app_assoc. apply slice_app_take. lengths. }
    rewrite E. reflexivity.
  - rewrite (hex_chars_as_bits bits rest 2 8 Hdb Hb) by lia. cbn [Nat.mul Nat.add Nat.sub].
    f_equal. unfold bits, header. rewrite <- !app_assoc.
    slice_is 8%nat 32%nat 24%nat i.
    rewrite value_fixed_digits by lia. apply Z.mod_small. cbn. lia.
  - unfold tc_of. rewrite (hex_as_bits bits rest 8 10 Hdb Hb) by lia. cbn [Nat.mul Nat.add Nat.sub].
    unfold bits, header. rewrite <- !app_assoc.
    assert (E : slice 32 40 (fixed_digits 2 false 5 17 ++ fixed_digits 2 false 3 5
                             ++ fixed_digits 2 false 24 i ++ fixed_digits 2 false 5 tc ++ tail)
                = fixed_digits 2 false 5 tc ++ firstn 3 tail).
    { repeat (rewrite (slice_app_skip _ _ _ _ _ (length_fixed_digits _ _ _ _)) by lia;
              cbn [Nat.sub]).
      unfold slice. cbn [skipn Nat.sub]. rewrite firstn_app, length_fixed_digits.
      rewrite firstn_all2 by (rewrite length_fixed_digits; lia). reflexivity. }
    rewrite E, value_app.
    assert (H3 : digit_str 2 (firstn 3 tail)) by now apply digit_str_firstn.
    pose proof (value_nonneg 2 _ ltac:(lia) H3) as B3.
    rewrite length_firstn, Hl in *. change (Z.of_nat (Nat.min 3 51)) with 3 in *.
    rewrite value_fixed_digits by lia. rewrite Z.mod_small by (cbn; lia).
    f_equal. rewrite Z.shiftr_div_pow2 by lia.
    change (2 ^ 3) with 8 in *. Z.div_mod_to_equations; lia.
  - rewrite me_bin_as_bits by assumption. f_equal.
Qed.

(** [_process_message] of atc_army_offline.py on a frame it accepts. *)
Lemma army_process_df17 (M : pymath) (fuel : nat) (frame : str) (tc : Z) (now t : float)
  (d : dict Army.received) :
  length frame = 28%nat -> df_of frame = Some 17 -> tc_of frame = Some tc ->
  ArmyR._process_message M fuel frame now t d
  = (ac <- ArmyR.dispatch M fuel frame tc (touched d (slice 2 8 frame) now) t ;;
     Some (dict_set d (slice 2 8 frame) ac)).
Proof.
  intros Hl Hdf Htc. unfold ArmyR._process_message, df_of, tc_of in *.
  rewrite Hl. cbn [Nat.eqb negb].
  destruct (parse_int 16 (slice 0 2 frame)) as [fb|]; [|discriminate].
  injection Hdf as Hdf. rewrite Hdf. cbn [Z.eqb Pos.eqb negb].
  destruct (parse_int 16 (slice 8 10 frame)) as [mb|]; [|discriminate].
  injection Htc as Htc. rewrite Htc. reflexivity.
Qed.

Lemma ident_bits_header (i c0 c1 c2 c3 c4 c5 c6 c7 : Z) :
  ident_bits i c0 c1 c2 c3 c4 c5 c6 c7
  = header i 4
    ++ (fixed_digits 2 false 3 0
        ++ fixed_digits 2 false 6 c0 ++ fixed_digits 2 false 6 c1
        ++ fixed_digits 2 false 6 c2 ++ fixed_digits 2 false 6 c3
        ++ fixed_digits 2 false 6 c4 ++ fixed_digits 2 false 6 c5
        ++ fixed_digits 2 false 6 c6 ++ fixed_digits 2 false 6 c7 ++ []).
Proof. unfold ident_bits, header. now rewrite <- !app_assoc. Qed.

(** Both receivers on an ident frame with a callsign that is not blank. *)
Lemma ident_frame_processed (M : pymath) (fuel : nat) (i : Z)
  (x0 x1 x2 x3 x4 x5 x6 x7 : ascii) (rest : str) (now t : float)
  (d : dict Army.received) (d9 : dict Deb.received) :
  0 <= i < 2 ^ 24 ->
  forallb plain [x0; x1; x2; x3; x4; x5; x6; x7] = true ->
  strip [x0; x1; x2; x3; x4; x5; x6; x7] <> [] -> length rest = 6%nat ->
  let frame :=
    fixed_digits 16 true 22
      (value 2 (ident_bits i (AS.char_code x0) (AS.char_code x1) (AS.char_code x2)
                  (AS.char_code x3) (AS.char_code x4) (AS.char_code x5)
                  (AS.char_code x6) (AS.char_code x7))) ++ rest in
  let key := fixed_digits 16 true 6 i in
  let cs := strip [x0; x1; x2; x3; x4; x5; x6; x7] in
  ArmyR._process_message M fuel frame now t d
  = Some (dict_set d key (ArmyR.set_callsign (touched d key now) cs))
  /\ DebR._process_message M fuel frame now d9
     = Some (dict_set d9 key (DebR.set_callsign (touched9 d9 key now) cs)).
Proof.
  intros Hi Hp Hne Hr frame key cs.
  pose proof (decode_ident_bits i x0 x1 x2 x3 x4 x5 x6 x7 rest Hp Hr) as Hdec.
  fold frame cs in Hdec.
  assert (Hh : length frame = 28%nat /\ df_of frame = Some 17
               /\ slice 2 8 frame = key /\ tc_of frame = Some 4
               /\ exists tail, me_bin_of frame = Some (fixed_digits 2 false 5 4 ++ tail)).
  { unfold frame. rewrite ident_bits_header.
    match goal with |- context [header i 4 ++ ?tl] =>
      destruct (frame_header i 4 tl rest Hi ltac:(lia)) as (H1 & H2 & H3 & H4 & H5);
        [digit_strs; constructor|lengths|exact Hr|]
    end.
    repeat split; try assumption. eexists. exact H5. }
  destruct Hh as (Hl & Hdf & Hk & Htc & tail & Hme).
  split.
  - rewrite (army_process_df17 M fuel frame 4 now t d Hl Hdf Htc), Hk.
    unfold ArmyR.dispatch. cbn [Z.leb Z.compare Pos.compare Pos.compare_cont andb].
    rewrite Hdec. fold cs in Hne. destruct cs; [congruence|reflexivity].
  - unfold DebR._process_message. cbv zeta. rewrite Hk. fold (touched9 d9 key now).
    unfold DebR.dispatch. rewrite Hme.
    rewrite (slice_app_take _ _ 5) by apply length_fixed_digits.
    change (parse_int 2 (fixed_digits 2 false 5 4)) with (Some 4).
    cbn [Z.leb Z.compare Pos.compare Pos.compare_cont andb].
    rewrite Hdec. fold cs in Hne. destruct cs; [congruence|reflexivity].
Qed.

(** X7. An ident frame of either encoder, handed to [_process_message]:
    both receivers key the sender's entry by the six upper-case hex digits
    of its address, create it if it is new, set its [last_seen] to the time
    of reception and its callsign to the decoded one, and leave the rest of
    the map as it is. *)
Theorem ident_delivered (M : pymath) (fuel : nat) (icao callsign : str) (i : Z)
  (now t : float) (d : dict Army.received) (d9 : dict Deb.received) :
  valid_icao icao i -> forallb plain (padded callsign) = true ->
  strip (padded callsign) <> [] ->
  let key := fixed_digits 16 true 6 i in
  let cs := strip (padded callsign) in
  forall frame,
    AS.encode_callsign icao callsign = Some frame
    \/ SA.encode_callsign icao callsign = Some frame ->
    ArmyR._process_message M fuel frame now t d
    = Some (dict_set d key (ArmyR.set_callsign (touched d key now) cs))
    /\ DebR._process_message M fuel frame now d9
       = Some (dict_set d9 key (DebR.set_callsign (touched9 d9 key now) cs)).
Proof.
  intros Hi Hp Hne key cs frame Hf.
  pose proof (length_padded callsign) as Hl.
  unfold cs in *. clear cs.
  destruct (padded callsign) as [|x0 [|x1 [|x2 [|x3 [|x4 [|x5 [|x6 [|x7 [|]]]]]]]]] eqn:E;
    try discriminate Hl.
  destruct (ident_bits_shape i (AS.char_code x0) (AS.char_code x1) (AS.char_code x2)
              (AS.char_code x3) (AS.char_code x4) (AS.char_code x5)
              (AS.char_code x6) (AS.char_code x7)) as (tl & Hh & Hd & Hb).
  assert (Hs : exists rest,
             frame = fixed_digits 16 true 22
                       (value 2 (ident_bits i (AS.char_code x0) (AS.char_code x1)
                                   (AS.char_code x2) (AS.char_code x3) (AS.char_code x4)
                                   (AS.char_code x5) (AS.char_code x6) (AS.char_code x7)))
                     ++ rest
             /\ length rest = 6%nat).
  { destruct Hf as [Hf|Hf].
    - destruct (as_finish_frame 16 _ tl ltac:(lia) Hh Hd Hb) as (rest & Hfr & Hr & _).
      rewrite (as_encode_ident icao i _ _ _ _ _ _ _ _ callsign Hi E), Hfr in Hf.
      injection Hf as <-. now exists rest.
    - destruct (sa_finish_frame 16 _ tl ltac:(lia) Hh Hd Hb) as (rest & Hfr & Hr & _).
      rewrite (sa_encode_ident icao i _ _ _ _ _ _ _ _ callsign Hi E), Hfr in Hf.
      injection Hf as <-. now exists rest. }
  destruct Hs as (rest & -> & Hr).
  apply ident_frame_processed; try assumption. apply Hi.
Qed.

Lemma ident_delivered_witness :
  ArmyR._process_message no_math 0 klm_frame 5 5 []
  = Some [(py "4840D6",
           ArmyR.set_callsign (ArmyR.new_aircraft (py "4840D6") 5) (py "KLM1023"))]
  /\ DebR._process_message no_math 0 klm_frame 5 []
     = Some [(py "4840D6",
              DebR.set_callsign (DebR.new_aircraft (py "4840D6") 5) (py "KLM1023"))].
Proof.
  apply (ident_delivered no_math 0 (py "4840d6") (py "KLM1023") 0x4840D6 5 5 [] []).
  - split; [reflexivity|lia].
  - reflexivity.
  - vm_compute. discriminate.
  - left. vm_compute. reflexivity.
Defined.

End DeliveryFacts.

Module StorageFacts.
Import Py PyFloat Json Receiver Notions.
Import PyFacts CrcFacts EncoderFacts Evaluations DictFacts ViewFacts.
Import ProcessFacts BeastFacts FrameFacts PositionFacts TrackerFacts VelocityFacts.
Import ReceiverFacts LayoutFacts HexFacts CallsignFacts DeliveryFacts.

Lemma header_shape (i tc : Z) (tail : str) :
  digit_str 2 tail -> length tail = 51%nat ->
  exists t, header i tc ++ tail = "1"%char :: t
            /\ digit_str 2 (header i tc ++ tail)
            /\ length (header i tc ++ tail) = 88%nat.
Proof.
  intros Hd Hl. eexists. split; [|split].
  - unfold header. reflexivity.
  - unfold header. digit_strs. assumption.
  - unfold header. lengths.
Qed.

(** The frame [finish] of aircraft_simulator.py makes of a header and 51
    more bits, and what the receivers read at its head. *)
Lemma as_finish_header (i tc : Z) (tail : str) :
  0 <= i < 2 ^ 24 -> 0 <= tc < 32 -> digit_str 2 tail -> length tail = 51%nat ->
  exists frame,
    AS.finish 22 (header i tc ++ tail) = Some frame
    /\ length frame = 28%nat
    /\ df_of frame = Some 17
    /\ slice 2 8 frame = fixed_digits 16 true 6 i
    /\ tc_of frame = Some tc
    /\ me_bin_of frame = Some (fixed_digits 2 false 5 tc ++ tail).
Proof.
  intros Hi Htc Hd Hl.
  destruct (header_shape i tc tail Hd Hl) as (t & Hh & Hdb & Hlb).
  destruct (as_finish_frame 22 _ t ltac:(lia) Hh Hdb Hlb) as (rest & Hf & Hr & _).
  eexists. split; [exact Hf|].
  now apply frame_header.
Qed.

Lemma as_velocity_frame_header (icao : str) (i s1 e1 s2 e2 vs ve : Z) :
  valid_icao icao i ->
  (s1 = 0 \/ s1 = 1) -> (s2 = 0 \/ s2 = 1) -> (vs = 0 \/ vs = 1) ->
  0 <= e1 < 1024 -> 0 <= e2 < 1024 -> 0 <= ve < 512 ->
  exists tail,
    AS.velocity_frame icao s1 e1 s2 e2 vs ve = AS.finish 22 (header i 19 ++ tail)
    /\ digit_str 2 tail /\ length tail = 51%nat.
Proof.
  intros [Hi Hr] H1 H2 H3 He1 He2 Hve.
  unfold AS.velocity_frame. rewrite Hi. cbv zeta. to_fixed.
  match goal with |- context [Nat.eqb (length ?mb) 88] =>
    assert (Hl : length mb = 88%nat) by lengths; rewrite Hl; cbn [Nat.eqb]
  end.
  match goal with |- context [repeat "0"%char ?n] =>
    replace n with 7%nat by (lengths; reflexivity)
  end.
  eexists. split; [|split]; cycle 1.
  - shelve.
  - shelve.
  - unfold header. rewrite <- !app_assoc. reflexivity.
  Unshelve.
  + digit_strs.
  + lengths.
Qed.

(** X8. A velocity frame of aircraft_simulator.py, handed to
    [_process_message]: both receivers create the sender's entry if it is
    new, set its [last_seen], and store as its speed and heading what
    [_decode_velocity] computes from the truncated east and north
    components (each is left as it was if the computation raises). *)
Theorem velocity_delivered (M : pymath) (fuel : nat) (icao : str) (i : Z)
  (speed heading : float) (vr : Z) (s c : float) (ew ns : Z) (now t : float)
  (d : dict Army.received) (d9 : dict Deb.received) :
  valid_icao icao i -> Z.abs vr < 8192 ->
  math_sin M (math_radians heading) = Some s ->
  math_cos M (math_radians heading) = Some c ->
  AS.magnitude (speed * s) = Some ew ->
  AS.magnitude (speed * c) = Some ns ->
  let key := fixed_digits 16 true 6 i in
  let v := reported M (signed (AS.sign_bit (speed * s)) (Z.min ew 1022))
                      (signed (AS.sign_bit (speed * c)) (Z.min ns 1022)) in
  exists frame,
    AS.encode_velocity M icao speed heading vr = Some frame
    /\ ArmyR._process_message M fuel frame now t d
       = Some (dict_set d key (ArmyR.set_velocity (touched d key now) (fst v) (snd v)))
    /\ DebR._process_message M fuel frame now d9
       = Some (dict_set d9 key (DebR.set_velocity (touched9 d9 key now) (fst v) (snd v))).
Proof.
  intros Hi Hvr Hs Hc Hew Hns key v.
  destruct (vr_field_range vr Hvr) as (ve & Hve & Hr).
  pose proof (magnitude_nonneg _ _ Hew) as Pew.
  pose proof (magnitude_nonneg _ _ Hns) as Pns.
  assert (Hvs : (if 0 <=? vr then 0 else 1) = 0 \/ (if 0 <=? vr then 0 else 1) = 1)
    by (destruct (0 <=? vr); auto).
  destruct (as_velocity_fields icao i
              (AS.sign_bit (speed * s)) (Z.min (ew + 1) 1023)
              (AS.sign_bit (speed * c)) (Z.min (ns + 1) 1023)
              (if 0 <=? vr then 0 else 1) ve Hi
              (sign_bit_cases _) (sign_bit_cases _) Hvs)
    as (frame & Hf & Hl & Hv); try lia.
  destruct (as_velocity_frame_header icao i
              (AS.sign_bit (speed * s)) (Z.min (ew + 1) 1023)
              (AS.sign_bit (speed * c)) (Z.min (ns + 1) 1023)
              (if 0 <=? vr then 0 else 1) ve Hi
              (sign_bit_cases _) (sign_bit_cases _) Hvs)
    as (tail & Hsh & Hdt & Hlt); try lia.
  destruct (as_finish_header i 19 tail (proj2 Hi) ltac:(lia) Hdt Hlt)
    as (frame' & Hf' & _ & Hdf & Hk & Htc & Hme).
  rewrite Hsh, Hf' in Hf. injection Hf as ->.
  replace (Z.min (ew + 1) 1023 - 1) with (Z.min ew 1022) in Hv by lia.
  replace (Z.min (ns + 1) 1023 - 1) with (Z.min ns 1022) in Hv by lia.
  assert (Hdec : _decode_velocity M frame = v).
  { unfold _decode_velocity, v, reported. now rewrite Hv. }
  exists frame. split; [|split].
  - unfold AS.encode_velocity. cbv zeta. rewrite Hs, Hc, Hew, Hns, Hve, Hsh. exact Hf'.
  - rewrite (army_process_df17 M fuel frame 19 now t d Hl Hdf Htc), Hk.
    unfold ArmyR.dispatch. cbn [Z.leb Z.compare Pos.compare Pos.compare_cont andb Z.eqb Pos.eqb].
    rewrite Hdec. now destruct v.
  - unfold DebR._process_message. cbv zeta. rewrite Hk. fold (touched9 d9 key now).
    unfold DebR.dispatch. rewrite Hme.
    rewrite (slice_app_take _ _ 5) by apply length_fixed_digits.
    change (parse_int 2 (fixed_digits 2 false 5 19)) with (Some 19).
    cbn [Z.leb Z.compare Pos.compare Pos.compare_cont andb Z.eqb Pos.eqb].
    rewrite Hdec. now destruct v.
Qed.

Lemma velocity_delivered_witness :
  exists frame,
    AS.encode_velocity libm_sample (py "40621D") 7 45.5 0 = Some frame
    /\ ArmyR._process_message libm_sample 0 frame 5 5 []
       = Some [(py "40621D",
                ArmyR.set_velocity (ArmyR.new_aircraft (py "40621D") 5)
                  (Some (PrimFloat.sqrt 32)) (Some 45%float))]
    /\ DebR._process_message libm_sample 0 frame 5 []
       = Some [(py "40621D",
                DebR.set_velocity (DebR.new_aircraft (py "40621D") 5)
                  (Some (PrimFloat.sqrt 32)) (Some 45%float))].
Proof.
  apply (velocity_delivered libm_sample 0 (py "40621D") 0x40621D 7 45.5 0
           0x1.6d2f29b1f2f46p-1 0x1.66dd943f43372p-1 4 4 5 5 [] []).
  - split; [reflexivity|lia].
  - simpl. lia.
  - reflexivity.
  - reflexivity.
  - reflexivity.
  - reflexivity.
Defined.

Lemma dict_get_set_same {V : Type} (d : dict V) (k : str) (v : V) :
  dict_get (dict_set d k v) k = Some v.
Proof.
  induction d as [|[k' v'] d IH]; simpl.
  - now rewrite str_eqb_refl.
  - destruct (str_eqb k' k) eqn:E; simpl; now rewrite E.
Qed.

Lemma dict_get_set_other {V : Type} (d : dict V) (k k0 : str) (v : V) :
  k0 <> k -> dict_get (dict_set d k v) k0 = dict_get d k0.
Proof.
  intros Hne. induction d as [|[k' v'] d IH]; simpl.
  - destruct (str_eqb k k0) eqn:E; [|reflexivity].
    apply str_eqb_eq in E. congruence.
  - destruct (str_eqb k' k) eqn:E; simpl.
    + apply str_eqb_eq in E. subst k'.
      destruct (str_eqb k k0) eqn:E0; [|reflexivity].
      apply str_eqb_eq in E0. congruence.
    + destruct (str_eqb k' k0); [reflexivity|exact IH].
Qed.

Lemma as_position_frame_header (icao : str) (i N F lat_cpr lon_cpr : Z) :
  valid_icao icao i -> 0 <= N < 2048 -> (F = 0 \/ F = 1) ->
  0 <= lat_cpr < 2 ^ 17 -> 0 <= lon_cpr < 2 ^ 17 ->
  exists tail,
    AS.position_frame icao N F lat_cpr lon_cpr = AS.finish 22 (header i 11 ++ tail)
    /\ digit_str 2 tail /\ length tail = 51%nat.
Proof.
  intros [Hi Hr] HN HF Hlat Hlon.
  unfold AS.position_frame. rewrite Hi. cbv zeta.
  rewrite as_alt_field_fixed by assumption. to_fixed.
  match goal with |- context [Nat.eqb (length ?mb) 88] =>
    assert (Hl : length mb = 88%nat) by lengths; rewrite Hl; cbn [Nat.eqb]
  end.
  eexists. split; [|split]; cycle 1.
  - shelve.
  - shelve.
  - unfold header. rewrite <- !app_assoc. reflexivity.
  Unshelve.
  + digit_strs.
  + lengths.
Qed.

(** Whatever else [_decode_position] of atc_army_offline.py does, it
    stores the fragment it read. *)
Lemma army_decode_position_stores (M : pymath) (fuel : nat) (frame : str)
  (ac ac' : Army.received) (t : float) (alt la lo F : Z) r :
  ArmyR.position_fields frame = Some (alt, la, lo, F) ->
  ArmyR._decode_position M fuel frame ac t = Some (ac', r) ->
  ac' = ArmyR.store_fragment ac F la lo t.
Proof.
  intros Hp. unfold ArmyR._decode_position. rewrite Hp. cbv zeta.
  destruct (Army.position_even _) as [ev|]; [|now intros [= <- _]].
  destruct (Army.position_odd _) as [od|]; [|now intros [= <- _]].
  destruct (PrimFloat.ltb _ _); [now intros [= <- _]|].
  destruct (ArmyR.global_decode M fuel ev od) as [[[x y]|]| |]; try discriminate;
    now intros [= <- _].
Qed.

(** X9. A position frame of aircraft_simulator.py, handed to
    [_process_message] of atc_army_offline.py. If the sender has no
    fragment of the other parity, the call returns and the sender's entry
    is the one it had (or a new one), with [last_seen] set and the two CPR
    values of the frame and the time of reception stored under the parity
    the encoder was given. In every case in which the call returns, the
    entry holds that fragment, the fragment of the other parity is the one
    it had, and [last_seen] is the time of the message. *)
Theorem position_fragment_stored (M : pymath) (fuel : nat) (icao : str)
  (i N F lat_cpr lon_cpr : Z) (now t : float) (d : dict Army.received) :
  valid_icao icao i -> 0 <= N < 2048 -> (F = 0 \/ F = 1) ->
  0 <= lat_cpr < 2 ^ 17 -> 0 <= lon_cpr < 2 ^ 17 ->
  let key := fixed_digits 16 true 6 i in
  exists frame,
    AS.position_frame icao N F lat_cpr lon_cpr = Some frame
    /\ (fragment (1 - F) (touched d key now) = None ->
        ArmyR._process_message M fuel frame now t d
        = Some (dict_set d key
                  (ArmyR.store_fragment (touched d key now) F lat_cpr lon_cpr t)))
    /\ (forall d',
          ArmyR._process_message M fuel frame now t d = Some d' ->
          exists ac,
            dict_get d' key = Some ac
            /\ fragment F ac = Some (lat_cpr, lon_cpr, t)
            /\ fragment (1 - F) ac = fragment (1 - F) (touched d key now)
            /\ Army.last_seen ac = now).
Proof.
  intros Hi HN HF Hlat Hlon key.
  destruct (as_position_fields icao i N F lat_cpr lon_cpr Hi HN HF Hlat Hlon)
    as (frame & me & Hf & Hl & Hme & Hrd).
  destruct (as_position_frame_header icao i N F lat_cpr lon_cpr Hi HN HF Hlat Hlon)
    as (tail & Hsh & Hdt & Hlt).
  destruct (as_finish_header i 11 tail (proj2 Hi) ltac:(lia) Hdt Hlt)
    as (frame' & Hf' & _ & Hdf & Hk & Htc & _).
  rewrite Hsh, Hf' in Hf. injection Hf as ->.
  exists frame. split; [now rewrite Hsh|].
  rewrite (army_process_df17 M fuel frame 11 now t d Hl Hdf Htc), Hk. fold key.
  pose proof (army_position_fields frame me _ F lat_cpr lon_cpr Hme Hrd) as Hpf.
  unfold ArmyR.dispatch. cbn [Z.leb Z.compare Pos.compare Pos.compare_cont andb].
  split.
  - intros Hnone. unfold ArmyR._decode_position. rewrite Hpf. cbv zeta.
    unfold fragment in Hnone.
    destruct HF as [-> | ->]; cbn in Hnone |- *; rewrite Hnone; reflexivity.
  - intros d'.
    destruct (ArmyR._decode_position M fuel frame (touched d key now) t)
      as [[ac1 [[la lo] alt]]|] eqn:E; [|discriminate].
    apply (army_decode_position_stores _ _ _ _ _ _ _ _ _ _ _ Hpf) in E. subst ac1.
    intros H.
    assert (Hd' : exists ac,
               d' = dict_set d key ac
               /\ Army.position_even ac
                  = Army.position_even
                      (ArmyR.store_fragment (touched d key now) F lat_cpr lon_cpr t)
               /\ Army.position_odd ac
                  = Army.position_odd
                      (ArmyR.store_fragment (touched d key now) F lat_cpr lon_cpr t)
               /\ Army.last_seen ac = now).
    { destruct la, lo; injection H as <-; eexists; repeat split; reflexivity. }
    destruct Hd' as (ac & -> & He & Ho & Hls).
    exists ac. split; [apply dict_get_set_same|].
    unfold fragment. rewrite He, Ho.
    cbn [ArmyR.store_fragment Army.position_even Army.position_odd].
    destruct HF as [-> | ->]; cbn; auto.
Qed.

Lemma position_fragment_stored_witness :
  exists frame,
    AS.position_frame (py "40621D") 1560 1 33860 0 = Some frame
    /\ ArmyR._process_message no_math 0 frame 5 7 []
       = Some [(py "40621D",
                ArmyR.store_fragment (ArmyR.new_aircraft (py "40621D") 5) 1 33860 0 7)].
Proof.
  destruct (position_fragment_stored no_math 0 (py "40621D") 0x40621D 1560 1 33860 0 5 7 [])
    as (frame & Hf & H1 & _).
  - split; [reflexivity|lia].
  - lia.
  - now right.
  - simpl; lia.
  - simpl; lia.
  - exists frame. split; [exact Hf|]. apply H1. reflexivity.
Defined.

End StorageFacts.

Module FootprintFacts.
Import Py PyFloat Json Receiver Notions.
Import PyFacts CrcFacts EncoderFacts Evaluations DictFacts ViewFacts.
Import ProcessFacts BeastFacts FrameFacts PositionFacts TrackerFacts VelocityFacts.
Import ReceiverFacts LayoutFacts HexFacts CallsignFacts DeliveryFacts StorageFacts.

Lemma army_process_cases (M : pymath) (fuel : nat) (msg : str) (now t : float)
  (d d' : dict Army.received) :
  ArmyR._process_message M fuel msg now t d = Some d' ->
  d' = d \/ exists tc ac,
              ArmyR.dispatch M fuel msg tc (touched d (slice 2 8 msg) now) t = Some ac
              /\ d' = dict_set d (slice 2 8 msg) ac.
Proof.
  unfold ArmyR._process_message.
  destruct (negb _); [intros [= <-]; now left|].
  destruct (parse_int 16 (slice 0 2 msg)); [|intros [= <-]; now left].
  destruct (negb _); [intros [= <-]; now left|].
  destruct (parse_int 16 (slice 8 10 msg)) as [mb|]; [|intros [= <-]; now left].
  cbv zeta. fold (touched d (slice 2 8 msg) now).
  destruct (ArmyR.dispatch _ _ _ _ _ _) as [ac|] eqn:E; [|discriminate].
  intros [= <-]. right. now exists (Z.shiftr mb 3), ac.
Qed.

Lemma debian9_process_cases (M : pymath) (fuel : nat) (msg : str) (now : float)
  (d d' : dict Deb.received) :
  DebR._process_message M fuel msg now d = Some d' ->
  exists ac, DebR.dispatch M fuel msg (touched9 d (slice 2 8 msg) now) = Some ac
             /\ d' = dict_set d (slice 2 8 msg) ac.
Proof.
  unfold DebR._process_message. cbv zeta. fold (touched9 d (slice 2 8 msg) now).
  destruct (DebR.dispatch _ _ _ _) as [ac|] eqn:E; [|discriminate].
  intros [= <-]. now exists ac.
Qed.

(** X10. A message changes at most the entry of its sender: after
    [_process_message] of either receiver, the entry under every other
    address is the one that was there before, and no entry is removed. *)
Theorem process_message_local :
  (forall (M : pymath) (fuel : nat) (msg : str) (now t : float)
          (d d' : dict Army.received) (k : str),
      ArmyR._process_message M fuel msg now t d = Some d' ->
      k <> slice 2 8 msg -> dict_get d' k = dict_get d k)
  /\ (forall (M : pymath) (fuel : nat) (msg : str) (now : float)
             (d d' : dict Deb.received) (k : str),
        DebR._process_message M fuel msg now d = Some d' ->
        k <> slice 2 8 msg -> dict_get d' k = dict_get d k).
Proof.
  split.
  - intros M fuel msg now t d d' k H Hk.
    destruct (army_process_cases _ _ _ _ _ _ _ H) as [->|(tc & ac & _ & ->)];
      [reflexivity|]. now apply dict_get_set_other.
  - intros M fuel msg now d d' k H Hk.
    destruct (debian9_process_cases _ _ _ _ _ _ H) as (ac & _ & ->).
    now apply dict_get_set_other.
Qed.

Lemma process_message_local_witness :
  dict_get [(py "40621D", old_ac);
            (py "4840D6", ArmyR.set_callsign (ArmyR.touch fresh_ac 50) (py "KLM1023"))]
    (py "40621D")
  = Some old_ac.
Proof.
  apply (proj1 process_message_local no_math 0%nat klm_frame 50%float 50%float
           (Army.received_aircraft sample_tracker)).
  - vm_compute. reflexivity.
  - vm_compute. discriminate.
Defined.

Lemma army_decode_position_last_seen (M : pymath) (fuel : nat) (msg : str)
  (ac ac' : Army.received) (t : float) r :
  ArmyR._decode_position M fuel msg ac t = Some (ac', r) ->
  Army.last_seen ac' = Army.last_seen ac.
Proof.
  unfold ArmyR._decode_position.
  destruct (ArmyR.position_fields msg) as [[[[a la] lo] tb]|]; [|now intros [= <- _]].
  cbv zeta.
  destruct (Army.position_even _) as [ev|]; [|now intros [= <- _]].
  destruct (Army.position_odd _) as [od|]; [|now intros [= <- _]].
  destruct (PrimFloat.ltb _ _); [now intros [= <- _]|].
  destruct (ArmyR.global_decode M fuel ev od) as [[[x y]|]| |]; try discriminate;
    now intros [= <- _].
Qed.

Lemma army_dispatch_last_seen (M : pymath) (fuel : nat) (msg : str) (tc : Z)
  (ac ac' : Army.received) (t : float) :
  ArmyR.dispatch M fuel msg tc ac t = Some ac' -> Army.last_seen ac' = Army.last_seen ac.
Proof.
  unfold ArmyR.dispatch.
  destruct ((1 <=? tc) && (tc <=? 4)).
  { destruct (_decode_callsign msg) as [[|c cs]|]; now intros [= <-]. }
  destruct ((9 <=? tc) && (tc <=? 18)).
  { destruct (ArmyR._decode_position M fuel msg ac t) as [[ac1 [[la lo] alt]]|] eqn:E;
      [|discriminate].
    apply army_decode_position_last_seen in E. simpl.
    destruct la, lo; intros [= <-]; assumption. }
  destruct (tc =? 19).
  { destruct (_decode_velocity M msg). now intros [= <-]. }
  now intros [= <-].
Qed.

Lemma debian9_decode_position_last_seen (M : pymath) (fuel : nat) (msg : str)
  (ac ac' : Deb.received) r :
  DebR._decode_position M fuel msg ac = Some (ac', r) ->
  Deb.last_seen ac' = Deb.last_seen ac.
Proof.
  unfold DebR._decode_position.
  destruct (DebR.position_fields msg) as [[[[a tb] la] lo]|]; [|now intros [= <- _]].
  cbv zeta.
  destruct (Deb.lat_even_cpr _); [|now intros [= <- _]].
  destruct (Deb.lon_even_cpr _); [|now intros [= <- _]].
  destruct (Deb.lat_odd_cpr _); [|now intros [= <- _]].
  destruct (Deb.lon_odd_cpr _); [|now intros [= <- _]].
  destruct (DebR.global_decode _ _ _ _ _ _ _) as [[[x y]|]| |]; try discriminate;
    now intros [= <- _].
Qed.

Lemma debian9_dispatch_last_seen (M : pymath) (fuel : nat) (msg : str)
  (ac ac' : Deb.received) :
  DebR.dispatch M fuel msg ac = Some ac' -> Deb.last_seen ac' = Deb.last_seen ac.
Proof.
  unfold DebR.dispatch.
  destruct (me_bin_of msg) as [me|]; [|now intros [= <-]].
  destruct (parse_int 2 (slice 0 5 me)) as [tc|]; [|now intros [= <-]].
  destruct ((1 <=? tc) && (tc <=? 4)).
  { destruct (_decode_callsign msg) as [[|c cs]|]; now intros [= <-]. }
  destruct ((9 <=? tc) && (tc <=? 18)).
  { destruct (DebR._decode_position M fuel msg ac) as [[ac1 [[la lo] alt]]|] eqn:E;
      [|discriminate].
    apply debian9_decode_position_last_seen in E. simpl. now intros [= <-]. }
  destruct (tc =? 19).
  { destruct (_decode_velocity M msg). now intros [= <-]. }
  now intros [= <-].
Qed.

(** X11. Every message [_process_message] of atc_debian9.py returns from
    leaves an entry under characters 2 to 8 of the message, whatever the
    message is (no length, downlink format or CRC is looked at), with
    [last_seen] the time of the message; [_process_message] of
    atc_army_offline.py does so for messages of 28 characters with
    downlink format 17 and a type byte that parses. *)
Theorem sender_refreshed :
  (forall (M : pymath) (fuel : nat) (msg : str) (now : float) (d d' : dict Deb.received),
      DebR._process_message M fuel msg now d = Some d' ->
      exists ac, dict_get d' (slice 2 8 msg) = Some ac /\ Deb.last_seen ac = now)
  /\ (forall (M : pymath) (fuel : nat) (msg : str) (now t : float)
             (d d' : dict Army.received) (tc : Z),
        length msg = 28%nat -> df_of msg = Some 17 -> tc_of msg = Some tc ->
        ArmyR._process_message M fuel msg now t d = Some d' ->
        exists ac, dict_get d' (slice 2 8 msg) = Some ac /\ Army.last_seen ac = now).
Proof.
  split.
  - intros M fuel msg now d d' H.
    destruct (debian9_process_cases _ _ _ _ _ _ H) as (ac & Hd & ->).
    exists ac. split; [apply dict_get_set_same|].
    now rewrite (debian9_dispatch_last_seen _ _ _ _ _ Hd).
  - intros M fuel msg now t d d' tc Hl Hdf Htc H.
    rewrite (army_process_df17 M fuel msg tc now t d Hl Hdf Htc) in H.
    destruct (ArmyR.dispatch _ _ _ _ _ _) as [ac|] eqn:E; [|discriminate].
    injection H as <-. exists ac. split; [apply dict_get_set_same|].
    now rewrite (army_dispatch_last_seen _ _ _ _ _ _ _ E).
Qed.

Lemma sender_refreshed_witness :
  exists ac,
    dict_get [(py "llo wo", DebR.new_aircraft (py "llo wo") 5)] (py "llo wo") = Some ac
    /\ Deb.last_seen ac = 5%float.
Proof.
  apply (proj1 sender_refreshed no_math 0%nat (py "hello world") 5%float []).
  vm_compute. reflexivity.
Defined.

End FootprintFacts.

Module ListingFacts.
Import Py PyFloat Json Receiver Notions.
Import PyFacts CrcFacts EncoderFacts Evaluations DictFacts ViewFacts.
Import ProcessFacts BeastFacts FrameFacts PositionFacts TrackerFacts VelocityFacts.
Import ReceiverFacts LayoutFacts HexFacts CallsignFacts DeliveryFacts StorageFacts.
Import FootprintFacts.

Section Kept.

Context {V : Type}.

Implicit Types (d : dict V) (k : str) (v : V).

Lemma in_dict_del_other d k k' v : In (k, v) d -> k <> k' -> In (k, v) (dict_del d k').
Proof.
  intros H Hne. induction d as [|[k0 v0] d IH]; [destruct H|].
  simpl. destruct (str_eqb k0 k') eqn:E.
  - destruct H as [[= -> ->]|H]; [|assumption].
    apply str_eqb_eq in E. congruence.
  - destruct H as [H|H]; [now left|right; now apply IH].
Qed.

Lemma in_fold_del_others (ks : list str) d k v :
  In (k, v) d -> ~ In k ks -> In (k, v) (fold_left dict_del ks d).
Proof.
  revert d. induction ks as [|k0 ks IH]; simpl; intros d H Hn; [assumption|].
  apply IH; [|tauto]. apply in_dict_del_other; [assumption|]. intros ->. tauto.
Qed.

(** An entry the predicate does not select survives [dict_del_where]. *)
Lemma dict_del_where_keeps (p : V -> bool) d k v :
  NoDup (keys d) -> In (k, v) d -> p v = false -> In (k, v) (dict_del_where p d).
Proof.
  intros Hn Hin Hp. unfold dict_del_where. apply in_fold_del_others; [assumption|].
  intros Hk. apply in_map_iff in Hk. destruct Hk as ([k' v'] & Hfst & Hf).
  simpl in Hfst. subst k'. apply filter_In in Hf. destruct Hf as [Hin' Hp'].
  simpl in Hp'. rewrite (nodup_keys_unique d k v v' Hn Hin Hin') in Hp. congruence.
Qed.

Lemma in_dict_get d k v : NoDup (keys d) -> In (k, v) d -> dict_get d k = Some v.
Proof.
  unfold keys. induction d as [|[k0 v0] d IH]; simpl; intros Hn H; [destruct H|].
  inversion Hn as [|? ? Hk Hn']; subst.
  destruct H as [[= -> ->]|H].
  - now rewrite str_eqb_refl.
  - destruct (str_eqb k0 k) eqn:E; [|now apply IH].
    apply str_eqb_eq in E. subst k0. exfalso. apply Hk.
    apply in_map_iff. now exists (k, v).
Qed.

Lemma dict_collect_complete {E : Type} (f : str -> V -> option (option E)) d
  (l : list E) k v (e : E) :
  dict_collect f d = Some l -> In (k, v) d -> f k v = Some (Some e) -> In e l.
Proof.
  revert l. induction d as [|[k0 v0] d IH]; simpl; intros l H Hin Hf; [destruct Hin|].
  destruct (f k0 v0) as [[e0|]|] eqn:E0; [| |discriminate].
  - destruct (dict_collect f d) as [r|]; [|discriminate]. injection H as <-.
    destruct Hin as [[= -> ->]|Hin].
    + left. congruence.
    + right. now apply (IH r).
  - destruct Hin as [[= -> ->]|Hin]; [congruence|]. now apply IH.
Qed.

Lemma dict_collect_fails {E : Type} (f : str -> V -> option (option E)) d k v :
  In (k, v) d -> f k v = None -> dict_collect f d = None.
Proof.
  induction d as [|[k0 v0] d IH]; simpl; intros Hin Hf; [destruct Hin|].
  destruct Hin as [[= -> ->]|Hin]; [now rewrite Hf|].
  destruct (f k0 v0) as [[e0|]|]; [|now apply IH|reflexivity].
  now rewrite IH.
Qed.

End Kept.

(** X12. A received aircraft that is not stale at the time of a snapshot
    and has a latitude and a longitude stays in the map and has its object
    in the array: source "adsb", its address as [hex], its position, and
    as [flight] its callsign, or its address when it has none; in
    atc_army_offline.py and in atc_debian9.py. *)
Theorem fresh_positioned_aircraft_listed :
  (forall (M : pymath) (now now2 : float) (st st' : Army.tracker) (resp : response)
          (k : str) (ac : Army.received) (la lo : float),
      army_ok (Army.received_aircraft st) ->
      In (k, ac) (Army.received_aircraft st) ->
      ArmyW.stale now ac = false ->
      Army.lat ac = Some la -> Army.lon ac = Some lo ->
      ArmyW.serve_aircraft_json M now now2 st = (st', Some resp) ->
      dict_get (Army.received_aircraft st') k = Some ac
      /\ exists e,
           In e (r_aircraft resp) /\ adsb e /\ e_hex e = JStr k
           /\ e_lat e = JFloat la /\ e_lon e = JFloat lo
           /\ e_flight e = JStr (match Army.callsign ac with [] => k | cs => cs end))
  /\ (forall (M : pymath) (now now2 : float) (st st' : Deb.tracker) (resp : response)
             (k : str) (ac : Deb.received) (la lo : float),
        debian9_ok (Deb.received_aircraft st) ->
        In (k, ac) (Deb.received_aircraft st) ->
        DebW.stale now ac = false ->
        Deb.lat ac = Some la -> Deb.lon ac = Some lo ->
        DebW.serve_aircraft_json M now now2 st = (st', Some resp) ->
        dict_get (Deb.received_aircraft st') k = Some ac
        /\ exists e,
             In e (r_aircraft resp) /\ adsb e /\ e_hex e = JStr k
             /\ e_lat e = JFloat la /\ e_lon e = JFloat lo
             /\ e_flight e = JStr (match Deb.callsign ac with
                                   | Some (c :: cs) => c :: cs
                                   | _ => k
                                   end)).
Proof.
  split.
  - intros M now now2 st st' resp k ac la lo Hok Hin Hst Hla Hlo H.
    pose proof (army_served_state _ _ _ _ _ _ H) as Hst'.
    assert (Hin' : In (k, ac) (Army.received_aircraft st')).
    { rewrite Hst'. apply dict_del_where_keeps; [apply Hok|assumption|assumption]. }
    assert (Hok' : army_ok (Army.received_aircraft st')).
    { rewrite Hst'. now apply army_remove_stale_ok. }
    split; [apply in_dict_get; [apply Hok'|assumption]|].
    unfold ArmyW.serve_aircraft_json in H.
    destruct (all_some _) as [sim|]; [|discriminate].
    destruct (ArmyW.received_entries _ _) as [rec|] eqn:Er; [|discriminate].
    injection H as Hs Hr. rewrite <- Hs in Hin'. simpl in Hin'.
    unfold ArmyW.received_entries in Er.
    destruct (ArmyW.received_entry now k ac la lo) as [e|] eqn:Ee.
    + exists e. rewrite <- Hr. simpl. split.
      * apply in_or_app. right.
        apply (dict_collect_complete _ _ _ k ac e Er Hin').
        now rewrite Hla, Hlo, Ee.
      * unfold ArmyW.received_entry in Ee.
        destruct (int_of_float _); [|discriminate]. injection Ee as <-.
        unfold adsb. simpl. rewrite (proj2 Hok k ac Hin). repeat split.
        try now destruct (Army.callsign ac).
    + exfalso. rewrite (dict_collect_fails _ _ k ac Hin') in Er; [discriminate|].
      now rewrite Hla, Hlo, Ee.
  - intros M now now2 st st' resp k ac la lo Hok Hin Hst Hla Hlo H.
    pose proof (debian9_served_state _ _ _ _ _ _ H) as Hst'.
    assert (Hin' : In (k, ac) (Deb.received_aircraft st')).
    { rewrite Hst'. apply dict_del_where_keeps; [apply Hok|assumption|assumption]. }
    assert (Hok' : debian9_ok (Deb.received_aircraft st')).
    { rewrite Hst'. now apply debian9_remove_stale_ok. }
    split; [apply in_dict_get; [apply Hok'|assumption]|].
    unfold DebW.serve_aircraft_json in H.
    destruct (all_some _) as [sim|]; [|discriminate].
    destruct (DebW.received_entries _ _) as [rec|] eqn:Er; [|discriminate].
    injection H as Hs Hr. rewrite <- Hs in Hin'. simpl in Hin'.
    unfold DebW.received_entries in Er.
    destruct (DebW.received_entry now k ac la lo) as [e|] eqn:Ee.
    + exists e. rewrite <- Hr. simpl. split.
      * apply in_or_app. right.
        apply (dict_collect_complete _ _ _ k ac e Er Hin').
        now rewrite Hla, Hlo, Ee.
      * unfold DebW.received_entry in Ee.
        destruct (int_of_float _); [|discriminate]. injection Ee as <-.
        unfold adsb. simpl. rewrite (proj2 Hok k ac Hin). repeat split.
    + exfalso. rewrite (dict_collect_fails _ _ k ac Hin') in Er; [discriminate|].
      now rewrite Hla, Hlo, Ee.
Qed.

Lemma fresh_positioned_aircraft_listed_witness :
  dict_get (Army.received_aircraft (fst sample_served_50)) (py "40621D") = Some old_ac
  /\ exists e,
       In e (r_aircraft sample_response_50) /\ adsb e /\ e_hex e = JStr (py "40621D")
       /\ e_lat e = JFloat 87 /\ e_lon e = JFloat 0
       /\ e_flight e = JStr (py "40621D").
Proof.
  apply (proj1 fresh_positioned_aircraft_listed no_math 50%float 50%float sample_tracker
           (fst sample_served_50) sample_response_50 (py "40621D") old_ac 87%float 0%float).
  - exact sample_tracker_ok.
  - left. reflexivity.
  - reflexivity.
  - reflexivity.
  - reflexivity.
  - vm_compute. reflexivity.
Defined.

End ListingFacts.

Module TransportFacts.
Import Py PyFloat Json Receiver Notions.
Import PyFacts CrcFacts EncoderFacts Evaluations DictFacts ViewFacts.
Import ProcessFacts BeastFacts FrameFacts PositionFacts TrackerFacts VelocityFacts.
Import ReceiverFacts LayoutFacts HexFacts CallsignFacts DeliveryFacts StorageFacts.
Import FootprintFacts ListingFacts.

(** *** Beast escaping *)

Lemma escape_cons (b : ascii) (bs : bytes) :
  BE.escape (b :: bs)
  = (if ord b =? BE.ESC then [chr BE.ESC; b] else [b]) ++ BE.escape bs.
Proof. reflexivity. Qed.

Lemma esc_byte (b : ascii) : ord b = BE.ESC -> b = chr BE.ESC.
Proof. intros H. rewrite <- H. symmetry. apply chr_ord. Qed.

(** X13. The escaping of [BeastEncoder.encode_message] loses nothing: two
    byte strings with the same escaped form are the same, and the escaped
    form is longer than the string by the number of its 0x1A bytes. *)
Theorem escape_injective (a b : bytes) :
  (BE.escape a = BE.escape b -> a = b)
  /\ length (BE.escape a)
     = (length a + length (filter (fun x => (ord x =? BE.ESC)%Z) a))%nat.
Proof.
  split.
  - revert b. induction a as [|x a IH]; intros [|y b]; rewrite ?escape_cons.
    + reflexivity.
    + simpl. destruct (ord y =? BE.ESC); discriminate.
    + simpl. destruct (ord x =? BE.ESC); discriminate.
    + destruct (ord x =? BE.ESC) eqn:Ex, (ord y =? BE.ESC) eqn:Ey; simpl.
      * intros [= -> H]. f_equal. now apply IH.
      * intros [= <- H]. rewrite ord_chr in Ey by (unfold BE.ESC; lia).
        rewrite Z.eqb_refl in Ey. discriminate.
      * intros [= -> H]. rewrite ord_chr in Ex by (unfold BE.ESC; lia).
        rewrite Z.eqb_refl in Ex. discriminate.
      * intros [= -> H]. f_equal. now apply IH.
  - induction a as [|x a IH]; [reflexivity|].
    rewrite escape_cons, length_app, IH. simpl.
    destruct (ord x =? BE.ESC); simpl; lia.
Qed.

(** *** The line loop of atc_debian9.py *)

Lemma split_lines_no_nl (s : str) : contains newline s = false -> split_lines s = ([], s).
Proof.
  unfold contains. induction s as [|c s IH]; cbn [existsb split_lines]; [reflexivity|].
  intros H. apply orb_false_elim in H. destruct H as [Hc Hs].
  rewrite (IH Hs). rewrite Ascii.eqb_sym in Hc. now rewrite Hc.
Qed.

Lemma split_lines_first (l rest : str) :
  contains newline l = false ->
  split_lines (l ++ newline :: rest)
  = (l :: fst (split_lines rest), snd (split_lines rest)).
Proof.
  unfold contains. induction l as [|c l IH]; cbn [existsb split_lines app].
  - intros _. rewrite Ascii.eqb_refl. now destruct (split_lines rest).
  - intros H. apply orb_false_elim in H. destruct H as [Hc Hs].
    rewrite (IH Hs). rewrite Ascii.eqb_sym in Hc. now rewrite Hc.
Qed.

Lemma find_from_first (c : ascii) (l rest : str) (pos : nat) :
  contains c l = false -> find_from c (l ++ c :: rest) pos = Some (pos + length l)%nat.
Proof.
  unfold contains. revert pos.
  induction l as [|x l IH]; intros pos; cbn [existsb find_from app length].
  - intros _. rewrite Ascii.eqb_refl. f_equal. lia.
  - intros H. apply orb_false_elim in H. destruct H as [Hx Hl].
    rewrite Ascii.eqb_sym in Hx. rewrite Hx, (IH _ Hl). f_equal. lia.
Qed.

Lemma contains_split (c : ascii) (s : str) :
  contains c s = true ->
  exists l rest, s = l ++ c :: rest /\ contains c l = false.
Proof.
  unfold contains. induction s as [|x s IH]; cbn [existsb]; [discriminate|].
  destruct (Ascii.eqb c x) eqn:E.
  - intros _. apply Ascii.eqb_eq in E. subst x. now exists [], s.
  - cbn [orb]. intros H. destruct (IH H) as (l & rest & -> & Hl).
    exists (x :: l), rest. split; [reflexivity|]. cbn [existsb]. now rewrite E.
Qed.

Lemma snd_split_lines_no_nl (s : str) : contains newline (snd (split_lines s)) = false.
Proof.
  induction s as [|c s IH]; [reflexivity|].
  cbn [split_lines]. destruct (split_lines s) as [ls r]. cbn [snd] in IH.
  destruct (Ascii.eqb c newline) eqn:E; [exact IH|].
  destruct ls; cbn [snd]; [|exact IH].
  unfold contains in *. cbn [existsb]. rewrite Ascii.eqb_sym in E. now rewrite E.
Qed.

(** With fuel for its length, the loop returns the accepted ones of the
    complete lines, and keeps what follows the last newline. *)
Lemma line_loop_lines (fuel : nat) (s : str) :
  (length s <= fuel)%nat ->
  DebR.line_loop fuel s = Some (accepted (fst (split_lines s)), snd (split_lines s)).
Proof.
  revert s. induction fuel as [|fuel IH]; intros s Hl.
  - destruct s; [reflexivity|simpl in Hl; lia].
  - cbn [DebR.line_loop]. fold newline.
    destruct (contains newline s) eqn:Ec.
    + destruct (contains_split newline s Ec) as (l & rest & -> & Hno).
      unfold find. cbn [skipn]. rewrite (find_from_first newline l rest 0 Hno). cbn [Nat.add].
      cbv zeta.
      assert (E1 : slice 0 (length l) (l ++ newline :: rest) = l).
      { unfold slice. cbn [skipn]. rewrite Nat.sub_0_r, firstn_app, Nat.sub_diag.
        rewrite firstn_all. cbn [firstn]. apply app_nil_r. }
      assert (E2 : slice_from (length l + 1) (l ++ newline :: rest) = rest).
      { unfold slice_from. rewrite skipn_app.
        rewrite skipn_all2 by lia.
        replace (length l + 1 - length l)%nat with 1%nat by lia. reflexivity. }
      rewrite E1, E2, IH by (rewrite length_app in Hl; simpl in Hl; lia).
      rewrite (split_lines_first l rest Hno). cbn [fst snd].
      unfold accepted. cbn [flat_map].
      destruct (DebR.accepted_line l); reflexivity.
    + now rewrite (split_lines_no_nl s Ec).
Qed.

Lemma split_lines_app (s1 s2 : str) :
  split_lines (s1 ++ s2)
  = (fst (split_lines s1) ++ fst (split_lines (snd (split_lines s1) ++ s2)),
     snd (split_lines (snd (split_lines s1) ++ s2))).
Proof.
  induction s1 as [|c s1 IH]; cbn [app split_lines].
  - cbn [fst snd app]. now destruct (split_lines s2).
  - rewrite IH. destruct (split_lines s1) as [l1 r1]. cbn [fst snd].
    destruct (Ascii.eqb c newline) eqn:E.
    + cbn [fst snd app]. reflexivity.
    + destruct l1 as [|l l1]; cbn [fst snd app].
      * cbn [split_lines]. destruct (split_lines (r1 ++ s2)) as [l2 r2]. rewrite E.
        cbn [fst snd]. now destruct l2.
      * reflexivity.
Qed.

Lemma accepted_app (a b : list str) : accepted (a ++ b) = accepted a ++ accepted b.
Proof. unfold accepted. apply flat_map_app. Qed.

Lemma feed_lines (buffer : str) (data : bytes) :
  DebR.feed buffer data
  = Some (accepted (fst (split_lines (buffer ++ decode_ascii_ignore data))),
          snd (split_lines (buffer ++ decode_ascii_ignore data))).
Proof. unfold DebR.feed. cbv zeta. now apply line_loop_lines. Qed.

(** X14. The receive loop of atc_debian9.py always returns, keeps a
    buffer without a newline, and does not depend on how the stream is cut
    into reads: feeding two chunks one after the other hands on the same
    messages, in the same order, and keeps the same buffer as feeding them
    as one. *)
Theorem debian9_feed_chunks (buffer : str) (d1 d2 : bytes) :
  exists m1 r1 m2 r2,
    DebR.feed buffer d1 = Some (m1, r1)
    /\ DebR.feed r1 d2 = Some (m2, r2)
    /\ DebR.feed buffer (d1 ++ d2) = Some (m1 ++ m2, r2)
    /\ contains "010"%char r2 = false.
Proof.
  do 4 eexists. split; [apply feed_lines|]. split; [apply feed_lines|]. split.
  - rewrite feed_lines. unfold decode_ascii_ignore. rewrite filter_app, app_assoc.
    rewrite split_lines_app. cbn [fst snd]. rewrite accepted_app. reflexivity.
  - apply snd_split_lines_no_nl.
Qed.

End TransportFacts.

Module LinkFacts.
Import Py PyFloat Json Receiver Notions.
Import PyFacts CrcFacts EncoderFacts Evaluations DictFacts ViewFacts.
Import ProcessFacts BeastFacts FrameFacts PositionFacts TrackerFacts VelocityFacts.
Import ReceiverFacts LayoutFacts HexFacts CallsignFacts DeliveryFacts StorageFacts.
Import FootprintFacts ListingFacts TransportFacts.

(** *** An AVR line of send_adsb.py at the two receivers *)

Lemma hex_char_plain (c : ascii) :
  is_digit 16 c = true ->
  (ord c <? 128) = true /\ Ascii.eqb c "*" = false /\ Ascii.eqb c ";" = false
  /\ Ascii.eqb c newline = false /\ is_uspace c = false.
Proof.
  destruct c as [[|] [|] [|] [|] [|] [|] [|] [|]]; vm_compute; intros H;
    try discriminate H; repeat split.
Qed.

Lemma hex_str_plain (c : ascii) (s : str) :
  Ascii.eqb c "*" || Ascii.eqb c ";" || Ascii.eqb c newline = true ->
  digit_str 16 s -> contains c s = false.
Proof.
  intros Hc H. unfold contains. induction H as [|x s Hx _ IH]; [reflexivity|].
  cbn [existsb]. rewrite IH, orb_false_r.
  destruct (hex_char_plain x Hx) as (_ & H1 & H2 & H3 & _).
  destruct (Ascii.eqb c x) eqn:E; [|reflexivity].
  apply Ascii.eqb_eq in E. subst x. rewrite H1, H2, H3 in Hc. discriminate.
Qed.

Lemma hex_str_ascii (s : str) :
  digit_str 16 s -> forallb (fun c => ord c <? 128) s = true.
Proof.
  induction 1 as [|x s Hx _ IH]; [reflexivity|].
  cbn [forallb]. now rewrite (proj1 (hex_char_plain x Hx)), IH.
Qed.

Lemma filter_all {A : Type} (f : A -> bool) (l : list A) :
  forallb f l = true -> filter f l = l.
Proof.
  induction l as [|x l IH]; [reflexivity|]. cbn [forallb filter].
  intros H. apply andb_prop in H. destruct H as [-> H]. now rewrite IH.
Qed.

Lemma lstrip_hex (s : str) : digit_str 16 s -> lstrip_with is_uspace s = s.
Proof.
  intros H. destruct H as [|x s Hx _]; [reflexivity|].
  cbn [lstrip_with]. now rewrite (proj2 (proj2 (proj2 (proj2 (hex_char_plain x Hx))))).
Qed.

Lemma digit_str_rev (s : str) : digit_str 16 s -> digit_str 16 (rev s).
Proof. unfold digit_str. apply Forall_rev. Qed.

Lemma strip_hex (s : str) : digit_str 16 s -> strip s = s.
Proof.
  intros H. unfold strip, rstrip_with.
  rewrite (lstrip_hex s H), (lstrip_hex _ (digit_str_rev s H)). apply rev_involutive.
Qed.

Lemma contains_app (c : ascii) (a b : str) :
  contains c (a ++ b) = contains c a || contains c b.
Proof. unfold contains. apply existsb_app. Qed.

Lemma avr_loop_no_star (fuel : nat) (s : bytes) :
  contains "*" s = false -> ArmyR.avr_loop fuel s = Some ([], s).
Proof. intros H. destruct fuel; cbn [ArmyR.avr_loop]; now rewrite H. Qed.

Lemma skipn_length_app {A : Type} (a b : list A) : skipn (length a) (a ++ b) = b.
Proof. induction a; [reflexivity|assumption]. Qed.

Lemma firstn_length_app {A : Type} (a b : list A) : firstn (length a) (a ++ b) = a.
Proof. induction a as [|x a IH]; [reflexivity|]. cbn [length app firstn]. now rewrite IH. Qed.

Lemma accepted_line_framed (msg : str) :
  length msg = 28%nat ->
  DebR.accepted_line ("*"%char :: msg ++ [";"%char]) = Some msg.
Proof.
  intros Hl. unfold DebR.accepted_line.
  change (rev ("*"%char :: msg ++ [";"%char])) with (rev (msg ++ [";"%char]) ++ ["*"%char]).
  rewrite rev_app_distr. cbn [rev app].
  change (Ascii.eqb "*" "*" && Ascii.eqb ";" ";") with true. cbv iota zeta.
  assert (E : slice 1 (length ("*"%char :: msg ++ [";"%char]) - 1)
                ("*"%char :: msg ++ [";"%char]) = msg).
  { unfold slice. cbn [skipn length]. rewrite length_app. cbn [length].
    replace (S (length msg + 1) - 1 - 1)%nat with (length msg) by lia.
    apply firstn_length_app. }
  rewrite E, Hl. reflexivity.
Qed.

(** The line of a message of 28 hexadecimal digits, fed to the two
    receive loops. *)
Lemma avr_line_fed (msg : str) (pre : bytes) :
  digit_str 16 msg -> length msg = 28%nat -> contains "*" pre = false ->
  DebR.feed [] (py "*" ++ msg ++ [";"%char; newline]) = Some ([msg], [])
  /\ ArmyR.feed pre (py "*" ++ msg ++ [";"%char; newline]) = Some ([msg], [newline]).
Proof.
  intros Hd Hl Hpre.
  assert (Ha : forallb (fun c => ord c <? 128) (py "*" ++ msg ++ [";"%char; newline]) = true).
  { rewrite !forallb_app, (hex_str_ascii msg Hd). reflexivity. }
  split.
  - rewrite feed_lines. unfold decode_ascii_ignore. rewrite (filter_all _ _ Ha).
    cbn [app].
    change (py "*" ++ msg ++ [";"%char; newline])
      with (("*"%char :: msg ++ [";"%char; newline])).
    replace ("*"%char :: msg ++ [";"%char; newline])
      with (("*"%char :: msg ++ [";"%char]) ++ newline :: [])
      by (cbn [app]; now rewrite <- app_assoc).
    rewrite split_lines_first.
    + cbn [split_lines fst snd]. unfold accepted. cbn [flat_map].
      now rewrite (accepted_line_framed msg Hl).
    + change ("*"%char :: msg ++ [";"%char]) with (["*"%char] ++ msg ++ [";"%char]).
      rewrite !contains_app, (hex_str_plain newline msg) by (reflexivity || assumption).
      reflexivity.
  - unfold ArmyR.feed. cbv zeta.
    set (buffer := pre ++ py "*" ++ msg ++ [";"%char; newline]).
    assert (Eb : buffer = pre ++ "*"%char :: (msg ++ ";"%char :: [newline])) by reflexivity.
    assert (Hlen : length buffer = S (length pre + length msg + 2)).
    { rewrite Eb, length_app. cbn [length]. rewrite length_app. cbn [length]. lia. }
    rewrite Hlen. cbn [ArmyR.avr_loop].
    assert (C1 : contains "*" buffer = true).
    { rewrite Eb, contains_app. cbn [contains existsb]. rewrite Ascii.eqb_refl.
      apply orb_true_r. }
    assert (C2 : contains ";" buffer = true).
    { rewrite Eb, contains_app.
      change ("*"%char :: msg ++ ";"%char :: [newline])
        with (["*"%char] ++ msg ++ ";"%char :: [newline]).
      rewrite !contains_app. cbn [contains existsb]. rewrite Ascii.eqb_refl.
      rewrite !orb_true_r. reflexivity. }
    rewrite C1, C2. cbn [andb].
    assert (F1 : find "*" buffer 0 = Some (length pre)).
    { unfold find. cbn [skipn]. rewrite Eb.
      now rewrite (find_from_first "*" pre _ 0 Hpre). }
    rewrite F1.
    assert (F2 : find ";" buffer (length pre) = Some (length pre + S (length msg))%nat).
    { unfold find. rewrite Eb, skipn_length_app.
      change ("*"%char :: msg ++ ";"%char :: [newline])
        with (("*"%char :: msg) ++ ";"%char :: [newline]).
      rewrite find_from_first; [reflexivity|].
      change ("*"%char :: msg) with (["*"%char] ++ msg).
      rewrite contains_app, (hex_str_plain ";" msg) by (reflexivity || assumption).
      reflexivity. }
    rewrite F2.
    replace (length pre <? length pre + S (length msg))%nat with true
      by (symmetry; apply Nat.ltb_lt; lia).
    cbv zeta.
    assert (S1 : slice (length pre + 1) (length pre + S (length msg)) buffer = msg).
    { unfold slice. rewrite Eb.
      replace (length pre + 1)%nat with (length (pre ++ ["*"%char]))
        by (rewrite length_app; reflexivity).
      replace (pre ++ "*"%char :: msg ++ ";"%char :: [newline])
        with ((pre ++ ["*"%char]) ++ msg ++ ";"%char :: [newline])
        by (now rewrite <- app_assoc).
      rewrite skipn_length_app, length_app. cbn [length].
      replace (length pre + S (length msg) - (length pre + 1))%nat with (length msg) by lia.
      apply firstn_length_app. }
    assert (S2 : slice_from (length pre + S (length msg) + 1) buffer = [newline]).
    { unfold slice_from. rewrite Eb.
      replace (length pre + S (length msg) + 1)%nat
        with (length (pre ++ "*"%char :: msg ++ [";"%char]))
        by (rewrite length_app; cbn [length]; rewrite length_app; cbn [length]; lia).
      replace (pre ++ "*"%char :: msg ++ ";"%char :: [newline])
        with ((pre ++ "*"%char :: msg ++ [";"%char]) ++ [newline]).
      - apply skipn_length_app.
      - rewrite <- app_assoc. cbn [app]. now rewrite <- app_assoc. }
    rewrite S1, S2. unfold decode_ascii_ignore.
    rewrite (filter_all _ _ (hex_str_ascii msg Hd)), (strip_hex msg Hd).
    rewrite avr_loop_no_star by reflexivity.
    destruct msg as [|m0 msg']; [discriminate Hl|]. reflexivity.
Qed.

(** X15. A message of 28 hexadecimal digits that [main] of send_adsb.py
    sends as an AVR line reaches [_process_message] of both receivers as
    it is, alone: atc_debian9.py, with an empty buffer, hands on the
    message and keeps an empty buffer; atc_army_offline.py, with a buffer
    that holds no star, hands on the message and keeps the newline, which
    is again a buffer without a star. *)
Theorem avr_line_delivered (msg : str) (pre : bytes) :
  digit_str 16 msg -> length msg = 28%nat -> contains "*" pre = false ->
  exists line,
    send_adsb.avr_line msg = Some line
    /\ DebR.feed [] line = Some ([msg], [])
    /\ ArmyR.feed pre line = Some ([msg], [newline])
    /\ contains "*" [newline] = false.
Proof.
  intros Hd Hl Hpre.
  destruct (avr_line_fed msg pre Hd Hl Hpre) as [H1 H2].
  exists (py "*" ++ msg ++ [";"%char; newline]). split; [|split; [|split]].
  - unfold send_adsb.avr_line, encode_ascii. fold newline.
    rewrite !forallb_app, (hex_str_ascii msg Hd). reflexivity.
  - exact H1.
  - exact H2.
  - reflexivity.
Qed.

Lemma avr_line_delivered_witness :
  exists line,
    send_adsb.avr_line klm_frame = Some line
    /\ DebR.feed [] line = Some ([klm_frame], [])
    /\ ArmyR.feed [newline] line = Some ([klm_frame], [newline])
    /\ contains "*" [newline] = false.
Proof.
  apply (avr_line_delivered klm_frame [newline]).
  - unfold digit_str. repeat constructor.
  - reflexivity.
  - reflexivity.
Defined.

(** *** [encode_velocity] of send_adsb.py *)

Lemma sa_velocity_fields (icao : str) (i s1 e1 s2 e2 vs ve : Z) :
  valid_icao icao i ->
  (s1 = 0 \/ s1 = 1) -> (s2 = 0 \/ s2 = 1) -> (vs = 0 \/ vs = 1) ->
  0 <= e1 < 1024 -> 0 <= e2 < 1024 -> 0 <= ve < 512 ->
  exists frame,
    SA.velocity_frame icao s1 e1 s2 e2 vs ve = Some frame
    /\ length frame = 28%nat
    /\ velocity_components frame = Some (Some (signed s1 (e1 - 1), signed s2 (e2 - 1))).
Proof.
  intros [Hi Hr] H1 H2 H3 He1 He2 Hve.
  unfold SA.velocity_frame. rewrite Hi. cbv zeta. to_fixed.
  match goal with |- context [Nat.eqb (length ?mb) 88] =>
    assert (Hl : length mb = 88%nat) by lengths;
    assert (Hd : digit_str 2 mb) by digit_strs;
    rewrite Hl; cbn [Nat.eqb];
    destruct (sa_finish_me_bin mb Hd Hl) as (frame & Hf & Hlen & Hme)
  end.
  exists frame. split; [exact Hf|]. split; [exact Hlen|].
  unfold velocity_components. rewrite Hme. clear Hf Hme Hl Hd.
  skip_header.
  slice_is 0%nat 5%nat 5%nat 19.
  change (parse_int 2 (fixed_digits 2 false 5 19)) with (Some 19). cbn [Z.eqb Pos.eqb negb].
  bit_is 13%nat s1 H1. slice_is 14%nat 24%nat 10%nat e1.
  bit_is 24%nat s2 H2. slice_is 25%nat 35%nat 10%nat e2.
  rewrite !parse_fixed by range. reflexivity.
Qed.

Lemma length_format_b (w : nat) (n : Z) :
  0 <= n ->
  (w <= length (format_b w n))%nat
  /\ (2 ^ Z.of_nat w <= n -> (w < length (format_b w n))%nat).
Proof.
  intros Hn. unfold format_b, format_int. replace (n <? 0) with false by lia.
  rewrite length_fixed_digits. split; [lia|]. intros Hw.
  assert (Hp : 0 < n) by (pose proof (Z.pow_pos_nonneg 2 (Z.of_nat w)); lia).
  unfold ndigits. replace (n <=? 0) with false by lia.
  change (Z.log2 2) with 1. rewrite Z.div_1_r.
  assert (Z.of_nat w <= Z.log2 n) by (apply Z.log2_le_pow2; lia).
  lia.
Qed.

Lemma vr_quotient (vr : Z) :
  Z.abs vr < 8192 ->
  exists q, int_true_div (Z.abs vr) 64 = Some q /\ int_of_float q = Some (Z.abs vr / 64).
Proof.
  intros H.
  assert (E : vr_quotient_ok (Z.abs vr) = true).
  { apply (forall_below (Z.to_nat 8192) vr_quotient_ok);
      [vm_compute; reflexivity|rewrite Z2Nat.id by lia; lia]. }
  unfold vr_quotient_ok in E.
  destruct (int_true_div (Z.abs vr) 64) as [q|]; [|discriminate].
  exists q. split; [reflexivity|].
  destruct (int_of_float q) as [k|]; [|discriminate].
  apply Z.eqb_eq in E. now subst k.
Qed.

(** X16. [encode_velocity] of send_adsb.py, for a vertical rate below 8192
    ft/min in magnitude and velocity components with integer parts [ew] and
    [ns]: when both are below 1023 it returns a 28-character frame from
    which the receivers' [_decode_velocity] reads the components back,
    truncated, under their signs; when one of them reaches 1023 the field
    no longer fits its 10 bits, the assertion on the 88 bits fails and no
    frame is returned. *)
Theorem send_adsb_velocity_limits (M : pymath) (icao : str) (i : Z)
  (speed heading : float) (vr : Z) (s c : float) (ew ns : Z) :
  valid_icao icao i -> Z.abs vr < 8192 ->
  math_sin M (heading * math_pi / 180) = Some s ->
  math_cos M (heading * math_pi / 180) = Some c ->
  int_of_float (PrimFloat.abs (speed * s)) = Some ew ->
  int_of_float (PrimFloat.abs (speed * c)) = Some ns ->
  let ew_sign := if PrimFloat.ltb (speed * s) 0 then 1 else 0 in
  let ns_sign := if PrimFloat.ltb (speed * c) 0 then 1 else 0 in
  (ew < 1023 /\ ns < 1023 ->
   exists frame,
     SA.encode_velocity M icao speed heading vr = Some frame
     /\ length frame = 28%nat
     /\ velocity_components frame = Some (Some (signed ew_sign ew, signed ns_sign ns)))
  /\ (1023 <= ew \/ 1023 <= ns -> SA.encode_velocity M icao speed heading vr = None).
Proof.
  intros Hi Hvr Hs Hc Hew Hns ew_sign ns_sign.
  destruct (vr_quotient vr Hvr) as (q & Hq & Hk).
  pose proof (magnitude_nonneg _ _ Hew) as Pew.
  pose proof (magnitude_nonneg _ _ Hns) as Pns.
  assert (Hk' : 0 <= Z.abs vr / 64 < 128) by (split; [apply Z.div_pos|apply Z.div_lt_upper_bound]; lia).
  assert (E : SA.encode_velocity M icao speed heading vr
              = SA.velocity_frame icao ew_sign (ew + 1) ns_sign (ns + 1)
                  (if vr <? 0 then 1 else 0) (Z.abs vr / 64 + 1)).
  { unfold SA.encode_velocity, fdiv.
    change (PrimFloat.eqb 180 0) with false. cbv iota. cbn beta iota.
    rewrite Hs, Hc, Hew, Hns, Hq, Hk. reflexivity. }
  rewrite E. split.
  - intros [H1 H2].
    destruct (sa_velocity_fields icao i ew_sign (ew + 1) ns_sign (ns + 1)
                (if vr <? 0 then 1 else 0) (Z.abs vr / 64 + 1) Hi)
      as (frame & Hf & Hl & Hv); try lia.
    { unfold ew_sign. destruct (PrimFloat.ltb (speed * s) 0); [right|left]; reflexivity. }
    { unfold ns_sign. destruct (PrimFloat.ltb (speed * c) 0); [right|left]; reflexivity. }
    { destruct (vr <? 0); [right|left]; reflexivity. }
    exists frame. replace (ew + 1 - 1) with ew in Hv by lia.
    replace (ns + 1 - 1) with ns in Hv by lia. auto.
  - intros H. destruct Hi as [Hi Hr]. unfold SA.velocity_frame. rewrite Hi. cbv zeta.
    match goal with |- context [Nat.eqb (length ?mb) 88] =>
      assert (Hl : (88 < length mb)%nat)
    end.
    { rewrite !length_app.
      pose proof (proj1 (length_format_b 10 (ew + 1) ltac:(lia))) as L1.
      pose proof (proj1 (length_format_b 10 (ns + 1) ltac:(lia))) as L2.
      pose proof (proj2 (length_format_b 10 (ew + 1) ltac:(lia))) as G1.
      pose proof (proj2 (length_format_b 10 (ns + 1) ltac:(lia))) as G2.
      change (2 ^ Z.of_nat 10) with 1024 in G1, G2.
      pose proof (proj1 (length_format_b 24 i ltac:(lia))) as Li.
      pose proof (proj1 (length_format_b 1 ew_sign
                           ltac:(unfold ew_sign; destruct (PrimFloat.ltb (speed * s) 0); lia))) as Ls1.
      pose proof (proj1 (length_format_b 1 ns_sign
                           ltac:(unfold ns_sign; destruct (PrimFloat.ltb (speed * c) 0); lia))) as Ls2.
      pose proof (proj1 (length_format_b 1 (if vr <? 0 then 1 else 0)
                           ltac:(destruct (vr <? 0); lia))) as Ls3.
      pose proof (proj1 (length_format_b 9 (Z.abs vr / 64 + 1) ltac:(lia))) as Lv.
      change (length (format_b 5 17)) with 5%nat.
      change (length (format_b 3 5)) with 3%nat.
      change (length (format_b 5 19)) with 5%nat.
      change (length (format_b 3 1)) with 3%nat.
      change (length (format_b 1 0)) with 1%nat.
      change (length (format_b 3 0)) with 3%nat.
      change (length (format_b 2 0)) with 2%nat.
      change (length (format_b 7 0)) with 7%nat.
      destruct H as [H|H]; [specialize (G1 ltac:(lia))|specialize (G2 ltac:(lia))]; lia. }
    replace (Nat.eqb _ 88) with false; [reflexivity|].
    symmetry. apply Nat.eqb_neq. lia.
Qed.

Lemma send_adsb_velocity_limits_witness :
  (4 < 1023 /\ 4 < 1023 ->
   exists frame,
     SA.encode_velocity libm_sample (py "4840D6") 6 45 0 = Some frame
     /\ length frame = 28%nat
     /\ velocity_components frame = Some (Some (signed 0 4, signed 0 4)))
  /\ (1023 <= 4 \/ 1023 <= 4 ->
      SA.encode_velocity libm_sample (py "4840D6") 6 45 0 = None).
Proof.
  apply (send_adsb_velocity_limits libm_sample (py "4840D6") 0x4840D6 6 45 0
           0x1.6a09e667f3bccp-1 0x1.6a09e667f3bcdp-1 4 4).
  - split; [vm_compute; reflexivity|lia].
  - simpl. lia.
  - vm_compute. reflexivity.
  - vm_compute. reflexivity.
  - vm_compute. reflexivity.
  - vm_compute. reflexivity.
Defined.

End LinkFacts.

Module BufferFacts.
Import Py PyFloat Json Receiver Notions.
Import PyFacts CrcFacts EncoderFacts Evaluations DictFacts ViewFacts.
Import ProcessFacts BeastFacts FrameFacts PositionFacts TrackerFacts VelocityFacts.
Import ReceiverFacts LayoutFacts HexFacts CallsignFacts DeliveryFacts StorageFacts.
Import FootprintFacts ListingFacts TransportFacts LinkFacts.

(** *** The receive loop of atc_army_offline.py *)

Lemma length_slice_from (n : nat) (s : str) : length (slice_from n s) = (length s - n)%nat.
Proof. apply length_skipn. Qed.

Lemma avr_loop_returns (fuel : nat) (s : bytes) :
  (length s <= fuel)%nat ->
  exists msgs s',
    ArmyR.avr_loop fuel s = Some (msgs, s')
    /\ (length s' <= length s)%nat /\ Forall (fun m => m <> []) msgs.
Proof.
  revert s. induction fuel as [|fuel IH]; intros s Hl.
  - destruct s; [|simpl in Hl; lia]. now exists [], [].
  - cbn [ArmyR.avr_loop].
    destruct (contains "*" s && contains ";" s); [|now exists [], s].
    destruct (find "*" s 0) as [start|]; [|now exists [], s].
    destruct (find ";" s start) as [end_|]; [|now exists [], s].
    destruct (start <? end_)%nat; [|now exists [], s].
    cbv zeta.
    destruct (IH (slice_from (end_ + 1) s)) as (msgs & s' & E & Hs' & Hm).
    { rewrite length_slice_from. lia. }
    rewrite E. rewrite length_slice_from in Hs'.
    destruct (strip _) as [|c m] eqn:Em.
    + exists msgs, s'. split; [reflexivity|]. split; [lia|assumption].
    + exists ((c :: m) :: msgs), s'. split; [reflexivity|]. split; [lia|].
      constructor; [discriminate|assumption].
Qed.

Lemma beast_loop_returns (fuel : nat) (s : bytes) :
  (length s <= fuel)%nat ->
  exists msgs s',
    ArmyR.beast_loop fuel s = Some (msgs, s')
    /\ (length s' < 23)%nat /\ Forall (fun m => length m = 28%nat) msgs.
Proof.
  revert s. induction fuel as [|fuel IH]; intros s Hl.
  - destruct s; [|simpl in Hl; lia]. exists [], []. repeat split; [simpl; lia|constructor].
  - cbn [ArmyR.beast_loop].
    destruct (23 <=? length s)%nat eqn:E23.
    2:{ exists [], s. apply Nat.leb_gt in E23. repeat split; [assumption|constructor]. }
    apply Nat.leb_le in E23.
    destruct s as [|b0 [|b1 t]]; [simpl in E23; lia|simpl in E23; lia|].
    assert (H1 : exists msgs s',
               ArmyR.beast_loop fuel (slice_from 1 (b0 :: b1 :: t)) = Some (msgs, s')
               /\ (length s' < 23)%nat /\ Forall (fun m => length m = 28%nat) msgs).
    { apply IH. rewrite length_slice_from. lia. }
    destruct (ord b0 =? 26); [|exact H1].
    destruct (ord b1 =? 51); [|exact H1].
    destruct (IH (slice_from 23 (b0 :: b1 :: t))) as (msgs & s' & E & Hs' & Hm).
    { rewrite length_slice_from. lia. }
    rewrite E. exists (upper (hex (slice 9 23 (b0 :: b1 :: t))) :: msgs), s'.
    split; [reflexivity|]. split; [assumption|]. constructor; [|assumption].
    rewrite length_upper_hex. unfold slice. rewrite length_firstn, length_skipn.
    cbn [length] in E23 |- *. lia.
Qed.

(** X17. One turn of the receive loop of atc_army_offline.py always
    returns. The buffer it keeps has fewer than 23 bytes, so the cut of a
    buffer above 10000 bytes to its last 1000 never takes place, and no
    message it hands to [_process_message] is empty. *)
Theorem army_feed_returns (buffer data : bytes) :
  exists msgs kept,
    ArmyR.feed buffer data = Some (msgs, kept)
    /\ (length kept < 23)%nat
    /\ Forall (fun m => m <> []) msgs.
Proof.
  unfold ArmyR.feed. cbv zeta.
  destruct (avr_loop_returns (length (buffer ++ data)) (buffer ++ data) (le_n _))
    as (m1 & s1 & E1 & _ & F1).
  rewrite E1.
  destruct (beast_loop_returns (length s1) s1 (le_n _)) as (m2 & s2 & E2 & L2 & F2).
  rewrite E2.
  replace (10000 <? Z.of_nat (length s2)) with false by lia.
  exists (m1 ++ m2), s2. split; [reflexivity|]. split; [assumption|].
  apply Forall_app. split; [assumption|].
  eapply Forall_impl; [|exact F2]. intros m Hm ->. discriminate Hm.
Qed.

Lemma beast_loop_drops (fuel : nat) (s : bytes) :
  forallb (fun c => negb (ord c =? 26)) s = true -> (length s <= fuel)%nat ->
  ArmyR.beast_loop fuel s = Some ([], skipn (length s - 22) s).
Proof.
  revert s. induction fuel as [|fuel IH]; intros s Hs Hl.
  - destruct s; [reflexivity|simpl in Hl; lia].
  - cbn [ArmyR.beast_loop].
    destruct (23 <=? length s)%nat eqn:E23.
    2:{ apply Nat.leb_gt in E23. replace (length s - 22)%nat with 0%nat by lia. reflexivity. }
    apply Nat.leb_le in E23.
    destruct s as [|b0 [|b1 t]]; [simpl in E23; lia|simpl in E23; lia|].
    cbn [forallb] in Hs. apply andb_prop in Hs. destruct Hs as [H0 Hs].
    apply negb_true_iff in H0. rewrite H0.
    unfold slice_from. cbn [skipn]. rewrite IH; [|exact Hs|simpl in Hl |- *; lia].
    f_equal. f_equal.
    replace (length (b0 :: b1 :: t) - 22)%nat with (S (length (b1 :: t) - 22))
      by (simpl in E23 |- *; lia).
    reflexivity.
Qed.

Lemma hex_char_not_esc (c : ascii) : is_digit 16 c = true -> negb (ord c =? 26) = true.
Proof.
  destruct c as [[|] [|] [|] [|] [|] [|] [|] [|]]; vm_compute; intros H;
    try discriminate H; reflexivity.
Qed.

Lemma hex_str_not_esc (s : str) :
  digit_str 16 s -> forallb (fun c => negb (ord c =? 26)) s = true.
Proof.
  induction 1 as [|x s Hx _ IH]; [reflexivity|].
  cbn [forallb]. now rewrite (hex_char_not_esc x Hx), IH.
Qed.

(** X18. The receive loop of atc_army_offline.py depends on how the
    stream is cut into reads. When the star and the 28 hexadecimal digits
    of an AVR line arrive in one read and its semicolon in the next, the
    first turn hands on nothing and keeps only the last 22 digits, the
    second hands on nothing either: the message, which is handed on when
    the line arrives in one read, is lost. *)
Theorem army_split_line_lost (msg : str) :
  digit_str 16 msg -> length msg = 28%nat ->
  ArmyR.feed [] ("*"%char :: msg) = Some ([], skipn 6 msg)
  /\ ArmyR.feed (skipn 6 msg) [";"%char; newline]
     = Some ([], skipn 8 msg ++ [";"%char; newline])
  /\ ArmyR.feed [] ("*"%char :: msg ++ [";"%char; newline]) = Some ([msg], [newline]).
Proof.
  intros Hd Hl.
  assert (Hsemi : contains ";" msg = false) by (now apply hex_str_plain).
  assert (Hstar : contains "*" msg = false) by (now apply hex_str_plain).
  pose proof (hex_str_not_esc msg Hd) as Hesc.
  split; [|split].
  - unfold ArmyR.feed. cbv zeta. cbn [app].
    rewrite avr_loop_quiet.
    2:{ change ("*"%char :: msg) with (["*"%char] ++ msg).
        rewrite (contains_app ";"), Hsemi. reflexivity. }
    rewrite beast_loop_drops; [|cbn [forallb]; now rewrite Hesc|apply le_n].
    replace (length ("*"%char :: msg) - 22)%nat with 7%nat by (cbn [length]; lia).
    change (skipn 7 ("*"%char :: msg)) with (skipn 6 msg).
    rewrite length_skipn, Hl. reflexivity.
  - unfold ArmyR.feed. cbv zeta.
    rewrite avr_loop_quiet.
    2:{ rewrite (contains_app "*").
        assert (Hk : contains "*" (skipn 6 msg) = false).
        { rewrite <- (firstn_skipn 6 msg), contains_app in Hstar.
          now apply orb_false_elim in Hstar. }
        rewrite Hk. reflexivity. }
    rewrite beast_loop_drops; [| |apply le_n].
    + replace (length (skipn 6 msg ++ [";"%char; newline]) - 22)%nat with 2%nat
        by (rewrite length_app, length_skipn, Hl; reflexivity).
      rewrite skipn_app, length_skipn, Hl, skipn_skipn.
      change (skipn (2 - (28 - 6)) [";"%char; newline]) with [";"%char; newline].
      change (2 + 6)%nat with 8%nat.
      rewrite length_app, length_skipn, Hl. reflexivity.
    + rewrite forallb_app. rewrite <- (firstn_skipn 6 msg), forallb_app in Hesc.
      apply andb_prop in Hesc. now rewrite (proj2 Hesc).
  - destruct (avr_line_fed msg [] Hd Hl eq_refl) as [_ H]. exact H.
Qed.

Lemma army_split_line_lost_witness :
  ArmyR.feed [] ("*"%char :: klm_frame) = Some ([], skipn 6 klm_frame)
  /\ ArmyR.feed (skipn 6 klm_frame) [";"%char; newline]
     = Some ([], skipn 8 klm_frame ++ [";"%char; newline])
  /\ ArmyR.feed [] ("*"%char :: klm_frame ++ [";"%char; newline])
     = Some ([klm_frame], [newline]).
Proof.
  apply (army_split_line_lost klm_frame).
  - unfold digit_str. repeat constructor.
  - reflexivity.
Defined.

(** X19. Every message the receive loop of atc_debian9.py hands to
    [_process_message] has exactly 28 characters, whatever was received. *)
Theorem debian9_hands_on_28 (buffer : str) (data : bytes) :
  exists msgs kept,
    DebR.feed buffer data = Some (msgs, kept)
    /\ Forall (fun m => length m = 28%nat) msgs.
Proof.
  rewrite feed_lines. do 2 eexists. split; [reflexivity|].
  unfold accepted. apply Forall_flat_map. apply Forall_forall. intros l _.
  destruct (DebR.accepted_line l) as [m|] eqn:E; [|constructor].
  constructor; [|constructor].
  unfold DebR.accepted_line in E.
  destruct l as [|f l']; [discriminate|].
  destruct (rev (f :: l')) as [|la r]; [discriminate|].
  destruct (Ascii.eqb f "*" && Ascii.eqb la ";"); [|discriminate].
  cbv zeta in E.
  destruct (Nat.eqb _ 28) eqn:E28; [|discriminate].
  injection E as <-. now apply Nat.eqb_eq.
Qed.

End BufferFacts.

Module WindowFacts.
Import Py PyFloat Json Receiver Notions.
Import PyFacts CrcFacts EncoderFacts Evaluations DictFacts ViewFacts.
Import ProcessFacts BeastFacts FrameFacts PositionFacts TrackerFacts VelocityFacts.
Import ReceiverFacts LayoutFacts HexFacts CallsignFacts DeliveryFacts StorageFacts.
Import FootprintFacts ListingFacts TransportFacts LinkFacts BufferFacts.

(** X20. The 10-second window of [_decode_position] of
    atc_army_offline.py. When a position frame of aircraft_simulator.py
    meets, in the sender's entry, a fragment of the other parity whose
    time differs from its own by more than 10, the frame's fragment is
    stored and nothing else changes but [last_seen]: no position is
    computed, and the latitude, longitude and altitude of the entry stay
    as they were. *)
Theorem army_old_pair_not_decoded (M : pymath) (fuel : nat) (icao : str)
  (i N F lat_cpr lon_cpr : Z) (now t : float) (d : dict Army.received)
  (lat_cpr' lon_cpr' : Z) (t' : float) :
  valid_icao icao i -> 0 <= N < 2048 -> (F = 0 \/ F = 1) ->
  0 <= lat_cpr < 2 ^ 17 -> 0 <= lon_cpr < 2 ^ 17 ->
  let key := fixed_digits 16 true 6 i in
  fragment (1 - F) (touched d key now) = Some (lat_cpr', lon_cpr', t') ->
  PrimFloat.ltb 10 (PrimFloat.abs (if F =? 0 then t - t' else t' - t)) = true ->
  exists frame,
    AS.position_frame icao N F lat_cpr lon_cpr = Some frame
    /\ ArmyR._process_message M fuel frame now t d
       = Some (dict_set d key
                 (ArmyR.store_fragment (touched d key now) F lat_cpr lon_cpr t)).
Proof.
  intros Hi HN HF Hlat Hlon key Hfr Hold.
  destruct (as_position_fields icao i N F lat_cpr lon_cpr Hi HN HF Hlat Hlon)
    as (frame & me & Hf & Hl & Hme & Hrd).
  destruct (as_position_frame_header icao i N F lat_cpr lon_cpr Hi HN HF Hlat Hlon)
    as (tail & Hsh & Hdt & Hlt).
  destruct (as_finish_header i 11 tail (proj2 Hi) ltac:(lia) Hdt Hlt)
    as (frame' & Hf' & _ & Hdf & Hk & Htc & _).
  rewrite Hsh, Hf' in Hf. injection Hf as ->.
  exists frame. split; [now rewrite Hsh|].
  rewrite (army_process_df17 M fuel frame 11 now t d Hl Hdf Htc), Hk. fold key.
  pose proof (army_position_fields frame me _ F lat_cpr lon_cpr Hme Hrd) as Hpf.
  unfold ArmyR.dispatch. cbn [Z.leb Z.compare Pos.compare Pos.compare_cont andb].
  unfold ArmyR._decode_position. rewrite Hpf. cbv zeta.
  unfold fragment in Hfr.
  destruct HF as [-> | ->]; cbn in Hfr, Hold |- *; rewrite Hfr; cbn [snd];
    rewrite Hold; reflexivity.
Qed.

Lemma army_old_pair_not_decoded_witness :
  exists frame,
    AS.position_frame (py "40621D") 1560 1 33860 0 = Some frame
    /\ ArmyR._process_message no_math 0 frame 20 20 [(py "40621D", waiting_ac)]
       = Some [(py "40621D",
                ArmyR.store_fragment (ArmyR.touch waiting_ac 20) 1 33860 0 20)].
Proof.
  apply (army_old_pair_not_decoded no_math 0 (py "40621D") 0x40621D 1560 1 33860 0
           20%float 20%float [(py "40621D", waiting_ac)] 1000 2000 0%float).
  - split; [reflexivity|lia].
  - lia.
  - now right.
  - simpl; lia.
  - simpl; lia.
  - reflexivity.
  - vm_compute. reflexivity.
Defined.

End WindowFacts.

